(** * KiwiMark: a shallow embedding of [kiwimark/kiwimark.py]

  The converter turns a list of plain-text lines into a list of HTML
  lines.  It is written around Python's [re] module, so the development
  starts with a model of the Python strings and of the backtracking
  regular-expression matcher the script relies on, then gives the
  regular expressions of the script as syntax trees, the line scanner
  ([KiwiLineScanner]), the section state ([KiwiState]) and the converter
  itself ([KiwiMarkup]).

  Characters are 8-bit ([ascii]); a Python [str] is a [list ascii].
  Whitespace is the set Python 2 uses for byte strings, both for
  [str.strip] and for the class [\s]. *)

From Stdlib Require Import Ascii String Bool Arith ZArith Lia List.
From Stdlib Require Import Numbers.DecimalString.
Import ListNotations.

Set Implicit Arguments.
Set Warnings "-comment-terminator-in-string".

(** ** Python strings *)

Definition str := list ascii.

Coercion list_ascii_of_string : string >-> list.

Open Scope string_scope.
Open Scope list_scope.
Open Scope nat_scope.

Module Py.

Definition TAB : ascii := "009"%char.
Definition NL : ascii := "010"%char.
Definition VT : ascii := "011"%char.
Definition FF : ascii := "012"%char.
Definition CR : ascii := "013"%char.
Definition SP : ascii := " "%char.
Definition DQUOTE : ascii := "034"%char.

(** [c.isspace()] on a byte string *)
Definition isspace (c : ascii) : bool :=
  Ascii.eqb c SP || Ascii.eqb c TAB || Ascii.eqb c NL
  || Ascii.eqb c VT || Ascii.eqb c FF || Ascii.eqb c CR.

Definition str_eqb (a b : str) : bool :=
  if list_eq_dec ascii_dec a b then true else false.

(** [s.lstrip()] *)
Fixpoint lstrip (s : str) : str :=
  match s with
  | c :: t => if isspace c then lstrip t else s
  | [] => []
  end.

(** [s.rstrip()] *)
Fixpoint rstrip (s : str) : str :=
  match s with
  | [] => []
  | c :: t =>
      match rstrip t with
      | [] => if isspace c then [] else [c]
      | t' => c :: t'
      end
  end.

(** [s.strip()] *)
Definition strip (s : str) : str := lstrip (rstrip s).

(** [s.split(sep)] for a one-character separator: never the empty list *)
Fixpoint split (sep : ascii) (s : str) : list str :=
  match s with
  | [] => [[]]
  | c :: t =>
      if Ascii.eqb c sep then [] :: split sep t
      else match split sep t with
           | piece :: more => (c :: piece) :: more
           | [] => [[c]]
           end
  end.

(** [s * n]: a string repeated; the empty string when [n <= 0] *)
Definition mul (s : str) (n : Z) : str :=
  concat (repeat s (Z.to_nat n)).

(** [s[n:]] *)
Definition slice_from (n : nat) (s : str) : str := skipn n s.

(** [s[0:n]] *)
Definition slice_to (n : nat) (s : str) : str := firstn n s.

(** ["%d" % n] for a length or a level *)
Definition fmt_d (n : nat) : str :=
  list_ascii_of_string (NilZero.string_of_uint (Nat.to_uint n)).

(** [cgi.escape(s)] (without [quote]) *)
Definition escape_char (c : ascii) : str :=
  if Ascii.eqb c "&" then "&amp;"
  else if Ascii.eqb c "<" then "&lt;"
  else if Ascii.eqb c ">" then "&gt;"
  else [c].

Definition escape (s : str) : str := flat_map escape_char s.

(** [re.sub("\t", "    ", s)]: the pattern is one literal character *)
Definition detab_char (c : ascii) : str :=
  if Ascii.eqb c TAB then "    " else [c].

Definition detab (s : str) : str := flat_map detab_char s.

Fixpoint startswith (p s : str) : bool :=
  match p, s with
  | [], _ => true
  | a :: p', b :: s' => Ascii.eqb a b && startswith p' s'
  | _ :: _, [] => false
  end.

(** [sub in s] *)
Fixpoint contains (sub s : str) : bool :=
  startswith sub s ||
  match s with
  | [] => false
  | _ :: t => contains sub t
  end.

(** [l[-1]] when the list is not empty *)
Definition last_opt (A : Type) (l : list A) : option A :=
  match rev l with
  | x :: _ => Some x
  | [] => None
  end.

(** [l.pop()] *)
Definition pop (A : Type) (l : list A) : list A := removelast l.

End Py.

(** ** Errors a run can raise *)

Inductive pyerror : Type :=
| AssertionError
| TypeError
| UnmatchedGroup
| InvalidGroupReference.

Inductive result (A : Type) : Type :=
| OK (a : A)
| Raise (e : pyerror).

Arguments OK {A} a.
Arguments Raise {A} e.

Definition bind (A B : Type) (c : result A) (f : A -> result B) : result B :=
match c with
| OK a => f a
| Raise e => Raise e
end.

Notation "x <- c ;; k" := (bind c (fun x => k))
(at level 61, c at next level, right associativity).

(** ** The regular expressions of Python's [re], as far as the script uses them *)

Module Re.

Inductive regex : Type :=
| Eps
| Bol                                   (* ^ *)
| Eol                                   (* $ *)
| Chr (c : ascii)                       (* a literal character *)
| Cls (p : ascii -> bool)               (* a character class *)
| Seq (r1 r2 : regex)
| Alt (r1 r2 : regex)                   (* r1|r2, r1 tried first *)
| Grp (n : nat) (r : regex)             (* capture group number n *)
| Rep (lo : nat) (hi : option nat) (r : regex).  (* greedy {lo,hi} *)

Definition star (r : regex) : regex := Rep 0 None r.
Definition plus (r : regex) : regex := Rep 1 None r.

Fixpoint seqs (l : list regex) : regex :=
  match l with
  | [] => Eps
  | [r] => r
  | r :: t => Seq r (seqs t)
  end.

Definition lit (s : str) : regex := seqs (map Chr s).

(** The number of groups of a pattern: [pattern.groups] *)
Fixpoint ngroups (r : regex) : nat :=
  match r with
  | Seq a b | Alt a b => Nat.max (ngroups a) (ngroups b)
  | Grp n a => Nat.max n (ngroups a)
  | Rep _ _ a => ngroups a
  | _ => 0
  end.

(** A position in the subject: the offset, what is left to read, and the
    text of the groups closed so far (latest first). *)
Record mstate : Type := MState {
  pos : nat;
  rest : str;
  caps : list (nat * str)
}.

Definition advance (st : mstate) (t : str) : mstate :=
  {| pos := S (pos st); rest := t; caps := caps st |}.

Definition consumed (st st' : mstate) : str :=
  firstn (length (rest st) - length (rest st')) (rest st).

Definition set_group (n : nat) (st st' : mstate) : mstate :=
  {| pos := pos st'; rest := rest st'; caps := (n, consumed st st') :: caps st' |}.

Definition cont := mstate -> option mstate.

(** Greedy repetition: one more round of [body] first, and only when
    that way fails, stop here (when [lo] rounds were made).  A round
    that reads nothing is not repeated. *)
Fixpoint rep_loop (body : mstate -> cont -> option mstate)
         (fuel lo : nat) (hi : option nat) (st : mstate) (k : cont)
  : option mstate :=
  let stop := if lo =? 0 then k st else None in
  match fuel with
  | 0 => stop
  | S f =>
      match hi with
      | Some 0 => stop
      | _ =>
          match body st (fun st' =>
                  if length (rest st') <? length (rest st)
                  then rep_loop body f (pred lo) (option_map pred hi) st' k
                  else None) with
          | Some m => Some m
          | None => stop
          end
      end
  end.

(** The backtracking matcher, in continuation-passing style: [run r st k]
    is the first way, in Python's order, to match [r] from [st] such that
    [k] accepts what follows. *)
Fixpoint run (r : regex) (st : mstate) (k : cont) {struct r} : option mstate :=
  match r with
  | Eps => k st
  | Bol => if pos st =? 0 then k st else None
  | Eol =>
      match rest st with
      | [] => k st
      | [c] => if Ascii.eqb c Py.NL then k st else None
      | _ => None
      end
  | Chr c =>
      match rest st with
      | x :: t => if Ascii.eqb x c then k (advance st t) else None
      | [] => None
      end
  | Cls p =>
      match rest st with
      | x :: t => if p x then k (advance st t) else None
      | [] => None
      end
  | Seq r1 r2 => run r1 st (fun st' => run r2 st' k)
  | Alt r1 r2 =>
      match run r1 st k with
      | Some m => Some m
      | None => run r2 st k
      end
  | Grp n r' => run r' st (fun st' => k (set_group n st st'))
  | Rep lo hi r' => rep_loop (run r') (S (length (rest st))) lo hi st k
  end.

(** A match of [r] that starts at offset [p], where [s] is left *)
Definition match_at (r : regex) (p : nat) (s : str) : option mstate :=
  run r {| pos := p; rest := s; caps := [] |} Some.

(** [re.search(r, s)]: the leftmost match *)
Fixpoint search_at (r : regex) (p : nat) (s : str) : option mstate :=
  match match_at r p s with
  | Some m => Some m
  | None =>
      match s with
      | [] => None
      | _ :: t => search_at r (S p) t
      end
  end.

Definition search (r : regex) (s : str) : option mstate := search_at r 0 s.

Definition matches (r : regex) (s : str) : bool :=
  match search r s with Some _ => true | None => false end.

(** [m.group(n)] for [1 <= n <= pattern.groups]: [None] when the group
    took no part in the match *)
Fixpoint lookup (n : nat) (l : list (nat * str)) : option str :=
  match l with
  | [] => None
  | (i, s) :: t => if i =? n then Some s else lookup n t
  end.

Definition group (m : mstate) (n : nat) : option str := lookup n (caps m).

(** [m.groups()[n-1]] where the script takes its length or its text *)
Definition group_text (m : mstate) (n : nat) : str :=
  match group m n with Some s => s | None => [] end.

(** A replacement template, parsed: literal text and group references *)
Inductive titem : Type :=
| Lit (s : str)
| Ref (n : nat).

Definition template := list titem.

Definition valid_item (r : regex) (i : titem) : bool :=
  match i with
  | Lit _ => true
  | Ref n => n <=? ngroups r
  end.

(** [sre_parse.expand_template]: a reference to a group for which [g]
    answers [None] raises "unmatched group" *)
Fixpoint expand_template (g : nat -> option str) (t : template) : result str :=
  match t with
  | [] => OK []
  | Lit s :: t' => tl <- expand_template g t' ;; OK (s ++ tl)
  | Ref n :: t' =>
      match g n with
      | Some s => tl <- expand_template g t' ;; OK (s ++ tl)
      | None => Raise UnmatchedGroup
      end
  end.

(** The loop of [re.sub]: matches are replaced from left to right and do
    not overlap; text between them is copied. *)
Fixpoint sub_loop (fuel : nat) (r : regex) (repl : mstate -> result str)
         (p : nat) (s : str) : result str :=
  match fuel with
  | 0 => OK []
  | S f =>
      match match_at r p s with
      | Some m =>
          out <- repl m ;;
          if length s - length (rest m) =? 0
          then match s with
               | [] => OK out
               | c :: t => tl <- sub_loop f r repl (S p) t ;; OK (out ++ c :: tl)
               end
          else tl <- sub_loop f r repl (pos m) (rest m) ;; OK (out ++ tl)
      | None =>
          match s with
          | [] => OK []
          | c :: t => tl <- sub_loop f r repl (S p) t ;; OK (c :: tl)
          end
      end
  end.

Definition sub_with (r : regex) (repl : mstate -> result str) (s : str) : result str :=
  sub_loop (S (length s)) r repl 0 s.

(** [pattern.sub(template, s)]: the template is checked against the
    pattern once, then expanded at every match with [m.group] *)
Definition sub (r : regex) (t : template) (s : str) : result str :=
  if forallb (valid_item r) t
  then sub_with r (fun m => expand_template (group m) t) s
  else Raise InvalidGroupReference.

End Re.

(** ** The patterns of the script *)

Section Patterns.

Import Re.

Definition oneof (s : str) (c : ascii) : bool := existsb (Ascii.eqb c) s.

(** r"\s" and r"[^\s]" *)
Definition ws : regex := Cls Py.isspace.
Definition nonws : regex := Cls (fun c => negb (Py.isspace c)).

(** [[^x]] for the characters of [s] *)
Definition notof (s : str) : regex := Cls (fun c => negb (oneof s c)).

(** [.]: any character but a newline *)
Definition dot : regex := Cls (fun c => negb (Ascii.eqb c Py.NL)).

Definition digit : regex := Cls (oneof "0123456789").

(** HEADER_REGEX = r"^[\s]{0,3}([#]{1,6})[\s]*([^#]*)" *)
Definition HEADER_REGEX : regex :=
  seqs [Bol; Rep 0 (Some 3) ws; Grp 1 (Rep 1 (Some 6) (Chr "#"));
        star ws; Grp 2 (star (notof "#"))].

(** LIST_REGEX = r"^([\s]*)[\*][\s]+(.*)" *)
Definition LIST_REGEX : regex :=
  seqs [Bol; Grp 1 (star ws); Chr "*"; plus ws; Grp 2 (star dot)].

(** TABLE_HEADER_REGEX = r"^[\s]{0,3}(\||\+)*((-{3,})(\||\+))+" *)
Definition TABLE_HEADER_REGEX : regex :=
  seqs [Bol; Rep 0 (Some 3) ws;
        star (Grp 1 (Alt (Chr "|") (Chr "+")));
        plus (Grp 2 (Seq (Grp 3 (Rep 3 None (Chr "-")))
                         (Grp 4 (Alt (Chr "|") (Chr "+")))))].

(** BOLD_START_REGEX = r"(^|[\[\]\s]| _)(\*\*)([^\s])" *)
Definition BOLD_START_REGEX : regex :=
  seqs [Grp 1 (Alt Bol (Alt (Cls (fun c => oneof "[]" c || Py.isspace c)) (lit " _")));
        Grp 2 (lit "**"); Grp 3 nonws].

(** The closing punctuation class, r"[\):;.,?\[\]\s]" *)
Definition closing (c : ascii) : bool := oneof "):;.,?[]" c || Py.isspace c.

(** BOLD_END_REGEX = r"([^\s])(\*\*)(_ |[\):;.,?\[\]\s]+|$)" *)
Definition BOLD_END_REGEX : regex :=
  seqs [Grp 1 nonws; Grp 2 (lit "**");
        Grp 3 (Alt (lit "_ ") (Alt (plus (Cls closing)) Eol))].

(** EMPH_START_REGEX = r"(^|[\[\]\s\Q]|<b>)(_)([^\s])", where Q stands
    for the double-quote character *)
Definition EMPH_START_REGEX : regex :=
  seqs [Grp 1 (Alt Bol
                (Alt (Cls (fun c => oneof "[]" c || Py.isspace c || Ascii.eqb c Py.DQUOTE))
                     (lit "<b>")));
        Grp 2 (Chr "_"); Grp 3 nonws].

(** EMPH_END_REGEX = r"([^\s])(_)(<\/b>|[\):;.,?\Q\[\]\s]+|$)", Q as above *)
Definition EMPH_END_REGEX : regex :=
  seqs [Grp 1 nonws; Grp 2 (Chr "_");
        Grp 3 (Alt (lit "</b>")
                 (Alt (plus (Cls (fun c => closing c || Ascii.eqb c Py.DQUOTE))) Eol))].

(** MD_URL_REGEX = r"\[([^]]*)\]\(([^\)]*)\)" *)
Definition MD_URL_REGEX : regex :=
  seqs [Chr "["; Grp 1 (star (notof "]")); Chr "]"; Chr "(";
        Grp 2 (star (notof ")")); Chr ")"].

(** ORG_URL_REGEX = r"\[\[([^]]*)\]\[([^]]*)\]\]" *)
Definition ORG_URL_REGEX : regex :=
  seqs [Chr "["; Chr "["; Grp 1 (star (notof "]")); Chr "]"; Chr "[";
        Grp 2 (star (notof "]")); Chr "]"; Chr "]"].

(** MD_IMG_REGEX = r"!\[([^]]*)\]\(([^\)]*)\)" *)
Definition MD_IMG_REGEX : regex :=
  seqs [Chr "!"; Chr "["; Grp 1 (star (notof "]")); Chr "]"; Chr "(";
        Grp 2 (star (notof ")")); Chr ")"].

(** The tail the three extended forms share,
    r"(()|\.([^\]:]*))(()|:([^\]]*))\]\(([^\)]*)\)" *)
Definition extended_tail : list regex :=
  [Grp 1 (Alt (Grp 2 Eps) (Seq (Chr ".") (Grp 3 (star (notof "]:")))));
   Grp 4 (Alt (Grp 5 Eps) (Seq (Chr ":") (Grp 6 (star (notof "]")))));
   Chr "]"; Chr "("; Grp 7 (star (notof ")")); Chr ")"].

(** IMG_REGEX = r"\[img(()|\.([^\]:]*))(()|:([^\]]*))\]\(([^\)]*)\)" *)
Definition IMG_REGEX : regex := seqs (Chr "[" :: lit "img" :: extended_tail).

(** AUDIO_REGEX = r"\[audio(()|\.([^\]:]*))(()|:([^\]]*))\]\(([^\)]*)\)" *)
Definition AUDIO_REGEX : regex := seqs (Chr "[" :: lit "audio" :: extended_tail).

(** LINK_REGEX = r"\[link(()|\.([^\]:]*))(()|:([^\]]*))\]\(([^\)]*)\)" *)
Definition LINK_REGEX : regex := seqs (Chr "[" :: lit "link" :: extended_tail).

(** FOOTNOTE_REGEX = r"\[\^([0-9]+)\]" *)
Definition FOOTNOTE_REGEX : regex :=
  seqs [Chr "["; Chr "^"; Grp 1 (plus digit); Chr "]"].

(** FOOTNOTE_TARGET_REGEX = r"\[\^([0-9]+)\]:" *)
Definition FOOTNOTE_TARGET_REGEX : regex :=
  seqs [Chr "["; Chr "^"; Grp 1 (plus digit); Chr "]"; Chr ":"].

(** CODEBLOCK_START_REGEX = r"^[\s]*code:([^\s]*)[\s]*$" *)
Definition CODEBLOCK_START_REGEX : regex :=
  seqs [Bol; star ws; lit "code:"; Grp 1 (star nonws); star ws; Eol].

(** CODEBLOCK_END_REGEX = r"^[\s]*:code[\s]*$" *)
Definition CODEBLOCK_END_REGEX : regex :=
  seqs [Bol; star ws; lit ":code"; star ws; Eol].

(** r"^={5,}=+$", in [check_for_header] *)
Definition SETEXT1_REGEX : regex :=
  seqs [Bol; Rep 5 None (Chr "="); plus (Chr "="); Eol].

(** r"^-{5,}-+$", in [check_for_header] *)
Definition SETEXT2_REGEX : regex :=
  seqs [Bol; Rep 5 None (Chr "-"); plus (Chr "-"); Eol].

(** r"^[-]{5}[-]+$", in [check_for_horizontal_line] *)
Definition HRULE_REGEX : regex :=
  seqs [Bol; Rep 5 (Some 5) (Chr "-"); plus (Chr "-"); Eol].

(** "-*- mode: org -*-", as [execute] hands it to [re.search]: each
    hyphen followed by a star is a repetition of hyphens *)
Definition ORG_MODE_REGEX : regex :=
  seqs [star (Chr "-"); lit "- mode: org "; star (Chr "-"); Chr "-"].

End Patterns.

(** ** The converter *)

(** KIWI_MODE_STD = 0, KIWI_MODE_ORG = 1 *)
Inductive kmode : Type :=
| KIWI_MODE_STD
| KIWI_MODE_ORG.

Definition kmode_eqb (a b : kmode) : bool :=
  match a, b with
  | KIWI_MODE_STD, KIWI_MODE_STD | KIWI_MODE_ORG, KIWI_MODE_ORG => true
  | _, _ => false
  end.

(** *** [class KiwiState]: the open sections.  The class also declares
    [inBold] and [inItalic], which nothing reads or writes. *)

Record KiwiState : Type := MkState {
  inParagraph : bool;
  inTable : bool;
  inList : bool;
  inBlock : bool;
  inOrgSection : bool;
  inCodeSection : bool
}.

Definition set_inParagraph (v : bool) (x : KiwiState) : KiwiState :=
  {| inParagraph := v; inTable := inTable x; inList := inList x; inBlock := inBlock x; inOrgSection := inOrgSection x; inCodeSection := inCodeSection x |}.
Definition set_inTable (v : bool) (x : KiwiState) : KiwiState :=
  {| inParagraph := inParagraph x; inTable := v; inList := inList x; inBlock := inBlock x; inOrgSection := inOrgSection x; inCodeSection := inCodeSection x |}.
Definition set_inList (v : bool) (x : KiwiState) : KiwiState :=
  {| inParagraph := inParagraph x; inTable := inTable x; inList := v; inBlock := inBlock x; inOrgSection := inOrgSection x; inCodeSection := inCodeSection x |}.
Definition set_inBlock (v : bool) (x : KiwiState) : KiwiState :=
  {| inParagraph := inParagraph x; inTable := inTable x; inList := inList x; inBlock := v; inOrgSection := inOrgSection x; inCodeSection := inCodeSection x |}.
Definition set_inOrgSection (v : bool) (x : KiwiState) : KiwiState :=
  {| inParagraph := inParagraph x; inTable := inTable x; inList := inList x; inBlock := inBlock x; inOrgSection := v; inCodeSection := inCodeSection x |}.
Definition set_inCodeSection (v : bool) (x : KiwiState) : KiwiState :=
  {| inParagraph := inParagraph x; inTable := inTable x; inList := inList x; inBlock := inBlock x; inOrgSection := inOrgSection x; inCodeSection := v |}.

(** A new [KiwiState()] *)
Definition new_state : KiwiState :=
  {| inParagraph := false; inTable := false; inList := false;
     inBlock := false; inOrgSection := false; inCodeSection := false |}.

(** *** [class KiwiLineScanner]: what is known about the current line *)

Module Line.

Record t : Type := Mk {
  isParagraph : bool;
  isHeader : bool;
  isList : bool;
  isTable : bool;
  isTableHeader : bool;
  isBlankLine : bool;
  isBlock : bool;
  isHorizontalLine : bool;
  isOrgHeader : bool;
  isCodeStart : bool;
  isCodeEnd : bool;
  skipNextLine : bool;
  headerLevel : nat;
  headerText : str;
  listIndent : nat;
  listText : str;
  isNestedList : bool;
  codeLanguage : str;
  tableColumns : list str;
  mode : kmode
}.

Definition set_isParagraph (v : bool) (x : t) : t :=
  {| isParagraph := v; isHeader := isHeader x; isList := isList x; isTable := isTable x; isTableHeader := isTableHeader x; isBlankLine := isBlankLine x; isBlock := isBlock x; isHorizontalLine := isHorizontalLine x; isOrgHeader := isOrgHeader x; isCodeStart := isCodeStart x; isCodeEnd := isCodeEnd x; skipNextLine := skipNextLine x; headerLevel := headerLevel x; headerText := headerText x; listIndent := listIndent x; listText := listText x; isNestedList := isNestedList x; codeLanguage := codeLanguage x; tableColumns := tableColumns x; mode := mode x |}.
Definition set_isHeader (v : bool) (x : t) : t :=
  {| isParagraph := isParagraph x; isHeader := v; isList := isList x; isTable := isTable x; isTableHeader := isTableHeader x; isBlankLine := isBlankLine x; isBlock := isBlock x; isHorizontalLine := isHorizontalLine x; isOrgHeader := isOrgHeader x; isCodeStart := isCodeStart x; isCodeEnd := isCodeEnd x; skipNextLine := skipNextLine x; headerLevel := headerLevel x; headerText := headerText x; listIndent := listIndent x; listText := listText x; isNestedList := isNestedList x; codeLanguage := codeLanguage x; tableColumns := tableColumns x; mode := mode x |}.
Definition set_isList (v : bool) (x : t) : t :=
  {| isParagraph := isParagraph x; isHeader := isHeader x; isList := v; isTable := isTable x; isTableHeader := isTableHeader x; isBlankLine := isBlankLine x; isBlock := isBlock x; isHorizontalLine := isHorizontalLine x; isOrgHeader := isOrgHeader x; isCodeStart := isCodeStart x; isCodeEnd := isCodeEnd x; skipNextLine := skipNextLine x; headerLevel := headerLevel x; headerText := headerText x; listIndent := listIndent x; listText := listText x; isNestedList := isNestedList x; codeLanguage := codeLanguage x; tableColumns := tableColumns x; mode := mode x |}.
Definition set_isTable (v : bool) (x : t) : t :=
  {| isParagraph := isParagraph x; isHeader := isHeader x; isList := isList x; isTable := v; isTableHeader := isTableHeader x; isBlankLine := isBlankLine x; isBlock := isBlock x; isHorizontalLine := isHorizontalLine x; isOrgHeader := isOrgHeader x; isCodeStart := isCodeStart x; isCodeEnd := isCodeEnd x; skipNextLine := skipNextLine x; headerLevel := headerLevel x; headerText := headerText x; listIndent := listIndent x; listText := listText x; isNestedList := isNestedList x; codeLanguage := codeLanguage x; tableColumns := tableColumns x; mode := mode x |}.
Definition set_isTableHeader (v : bool) (x : t) : t :=
  {| isParagraph := isParagraph x; isHeader := isHeader x; isList := isList x; isTable := isTable x; isTableHeader := v; isBlankLine := isBlankLine x; isBlock := isBlock x; isHorizontalLine := isHorizontalLine x; isOrgHeader := isOrgHeader x; isCodeStart := isCodeStart x; isCodeEnd := isCodeEnd x; skipNextLine := skipNextLine x; headerLevel := headerLevel x; headerText := headerText x; listIndent := listIndent x; listText := listText x; isNestedList := isNestedList x; codeLanguage := codeLanguage x; tableColumns := tableColumns x; mode := mode x |}.
Definition set_isBlankLine (v : bool) (x : t) : t :=
  {| isParagraph := isParagraph x; isHeader := isHeader x; isList := isList x; isTable := isTable x; isTableHeader := isTableHeader x; isBlankLine := v; isBlock := isBlock x; isHorizontalLine := isHorizontalLine x; isOrgHeader := isOrgHeader x; isCodeStart := isCodeStart x; isCodeEnd := isCodeEnd x; skipNextLine := skipNextLine x; headerLevel := headerLevel x; headerText := headerText x; listIndent := listIndent x; listText := listText x; isNestedList := isNestedList x; codeLanguage := codeLanguage x; tableColumns := tableColumns x; mode := mode x |}.
Definition set_isBlock (v : bool) (x : t) : t :=
  {| isParagraph := isParagraph x; isHeader := isHeader x; isList := isList x; isTable := isTable x; isTableHeader := isTableHeader x; isBlankLine := isBlankLine x; isBlock := v; isHorizontalLine := isHorizontalLine x; isOrgHeader := isOrgHeader x; isCodeStart := isCodeStart x; isCodeEnd := isCodeEnd x; skipNextLine := skipNextLine x; headerLevel := headerLevel x; headerText := headerText x; listIndent := listIndent x; listText := listText x; isNestedList := isNestedList x; codeLanguage := codeLanguage x; tableColumns := tableColumns x; mode := mode x |}.
Definition set_isHorizontalLine (v : bool) (x : t) : t :=
  {| isParagraph := isParagraph x; isHeader := isHeader x; isList := isList x; isTable := isTable x; isTableHeader := isTableHeader x; isBlankLine := isBlankLine x; isBlock := isBlock x; isHorizontalLine := v; isOrgHeader := isOrgHeader x; isCodeStart := isCodeStart x; isCodeEnd := isCodeEnd x; skipNextLine := skipNextLine x; headerLevel := headerLevel x; headerText := headerText x; listIndent := listIndent x; listText := listText x; isNestedList := isNestedList x; codeLanguage := codeLanguage x; tableColumns := tableColumns x; mode := mode x |}.
Definition set_isOrgHeader (v : bool) (x : t) : t :=
  {| isParagraph := isParagraph x; isHeader := isHeader x; isList := isList x; isTable := isTable x; isTableHeader := isTableHeader x; isBlankLine := isBlankLine x; isBlock := isBlock x; isHorizontalLine := isHorizontalLine x; isOrgHeader := v; isCodeStart := isCodeStart x; isCodeEnd := isCodeEnd x; skipNextLine := skipNextLine x; headerLevel := headerLevel x; headerText := headerText x; listIndent := listIndent x; listText := listText x; isNestedList := isNestedList x; codeLanguage := codeLanguage x; tableColumns := tableColumns x; mode := mode x |}.
Definition set_isCodeStart (v : bool) (x : t) : t :=
  {| isParagraph := isParagraph x; isHeader := isHeader x; isList := isList x; isTable := isTable x; isTableHeader := isTableHeader x; isBlankLine := isBlankLine x; isBlock := isBlock x; isHorizontalLine := isHorizontalLine x; isOrgHeader := isOrgHeader x; isCodeStart := v; isCodeEnd := isCodeEnd x; skipNextLine := skipNextLine x; headerLevel := headerLevel x; headerText := headerText x; listIndent := listIndent x; listText := listText x; isNestedList := isNestedList x; codeLanguage := codeLanguage x; tableColumns := tableColumns x; mode := mode x |}.
Definition set_isCodeEnd (v : bool) (x : t) : t :=
  {| isParagraph := isParagraph x; isHeader := isHeader x; isList := isList x; isTable := isTable x; isTableHeader := isTableHeader x; isBlankLine := isBlankLine x; isBlock := isBlock x; isHorizontalLine := isHorizontalLine x; isOrgHeader := isOrgHeader x; isCodeStart := isCodeStart x; isCodeEnd := v; skipNextLine := skipNextLine x; headerLevel := headerLevel x; headerText := headerText x; listIndent := listIndent x; listText := listText x; isNestedList := isNestedList x; codeLanguage := codeLanguage x; tableColumns := tableColumns x; mode := mode x |}.
Definition set_skipNextLine (v : bool) (x : t) : t :=
  {| isParagraph := isParagraph x; isHeader := isHeader x; isList := isList x; isTable := isTable x; isTableHeader := isTableHeader x; isBlankLine := isBlankLine x; isBlock := isBlock x; isHorizontalLine := isHorizontalLine x; isOrgHeader := isOrgHeader x; isCodeStart := isCodeStart x; isCodeEnd := isCodeEnd x; skipNextLine := v; headerLevel := headerLevel x; headerText := headerText x; listIndent := listIndent x; listText := listText x; isNestedList := isNestedList x; codeLanguage := codeLanguage x; tableColumns := tableColumns x; mode := mode x |}.
Definition set_headerLevel (v : nat) (x : t) : t :=
  {| isParagraph := isParagraph x; isHeader := isHeader x; isList := isList x; isTable := isTable x; isTableHeader := isTableHeader x; isBlankLine := isBlankLine x; isBlock := isBlock x; isHorizontalLine := isHorizontalLine x; isOrgHeader := isOrgHeader x; isCodeStart := isCodeStart x; isCodeEnd := isCodeEnd x; skipNextLine := skipNextLine x; headerLevel := v; headerText := headerText x; listIndent := listIndent x; listText := listText x; isNestedList := isNestedList x; codeLanguage := codeLanguage x; tableColumns := tableColumns x; mode := mode x |}.
Definition set_headerText (v : str) (x : t) : t :=
  {| isParagraph := isParagraph x; isHeader := isHeader x; isList := isList x; isTable := isTable x; isTableHeader := isTableHeader x; isBlankLine := isBlankLine x; isBlock := isBlock x; isHorizontalLine := isHorizontalLine x; isOrgHeader := isOrgHeader x; isCodeStart := isCodeStart x; isCodeEnd := isCodeEnd x; skipNextLine := skipNextLine x; headerLevel := headerLevel x; headerText := v; listIndent := listIndent x; listText := listText x; isNestedList := isNestedList x; codeLanguage := codeLanguage x; tableColumns := tableColumns x; mode := mode x |}.
Definition set_listIndent (v : nat) (x : t) : t :=
  {| isParagraph := isParagraph x; isHeader := isHeader x; isList := isList x; isTable := isTable x; isTableHeader := isTableHeader x; isBlankLine := isBlankLine x; isBlock := isBlock x; isHorizontalLine := isHorizontalLine x; isOrgHeader := isOrgHeader x; isCodeStart := isCodeStart x; isCodeEnd := isCodeEnd x; skipNextLine := skipNextLine x; headerLevel := headerLevel x; headerText := headerText x; listIndent := v; listText := listText x; isNestedList := isNestedList x; codeLanguage := codeLanguage x; tableColumns := tableColumns x; mode := mode x |}.
Definition set_listText (v : str) (x : t) : t :=
  {| isParagraph := isParagraph x; isHeader := isHeader x; isList := isList x; isTable := isTable x; isTableHeader := isTableHeader x; isBlankLine := isBlankLine x; isBlock := isBlock x; isHorizontalLine := isHorizontalLine x; isOrgHeader := isOrgHeader x; isCodeStart := isCodeStart x; isCodeEnd := isCodeEnd x; skipNextLine := skipNextLine x; headerLevel := headerLevel x; headerText := headerText x; listIndent := listIndent x; listText := v; isNestedList := isNestedList x; codeLanguage := codeLanguage x; tableColumns := tableColumns x; mode := mode x |}.
Definition set_isNestedList (v : bool) (x : t) : t :=
  {| isParagraph := isParagraph x; isHeader := isHeader x; isList := isList x; isTable := isTable x; isTableHeader := isTableHeader x; isBlankLine := isBlankLine x; isBlock := isBlock x; isHorizontalLine := isHorizontalLine x; isOrgHeader := isOrgHeader x; isCodeStart := isCodeStart x; isCodeEnd := isCodeEnd x; skipNextLine := skipNextLine x; headerLevel := headerLevel x; headerText := headerText x; listIndent := listIndent x; listText := listText x; isNestedList := v; codeLanguage := codeLanguage x; tableColumns := tableColumns x; mode := mode x |}.
Definition set_codeLanguage (v : str) (x : t) : t :=
  {| isParagraph := isParagraph x; isHeader := isHeader x; isList := isList x; isTable := isTable x; isTableHeader := isTableHeader x; isBlankLine := isBlankLine x; isBlock := isBlock x; isHorizontalLine := isHorizontalLine x; isOrgHeader := isOrgHeader x; isCodeStart := isCodeStart x; isCodeEnd := isCodeEnd x; skipNextLine := skipNextLine x; headerLevel := headerLevel x; headerText := headerText x; listIndent := listIndent x; listText := listText x; isNestedList := isNestedList x; codeLanguage := v; tableColumns := tableColumns x; mode := mode x |}.
Definition set_tableColumns (v : list str) (x : t) : t :=
  {| isParagraph := isParagraph x; isHeader := isHeader x; isList := isList x; isTable := isTable x; isTableHeader := isTableHeader x; isBlankLine := isBlankLine x; isBlock := isBlock x; isHorizontalLine := isHorizontalLine x; isOrgHeader := isOrgHeader x; isCodeStart := isCodeStart x; isCodeEnd := isCodeEnd x; skipNextLine := skipNextLine x; headerLevel := headerLevel x; headerText := headerText x; listIndent := listIndent x; listText := listText x; isNestedList := isNestedList x; codeLanguage := codeLanguage x; tableColumns := v; mode := mode x |}.
Definition set_mode (v : kmode) (x : t) : t :=
  {| isParagraph := isParagraph x; isHeader := isHeader x; isList := isList x; isTable := isTable x; isTableHeader := isTableHeader x; isBlankLine := isBlankLine x; isBlock := isBlock x; isHorizontalLine := isHorizontalLine x; isOrgHeader := isOrgHeader x; isCodeStart := isCodeStart x; isCodeEnd := isCodeEnd x; skipNextLine := skipNextLine x; headerLevel := headerLevel x; headerText := headerText x; listIndent := listIndent x; listText := listText x; isNestedList := isNestedList x; codeLanguage := codeLanguage x; tableColumns := tableColumns x; mode := v |}.
(** A new [KiwiLineScanner(mode)]: the class attributes.  The attributes
    that only [reset] creates are given their [reset] value; nothing reads
    them before the first [scan]. *)
Definition new (m : kmode) : t :=
  {| isParagraph := true; isHeader := false; isList := false; isTable := false;
     isTableHeader := false; isBlankLine := false; isBlock := false;
     isHorizontalLine := false; isOrgHeader := false; isCodeStart := false;
     isCodeEnd := false; skipNextLine := false; headerLevel := 0;
     headerText := []; listIndent := 0; listText := []; isNestedList := false;
     codeLanguage := []; tableColumns := []; mode := m |}.

(** [reset]: every attribute but [isHorizontalLine], which the method
    leaves as it is *)
Definition reset (l : t) : t :=
  {| isParagraph := true; isHeader := false; isList := false; isTable := false;
     isTableHeader := false; isBlankLine := false; isBlock := false;
     isHorizontalLine := isHorizontalLine l;
     isOrgHeader := false; isCodeStart := false;
     isCodeEnd := false; skipNextLine := false; headerLevel := 0;
     headerText := []; listIndent := 0; listText := []; isNestedList := false;
     codeLanguage := []; tableColumns := []; mode := mode l |}.

Definition setext_header (level : nat) (thisLine : str) (l : t) : t :=
  set_headerText thisLine
    (set_headerLevel level
       (set_skipNextLine true (set_isHeader true (set_isParagraph false l)))).

Definition check_for_header (thisLine nextLine : str) (l : t) : t :=
  match Re.search HEADER_REGEX thisLine with
  | Some m =>
      (* match.groups() has two elements, so len(elements) > 1 *)
      set_headerText (Re.group_text m 2)
        (set_headerLevel (length (Re.group_text m 1))
           (set_isHeader true (set_isParagraph false l)))
  | None =>
      if Re.matches SETEXT1_REGEX nextLine then setext_header 1 thisLine l
      else if Re.matches SETEXT2_REGEX nextLine then setext_header 2 thisLine l
      else l
  end.

Definition check_for_table (thisLine nextLine : str) (state : KiwiState) (l : t) : t :=
  let l :=
    if Re.matches TABLE_HEADER_REGEX nextLine
    then set_skipNextLine true (set_isTableHeader true (set_isTable true l))
    else l in
  let l := set_tableColumns (map Py.strip (Py.split "|" thisLine)) l in
  if (3 <=? length (tableColumns l))
     || ((0 <? length (tableColumns l)) && inTable state)
  then set_isTable true l
  else l.

Definition check_for_block (thisLine : str) (state : KiwiState) (l : t) : t :=
  if Py.str_eqb (Py.slice_to 4 thisLine) "    " && negb (inTable state)
  then set_isBlock true (set_isParagraph false l)
  else l.

Definition check_for_list (thisLine nextLine : str) (state : KiwiState) (l : t) : t :=
  match Re.search LIST_REGEX thisLine with
  | Some m =>
      if negb (inBlock state) then
        let l := set_isList true (set_isParagraph false l) in
        let l := set_listIndent (length (Re.group_text m 1)) l in
        let l := set_listText (Re.group_text m 2) l in
        match Re.search LIST_REGEX nextLine with
        | Some m' => set_isNestedList (listIndent l <? length (Re.group_text m' 1)) l
        | None => l
        end
      else l
  | None => l
  end.

Definition check_for_horizontal_line (thisLine : str) (l : t) : t :=
  if Re.matches HRULE_REGEX thisLine
  then set_isHorizontalLine true (set_isParagraph false l)
  else l.

(** [thisLine.strip()[0] == "*"]; [scan] calls this on a line that is not
    blank, so the stripped line has a first character *)
Definition check_for_org_header (thisLine : str) (l : t) : t :=
  match Py.strip thisLine with
  | c :: _ =>
      if Ascii.eqb c "*" then set_isOrgHeader true (set_isParagraph false l) else l
  | [] => l
  end.

Definition check_for_code_start (thisLine : str) (l : t) : t :=
  match Re.search CODEBLOCK_START_REGEX thisLine with
  | Some m => set_codeLanguage (Re.group_text m 1) (set_isCodeStart true l)
  | None => l
  end.

Definition check_for_code_end (thisLine : str) (l : t) : t :=
  if Re.matches CODEBLOCK_END_REGEX thisLine
  then set_codeLanguage [] (set_isCodeEnd true l)
  else l.

(** [scan(thisLine, nextLine, state)] *)
Definition scan (thisLine nextLine : str) (state : KiwiState) (l : t) : t :=
  let l := reset l in
  if Py.str_eqb (Py.strip thisLine) [] then
    set_isParagraph false (set_isBlankLine true l)
  else
    let l := check_for_header thisLine nextLine l in
    let l := check_for_table thisLine nextLine state l in
    let l := check_for_block thisLine state l in
    let l := check_for_list thisLine nextLine state l in
    let l := check_for_horizontal_line thisLine l in
    let l := check_for_code_start thisLine l in
    let l := check_for_code_end thisLine l in
    if kmode_eqb (mode l) KIWI_MODE_ORG then check_for_org_header thisLine l else l.

End Line.

(** *** [class KiwiMarkup].  [state] is made once, by [__init__]; the other
    attributes are made anew by every [execute]. *)

Record KiwiMarkup : Type := MkKiwi {
  state : KiwiState;
  mode : kmode;
  line : Line.t;
  thisLine : option str;
  nextLine : option str;
  indents : list nat;
  output : list str
}.

Definition set_state (v : KiwiState) (x : KiwiMarkup) : KiwiMarkup :=
  {| state := v; mode := mode x; line := line x; thisLine := thisLine x; nextLine := nextLine x; indents := indents x; output := output x |}.
Definition set_mode (v : kmode) (x : KiwiMarkup) : KiwiMarkup :=
  {| state := state x; mode := v; line := line x; thisLine := thisLine x; nextLine := nextLine x; indents := indents x; output := output x |}.
Definition set_line (v : Line.t) (x : KiwiMarkup) : KiwiMarkup :=
  {| state := state x; mode := mode x; line := v; thisLine := thisLine x; nextLine := nextLine x; indents := indents x; output := output x |}.
Definition set_thisLine (v : option str) (x : KiwiMarkup) : KiwiMarkup :=
  {| state := state x; mode := mode x; line := line x; thisLine := v; nextLine := nextLine x; indents := indents x; output := output x |}.
Definition set_nextLine (v : option str) (x : KiwiMarkup) : KiwiMarkup :=
  {| state := state x; mode := mode x; line := line x; thisLine := thisLine x; nextLine := v; indents := indents x; output := output x |}.
Definition set_indents (v : list nat) (x : KiwiMarkup) : KiwiMarkup :=
  {| state := state x; mode := mode x; line := line x; thisLine := thisLine x; nextLine := nextLine x; indents := v; output := output x |}.
Definition set_output (v : list str) (x : KiwiMarkup) : KiwiMarkup :=
  {| state := state x; mode := mode x; line := line x; thisLine := thisLine x; nextLine := nextLine x; indents := indents x; output := v |}.
(** [KiwiMarkup()].  [__init__] sets [state] (and compiles the patterns);
    the attributes [execute] creates are given the values [execute]
    starts them with. *)
Definition new_KiwiMarkup : KiwiMarkup :=
  {| state := new_state; mode := KIWI_MODE_STD; line := Line.new KIWI_MODE_STD;
     thisLine := None; nextLine := None; indents := []; output := [] |}.

(** [self.output.append(s)] *)
Definition append (s : str) (k : KiwiMarkup) : KiwiMarkup :=
  set_output (output k ++ [s]) k.

Definition update_state (f : KiwiState -> KiwiState) (k : KiwiMarkup) : KiwiMarkup :=
  set_state (f (state k)) k.

Definition startParagraph (k : KiwiMarkup) : KiwiMarkup :=
  if negb (inParagraph (state k))
  then update_state (set_inParagraph true) (append "<p>" k)
  else k.

Definition endParagraph (k : KiwiMarkup) : KiwiMarkup :=
  if inParagraph (state k)
  then update_state (set_inParagraph false) (append "</p>" k)
  else k.

Definition startBlock (k : KiwiMarkup) : KiwiMarkup :=
  if negb (inBlock (state k))
  then update_state (set_inBlock true) (append "<pre>" k)
  else k.

Definition endBlock (k : KiwiMarkup) : KiwiMarkup :=
  if inBlock (state k)
  then update_state (set_inBlock false) (append "</pre>" k)
  else k.

(** [listIndent(increment)]: ["    " * (len(self.indents) - 1 + increment)] *)
Definition listIndent (increment : Z) (k : KiwiMarkup) : str :=
  Py.mul "    " (Z.of_nat (length (indents k)) - 1 + increment).

(** [endNestedList]: the method calls itself after each [pop]; every call
    removes one indent, so the number of indents bounds the calls. *)
Fixpoint endNestedList_rec (calls : nat) (k : KiwiMarkup) : KiwiMarkup :=
  match calls with
  | 0 => k
  | S calls' =>
      match Py.last_opt (indents k) with
      | Some indent =>
          if Line.listIndent (line k) <? indent then
            let k := append (listIndent 1 k ++ "</ul>") k in
            let k := append (listIndent 0 k ++ "</li>") k in
            let k := set_indents (Py.pop (indents k)) k in
            endNestedList_rec calls' k
          else k
      | None => k
      end
  end.

Definition endNestedList (k : KiwiMarkup) : KiwiMarkup :=
  endNestedList_rec (length (indents k)) k.

Definition startList (k : KiwiMarkup) : KiwiMarkup :=
  let '(nested, k) :=
    match Py.last_opt (indents k) with
    | Some indent =>
        if indent <? Line.listIndent (line k) then (true, k)
        else if Line.listIndent (line k) <? indent then (false, endNestedList k)
        else (false, k)
    | None => (false, k)
    end in
  if nested || negb (inList (state k)) then
    let k := set_indents (indents k ++ [Line.listIndent (line k)]) k in
    let k := endParagraph k in
    let k := if nested then append (listIndent 1 k ++ "<ul>") k
             else append (listIndent 0 k ++ "<ul>") k in
    update_state (set_inList true) k
  else k.

Definition endList (k : KiwiMarkup) : KiwiMarkup :=
  if inList (state k) then
    let k := if 0 <? length (indents k) then endNestedList k else k in
    if length (indents k) =? 0
    then update_state (set_inList false) (append (listIndent 0 k ++ "</ul>") k)
    else k
  else k.

(** The [while] loop of [endAllLists]: one indent removed per round *)
Fixpoint endAllLists_loop (rounds : nat) (k : KiwiMarkup) : KiwiMarkup :=
  match rounds with
  | 0 => k
  | S rounds' =>
      if 0 <? length (indents k) then
        let k := append (listIndent 1 k ++ "</ul>") k in
        let k := append (listIndent 0 k ++ "</li>") k in
        let k := set_indents (Py.pop (indents k)) k in
        endAllLists_loop rounds' k
      else k
  end.

Definition endAllLists (k : KiwiMarkup) : KiwiMarkup :=
  endList (endAllLists_loop (length (indents k)) k).

Definition startTable (k : KiwiMarkup) : KiwiMarkup :=
  if negb (inTable (state k))
  then update_state (set_inTable true) (append "<table>" k)
  else k.

Definition endTable (k : KiwiMarkup) : KiwiMarkup :=
  if inTable (state k)
  then update_state (set_inTable false) (append "</table>" k)
  else k.

Definition startOrgSection (k : KiwiMarkup) : KiwiMarkup :=
  if negb (inOrgSection (state k))
  then update_state (set_inOrgSection true) (append "<p>" k)
  else k.

Definition endOrgSection (k : KiwiMarkup) : KiwiMarkup :=
  if inOrgSection (state k)
  then update_state (set_inOrgSection false) (append "</p>" k)
  else k.

Definition startCodeSection (k : KiwiMarkup) : KiwiMarkup :=
  if negb (inCodeSection (state k))
  then update_state (set_inCodeSection true) (append "<code>" (append "<pre>" k))
  else k.

Definition endCodeSection (k : KiwiMarkup) : KiwiMarkup :=
  if inCodeSection (state k)
  then update_state (set_inCodeSection false) (append "</pre>" (append "</code>" k))
  else k.

(** [endAllSections]: "Closes any/all open tags" *)
Definition endAllSections (k : KiwiMarkup) : KiwiMarkup :=
  endParagraph (endTable (endAllLists (endBlock (endOrgSection k)))).

Definition addListLine (k : KiwiMarkup) : KiwiMarkup :=
  let k := startList k in
  if Line.isNestedList (line k)
  then set_thisLine (Some (listIndent 1 k ++ "<li>" ++ Line.listText (line k))) k
  else set_thisLine (Some (listIndent 1 k ++ "<li>" ++ Line.listText (line k) ++ "</li>")) k.

(** *** Inline mark-up *)

(** [re_sub(pattern, replacement, string)]: the work-around for the
    "unmatched group" error.  The callable handed to [re.sub] expands the
    template against a wrapper of the match whose [group(n)] is
    [m.group(n) or ""]. *)
Definition wrapped_group (m : Re.mstate) (n : nat) : option str :=
  Some (match Re.group m n with Some s => s | None => [] end).

Definition re_sub (pattern : Re.regex) (replacement : Re.template) (s : str) : result str :=
  Re.sub_with pattern
    (fun m =>
       if forallb (Re.valid_item pattern) replacement
       then Re.expand_template (wrapped_group m) replacement
       else Raise InvalidGroupReference)
    s.

Import Re.

Definition BOLD_START_TEMPLATE : template := [Ref 1; Lit "<b>"; Ref 3].
Definition BOLD_END_TEMPLATE : template := [Ref 1; Lit "</b>"; Ref 3].
Definition EMPH_START_TEMPLATE : template := [Ref 1; Lit "<i>"; Ref 3].
Definition EMPH_END_TEMPLATE : template := [Ref 1; Lit "</i>"; Ref 3].
Definition MD_IMG_TEMPLATE : template :=
  [Lit "<img src='"; Ref 2; Lit "' alt='"; Ref 1; Lit "' title='"; Ref 1; Lit "'/>"].
Definition IMG_TEMPLATE : template :=
  [Lit "<img src='"; Ref 7; Lit "' class='"; Ref 3; Lit "' alt='"; Ref 6;
   Lit "' title='"; Ref 6; Lit "'/>"].
Definition AUDIO_TEMPLATE : template :=
  [Lit "<audio width='300px' height='32px' src='"; Ref 7; Lit "' class='"; Ref 3;
   Lit "' controls='controls'> Your browser does not support audio playback. </audio>"].
Definition LINK_TEMPLATE : template :=
  [Lit "<a href='"; Ref 7; Lit "' class='"; Ref 3; Lit "' alt='"; Ref 6; Lit "'>";
   Ref 6; Lit "</a>"].
Definition MD_URL_TEMPLATE : template :=
  [Lit "<a href='"; Ref 2; Lit "'>"; Ref 1; Lit "</a>"].
Definition ORG_URL_TEMPLATE : template :=
  [Lit "<a href='"; Ref 1; Lit "'>"; Ref 2; Lit "</a>"].
Definition FOOTNOTE_TARGET_TEMPLATE : template :=
  [Ref 1; Lit ". <a name='footnote_target_"; Ref 1; Lit "' href='#footnote_ref_"; Ref 1;
   Lit "'>&#160;&#8617;</a>"].
Definition FOOTNOTE_TEMPLATE : template :=
  [Lit "<a name='footnote_ref_"; Ref 1; Lit "' href='#footnote_target_"; Ref 1;
   Lit "'>[<sup>"; Ref 1; Lit "</sup>]</a>"].

(** [applyInlineMarkup(line)]; it reads [self.line.isOrgHeader] *)
Definition applyInlineMarkup (isOrgHeader : bool) (line : str) : result str :=
  line <- (if negb isOrgHeader
           then (line <- sub BOLD_START_REGEX BOLD_START_TEMPLATE line ;;
                 sub BOLD_END_REGEX BOLD_END_TEMPLATE line)
           else OK line) ;;
  line <- sub EMPH_START_REGEX EMPH_START_TEMPLATE line ;;
  line <- sub EMPH_END_REGEX EMPH_END_TEMPLATE line ;;
  line <- sub MD_IMG_REGEX MD_IMG_TEMPLATE line ;;
  line <- re_sub IMG_REGEX IMG_TEMPLATE line ;;
  line <- re_sub AUDIO_REGEX AUDIO_TEMPLATE line ;;
  line <- re_sub LINK_REGEX LINK_TEMPLATE line ;;
  line <- sub MD_URL_REGEX MD_URL_TEMPLATE line ;;
  line <- sub ORG_URL_REGEX ORG_URL_TEMPLATE line ;;
  line <- sub FOOTNOTE_TARGET_REGEX FOOTNOTE_TARGET_TEMPLATE line ;;
  sub FOOTNOTE_REGEX FOOTNOTE_TEMPLATE line.

(** *** [processLine] *)

(** The bodies of the branches of [processLine].  Each gives the converter
    after the branch and the value of [includeLine]. *)

Definition on_org_header (this : str) (k : KiwiMarkup) : result (KiwiMarkup * bool) :=
  let k := startOrgSection k in
  OK (set_thisLine (Some (this ++ "<br/>")) k, true).

Definition on_code_start (k : KiwiMarkup) : result (KiwiMarkup * bool) :=
  OK (startCodeSection (endAllSections k), false).

Definition on_code_end (k : KiwiMarkup) : result (KiwiMarkup * bool) :=
  OK (endCodeSection k, false).

Definition on_in_code (k : KiwiMarkup) : result (KiwiMarkup * bool) :=
  OK (k, true).

Definition on_list (k : KiwiMarkup) : result (KiwiMarkup * bool) :=
  OK (addListLine (endParagraph (endTable (endBlock (endOrgSection k)))), true).

Definition on_block (k : KiwiMarkup) : result (KiwiMarkup * bool) :=
  OK (startBlock (endParagraph (endTable (endAllLists (endOrgSection k)))), true).

(** The [for column in self.line.tableColumns] loop *)
Fixpoint table_cells (columns : list str) (k : KiwiMarkup) : result KiwiMarkup :=
  match columns with
  | [] => OK k
  | column :: more =>
      column <- applyInlineMarkup (Line.isOrgHeader (line k)) column ;;
      table_cells more
        (if Line.isTableHeader (line k)
         then append ("        <th>" ++ column ++ "</th>") k
         else append ("        <td>" ++ column ++ "</td>") k)
  end.

Definition on_table (k : KiwiMarkup) : result (KiwiMarkup * bool) :=
  let k := startTable (endParagraph (endAllLists (endBlock (endOrgSection k)))) in
  let k := append "    <tr>" k in
  k <- table_cells (Line.tableColumns (line k)) k ;;
  OK (append "    </tr>" k, false).

Definition on_header (k : KiwiMarkup) : result (KiwiMarkup * bool) :=
  let k := endAllSections k in
  OK (set_thisLine
        (Some ("<h" ++ Py.fmt_d (Line.headerLevel (line k)) ++ ">"
               ++ Line.headerText (line k)
               ++ "</h" ++ Py.fmt_d (Line.headerLevel (line k)) ++ ">")) k,
      true).

Definition on_horizontal_line (k : KiwiMarkup) : result (KiwiMarkup * bool) :=
  OK (set_thisLine (Some ("<hr>" : str)) (endAllSections k), true).

Definition on_paragraph (k : KiwiMarkup) : result (KiwiMarkup * bool) :=
  OK (startParagraph (endTable (endAllLists (endBlock (endOrgSection k)))), true).

Definition on_blank_line (k : KiwiMarkup) : result (KiwiMarkup * bool) :=
  OK (endParagraph (endTable (endAllLists (endOrgSection k))), false).

(** The [if] / [elif] chain, after the scan of [this] *)
Definition dispatch (this : str) (k : KiwiMarkup) : result (KiwiMarkup * bool) :=
  if kmode_eqb (mode k) KIWI_MODE_ORG && Line.isOrgHeader (line k) then on_org_header this k
  else if Line.isCodeStart (line k) then on_code_start k
  else if Line.isCodeEnd (line k) then on_code_end k
  else if inCodeSection (state k) then on_in_code k
  else if Line.isList (line k) then on_list k
  else if Line.isBlock (line k) then on_block k
  else if Line.isTable (line k) then on_table k
  else if Line.isHeader (line k) then on_header k
  else if Line.isHorizontalLine (line k) then on_horizontal_line k
  else if Line.isParagraph (line k) then on_paragraph k
  else if Line.isBlankLine (line k) then on_blank_line k
  else OK (k, true).

(** The [if includeLine:] block *)
Definition include_line (k : KiwiMarkup) : result KiwiMarkup :=
  match thisLine k with
  | Some this =>
      if negb (inBlock (state k)) && negb (inCodeSection (state k)) then
        this <- applyInlineMarkup (Line.isOrgHeader (line k)) this ;;
        OK (append this (set_thisLine (Some this) k))
      else
        let this := Py.escape (Py.slice_from 4 this) in
        OK (append this (set_thisLine (Some this) k))
  | None => Raise TypeError
  end.

(** [processLine].  The next line is a string whenever the current one is;
    scanning [None] would raise a [TypeError]. *)
Definition processLine (k : KiwiMarkup) : result KiwiMarkup :=
  match thisLine k with
  | None => OK k
  | Some this =>
      match nextLine k with
      | None => Raise TypeError
      | Some next =>
          let k := set_line (Line.scan this next (state k) (line k)) k in
          r <- dispatch this k ;;
          if snd r then include_line (fst r) else OK (fst r)
      end
  end.

(** *** [execute] *)

(** [re.sub("\t", "    ", line.rstrip())] *)
Definition normalize (raw : str) : str := Py.detab (Py.rstrip raw).

(** One round of the [for line in lines] loop *)
Definition loop_step (k : KiwiMarkup) (raw : str) : result KiwiMarkup :=
  let k := set_thisLine (nextLine k) k in
  let k := set_nextLine (Some (normalize raw)) k in
  if negb (Line.skipNextLine (line k)) then processLine k
  else OK (set_line (Line.set_skipNextLine false (line k)) k).

Fixpoint loop (lines : list str) (k : KiwiMarkup) : result KiwiMarkup :=
  match lines with
  | [] => OK k
  | raw :: more => k <- loop_step k raw ;; loop more k
  end.

(** "Process the final line" *)
Definition final_line (k : KiwiMarkup) : result KiwiMarkup :=
  if negb (Line.skipNextLine (line k))
  then processLine (set_nextLine (Some []) (set_thisLine (nextLine k) k))
  else OK k.

(** The mode [execute] works in: the one given, or the one the first line
    announces *)
Definition pick_mode (lines : list str) (mode : option kmode) : kmode :=
  match mode with
  | Some m => m
  | None =>
      match lines with
      | first :: _ => if matches ORG_MODE_REGEX first then KIWI_MODE_ORG else KIWI_MODE_STD
      | [] => KIWI_MODE_STD
      end
  end.

(** [execute(lines, mode)] on the converter [k]: the value returned and the
    converter afterwards.  [self.state] is the one attribute it does not
    set anew. *)
Definition execute (k : KiwiMarkup) (lines : list str) (mode : option kmode)
  : result (bool * KiwiMarkup) :=
  match lines with
  | [] => Raise AssertionError
  | _ :: _ =>
      let mode := pick_mode lines mode in
      let k := {| state := state k; mode := mode; line := Line.new mode;
                  thisLine := None; nextLine := None; indents := []; output := [] |} in
      k <- loop lines k ;;
      k <- final_line k ;;
      let k := endAllSections k in
      OK (0 <? length (output k), k)
  end.

(** [convert] of the specification: a run on a converter just made *)
Definition convert (lines : list str) (mode : option kmode) : result (bool * list str) :=
  r <- execute new_KiwiMarkup lines mode ;;
  OK (fst r, output (snd r)).

(** [renderInline] of the specification: [applyInlineMarkup] on a line that
    is not an org-mode header *)
Definition renderInline (text : str) : result str := applyInlineMarkup false text.

(** * Notions the statements use *)

(** The number of lines of an output that contain a tag *)
Definition lines_with (tag : str) (out : list str) : nat :=
  length (filter (Py.contains tag) out).

(** The container tags, each with its closing tag *)
Definition container_tags : list (str * str) :=
  [("<ul>" : str, "</ul>" : str); ("<table>" : str, "</table>" : str);
   ("<p>" : str, "</p>" : str); ("<pre>" : str, "</pre>" : str);
   ("<code>" : str, "</code>" : str)].

Definition balanced (out : list str) : Prop :=
  forall o c, In (o, c) container_tags -> lines_with o out = lines_with c out.

(** A line is blank when stripping it leaves nothing *)
Definition blank (s : str) : bool := Py.str_eqb (Py.strip s) [].

(** The categories [processLine] tells apart, and the order the
    specification gives for them *)
Inductive category : Type :=
| OrgHeader
| CodeFenceStart
| CodeFenceEnd
| InsideCode
| ListItem
| Block
| Table
| Header
| HorizontalRule
| Paragraph
| Blank.

Definition precedence : list category :=
  [OrgHeader; CodeFenceStart; CodeFenceEnd; InsideCode; ListItem; Block; Table;
   Header; HorizontalRule; Paragraph; Blank].

(** Whether a category holds of the scanned line, in the state at hand *)
Definition applies (k : KiwiMarkup) (c : category) : bool :=
  match c with
  | OrgHeader => kmode_eqb (mode k) KIWI_MODE_ORG && Line.isOrgHeader (line k)
  | CodeFenceStart => Line.isCodeStart (line k)
  | CodeFenceEnd => Line.isCodeEnd (line k)
  | InsideCode => inCodeSection (state k)
  | ListItem => Line.isList (line k)
  | Block => Line.isBlock (line k)
  | Table => Line.isTable (line k)
  | Header => Line.isHeader (line k)
  | HorizontalRule => Line.isHorizontalLine (line k)
  | Paragraph => Line.isParagraph (line k)
  | Blank => Line.isBlankLine (line k)
  end.

(** What the state machine does for a category *)
Definition transition (this : str) (k : KiwiMarkup) (c : category)
  : result (KiwiMarkup * bool) :=
  match c with
  | OrgHeader => on_org_header this k
  | CodeFenceStart => on_code_start k
  | CodeFenceEnd => on_code_end k
  | InsideCode => on_in_code k
  | ListItem => on_list k
  | Block => on_block k
  | Table => on_table k
  | Header => on_header k
  | HorizontalRule => on_horizontal_line k
  | Paragraph => on_paragraph k
  | Blank => on_blank_line k
  end.

(** Dispatch as the specification words it: the first category of the
    list that holds decides *)
Definition dispatch_by_precedence (this : str) (k : KiwiMarkup)
  : result (KiwiMarkup * bool) :=
  match find (applies k) precedence with
  | Some c => transition this k c
  | None => OK (k, true)
  end.

(** The converter as [processLine] finds it when it handles [this] with
    [next] behind it *)
Definition at_line (this next : str) (k : KiwiMarkup) : KiwiMarkup :=
  set_nextLine (Some next) (set_thisLine (Some this) k).

(** The scanned converter: [at_line] after [self.line.scan] *)
Definition scanned (this next : str) (k : KiwiMarkup) : KiwiMarkup :=
  set_line (Line.scan this next (state k) (line k)) (at_line this next k).

(** The output of the table scenario *)
Definition table_scenario_output : list str :=
  ["<table>" : str;
   "    <tr>" : str;
   "        <th>a</th>" : str; "        <th>b</th>" : str; "        <th>c</th>" : str;
   "    </tr>" : str;
   "    <tr>" : str;
   "        <td>1</td>" : str; "        <td>2</td>" : str; "        <td>3</td>" : str;
   "    </tr>" : str;
   "</table>" : str].


(** What a caller sees of a run: the value returned, [self.output] and the
    [self.state] the run leaves behind *)
Definition outcome (r : result (bool * KiwiMarkup)) : result (bool * list str * KiwiState) :=
  r <- r ;; OK (fst r, output (snd r), state (snd r)).

(** Two runs on one converter, one after the other *)
Definition execute_after (first second : list str) : result (bool * KiwiMarkup) :=
  r <- execute new_KiwiMarkup first None ;; execute (snd r) second None.

(** ** What a scan finds, field by field *)

Definition is_some (A : Type) (o : option A) : bool :=
  match o with Some _ => true | None => false end.

(** The scanner after [scan] of a line that is not blank: every attribute
    written out in terms of the tests the [check_for_...] methods make. *)
Definition scan_fields (t n : str) (st : KiwiState) (l : Line.t) : Line.t :=
  let h := Re.search HEADER_REGEX t in
  let s1 := Re.matches SETEXT1_REGEX n in
  let s2 := Re.matches SETEXT2_REGEX n in
  let th := Re.matches TABLE_HEADER_REGEX n in
  let cols := map Py.strip (Py.split "|" t) in
  let tb := (3 <=? length cols) || ((0 <? length cols) && inTable st) in
  let blk := Py.str_eqb (Py.slice_to 4 t) "    " && negb (inTable st) in
  let li := match Re.search LIST_REGEX t with
            | Some m => if inBlock st then None else Some m
            | None => None
            end in
  let hr := Re.matches HRULE_REGEX t in
  let cs := Re.search CODEBLOCK_START_REGEX t in
  let ce := Re.matches CODEBLOCK_END_REGEX t in
  let org := kmode_eqb (Line.mode l) KIWI_MODE_ORG
             && match Py.strip t with c :: _ => Ascii.eqb c "*" | [] => false end in
  let hd := is_some h || s1 || s2 in
  {| Line.isParagraph :=
       negb hd && negb blk && negb (is_some li) && negb hr && negb org;
     Line.isHeader := hd;
     Line.isList := is_some li;
     Line.isTable := th || tb;
     Line.isTableHeader := th;
     Line.isBlankLine := false;
     Line.isBlock := blk;
     Line.isHorizontalLine := hr || Line.isHorizontalLine l;
     Line.isOrgHeader := org;
     Line.isCodeStart := is_some cs;
     Line.isCodeEnd := ce;
     Line.skipNextLine := (negb (is_some h) && (s1 || s2)) || th;
     Line.headerLevel :=
       match h with
       | Some m => length (Re.group_text m 1)
       | None => if s1 then 1 else if s2 then 2 else 0
       end;
     Line.headerText :=
       match h with
       | Some m => Re.group_text m 2
       | None => if s1 || s2 then t else []
       end;
     Line.listIndent :=
       match li with Some m => length (Re.group_text m 1) | None => 0 end;
     Line.listText :=
       match li with Some m => Re.group_text m 2 | None => [] end;
     Line.isNestedList :=
       match li, Re.search LIST_REGEX n with
       | Some m, Some m' => length (Re.group_text m 1) <? length (Re.group_text m' 1)
       | _, _ => false
       end;
     Line.codeLanguage :=
       if ce then [] else match cs with Some m => Re.group_text m 1 | None => [] end;
     Line.tableColumns := cols;
     Line.mode := Line.mode l |}.

(** The scanner after [scan] of a blank line *)
Definition scan_blank (l : Line.t) : Line.t :=
  Line.set_isParagraph false (Line.set_isBlankLine true (Line.reset l)).

(** ** Notions about matches *)

(** [sets r n]: every match of [r] closes group [n] *)
Fixpoint sets (r : regex) (n : nat) : bool :=
  match r with
  | Grp i r' => (i =? n) || sets r' n
  | Seq a b => sets a n || sets b n
  | Alt a b => sets a n && sets b n
  | _ => false
  end.

(** Group [n] took part in the match so far *)
Definition has_group (n : nat) (st : mstate) : Prop := lookup n (caps st) <> None.

(** What a continuation-passing matcher owes: its answer is the answer of
    the continuation at some later state, where no group was lost. *)
Definition keeps_groups (f : mstate -> cont -> option mstate) : Prop :=
  forall st k m, f st k = Some m ->
    exists st', k st' = Some m /\ forall n, has_group n st -> has_group n st'.

(** Every group a template refers to is closed by every match *)
Definition refs_set (r : regex) (t : template) : bool :=
  forallb (fun i => match i with Ref n => sets r n | Lit _ => true end) t.

(** ** Notions about the steps of a run *)

(** [k'] comes after [k]: nothing written was taken back, a current line
    is still there, the next line is the same, and the code section is as
    open as it was *)
Definition passes (k k' : KiwiMarkup) : Prop :=
  length (output k) <= length (output k')
  /\ (thisLine k <> None -> thisLine k' <> None)
  /\ inCodeSection (state k') = inCodeSection (state k)
  /\ nextLine k' = nextLine k.

(** A converter on which nothing is open and nothing was written *)
Definition quiet (k : KiwiMarkup) : Prop :=
  state k = new_state /\ indents k = [] /\ output k = []
  /\ Line.isHorizontalLine (line k) = false
  /\ Line.skipNextLine (line k) = false.

(** The line read ahead, if there is one, is blank *)
Definition pending_blank (k : KiwiMarkup) : Prop :=
  match nextLine k with
  | None => True
  | Some b => blank b = true
  end.

(** ** Notions about rows and rendered text *)

(** The text [applyInlineMarkup] gives; the function never raises *)
Definition render (isOrgHeader : bool) (s : str) : str :=
  match applyInlineMarkup isOrgHeader s with
  | OK o => o
  | Raise _ => s
  end.

(** A cell of a table row *)
Definition cell (header : bool) (text : str) : str :=
  if header then "        <th>" ++ text ++ "</th>"
  else "        <td>" ++ text ++ "</td>".

(** The lines of a table row with the given columns *)
Definition row (l : Line.t) : list str :=
  ("    <tr>" : str)
    :: map (fun c => cell (Line.isTableHeader l) (render (Line.isOrgHeader l) c))
         (Line.tableColumns l)
    ++ ["    </tr>" : str].

(** What [processLine] closes before it writes a table row *)
Definition before_row (k : KiwiMarkup) : KiwiMarkup :=
  endParagraph (endAllLists (endBlock (endOrgSection k))).

(** [k'] has the scanner, the mode and the table flag of [k] *)
Definition same_table (k k' : KiwiMarkup) : Prop :=
  line k' = line k /\ mode k' = mode k
  /\ inTable (state k') = inTable (state k)
  /\ inCodeSection (state k') = inCodeSection (state k).

(** The position [i] characters further on *)
Definition further (i : nat) (st : mstate) : mstate :=
  {| pos := i + pos st; rest := skipn i (rest st); caps := caps st |}.

(** A converter with a table open and nothing else *)
Definition table_open : KiwiMarkup :=
  update_state (set_inTable true) new_KiwiMarkup.

(** ** Notions about closing sections *)

(** The tag written when a flag is set *)
Definition when (b : bool) (s : str) : list str := if b then [s] else [].

(** The lines that close [n] nested lists, innermost first *)
Fixpoint list_closers (n : nat) : list str :=
  match n with
  | 0 => []
  | S n' =>
      (Py.mul "    " (Z.of_nat n - 1 + 1) ++ "</ul>")
        :: (Py.mul "    " (Z.of_nat n - 1 + 0) ++ "</li>")
        :: list_closers n'
  end.

(** The lines [endAllSections] writes *)
Definition closers (k : KiwiMarkup) : list str :=
  when (inOrgSection (state k)) "</p>"
  ++ when (inBlock (state k)) "</pre>"
  ++ list_closers (length (indents k))
  ++ when (inList (state k)) "</ul>"
  ++ when (inTable (state k)) "</table>"
  ++ when (inParagraph (state k)) "</p>".

(** The state [endAllSections] leaves: only the code section may be open *)
Definition closed_state (st : KiwiState) : KiwiState :=
  {| inParagraph := false; inTable := false; inList := false; inBlock := false;
     inOrgSection := false; inCodeSection := inCodeSection st |}.

(** ** Notions about the characters of a match *)

(** [needs T r]: every text [r] matches has a character of [T] *)
Fixpoint needs (T : ascii -> bool) (r : regex) : bool :=
  match r with
  | Chr c => T c
  | Seq a b => needs T a || needs T b
  | Alt a b => needs T a && needs T b
  | Grp _ a => needs T a
  | Rep lo _ a => (0 <? lo) && needs T a
  | _ => false
  end.

(** The groups closed so far hold only characters of [P] *)
Definition caps_in (P : ascii -> bool) (st : mstate) : Prop :=
  Forall (fun c => forallb P (snd c) = true) (caps st).

(** The characters that start inline mark-up: star, underscore, bracket *)
Definition markup_char (c : ascii) : bool := oneof "*_[" c.

Definition markup_free (s : str) : bool := forallb (fun c => negb (markup_char c)) s.

(** What a matcher owes about characters: what is left to read stays
    within [P], and so do the groups *)
Definition stays_in (P : ascii -> bool) (f : mstate -> cont -> option mstate) : Prop :=
  forall st k m, forallb P (rest st) = true -> f st k = Some m ->
    exists st', k st' = Some m /\ forallb P (rest st') = true
                /\ (caps_in P st -> caps_in P st').

(** ** Notions about balance *)

(** The opening and closing container tags, in one list *)
Definition all_tags : list str := flat_map (fun p => [fst p; snd p]) container_tags.

(** A line that holds no container tag *)
Definition neutral (s : str) : bool :=
  forallb (fun t => negb (Py.contains t s)) all_tags.

(** A character that starts neither a tag nor inline mark-up *)
Definition plain_char (c : ascii) : bool := negb (oneof "<*_[" c).

(** A line of such characters only *)
Definition plain (s : str) : bool := forallb plain_char s.

Definition lt_free (s : str) : bool := forallb (fun c => negb (Ascii.eqb c "<")) s.

(** What the output owes the state: for every section that is open, its
    opening tag was written once more than its closing tag; no list is
    open. *)
Definition ledger (k : KiwiMarkup) : Prop :=
  lines_with "<ul>" (output k) = lines_with "</ul>" (output k)
  /\ lines_with "<table>" (output k)
     = lines_with "</table>" (output k) + Nat.b2n (inTable (state k))
  /\ lines_with "<p>" (output k)
     = lines_with "</p>" (output k) + Nat.b2n (inParagraph (state k))
       + Nat.b2n (inOrgSection (state k))
  /\ lines_with "<pre>" (output k)
     = lines_with "</pre>" (output k) + Nat.b2n (inBlock (state k))
       + Nat.b2n (inCodeSection (state k))
  /\ lines_with "<code>" (output k)
     = lines_with "</code>" (output k) + Nat.b2n (inCodeSection (state k))
  /\ inList (state k) = false
  /\ indents k = [].

(** A method that keeps the ledger and leaves the lines and the scanner
    alone *)
Definition keeps (f : KiwiMarkup -> KiwiMarkup) : Prop :=
  forall k, ledger k ->
    ledger (f k) /\ thisLine (f k) = thisLine k /\ nextLine (f k) = nextLine k
    /\ line (f k) = line k /\ mode (f k) = mode k.

(** A current line that may be written as it is *)
Definition inert (s : str) : Prop := markup_free s = true /\ neutral s = true.

(** The line read ahead, if there is one, is plain *)
Definition pending_plain (k : KiwiMarkup) : Prop :=
  match nextLine k with
  | None => True
  | Some n => plain n = true
  end.

(** The current line, if there is one, may be written as it is *)
Definition current_inert (k : KiwiMarkup) : Prop :=
  match thisLine k with
  | Some s => inert s
  | None => True
  end.

(** [k'] is [k] after a branch of [processLine]: the ledger holds, the
    current line may be written, the line read ahead and the scanner are
    the same *)
Definition settled (k k' : KiwiMarkup) : Prop :=
  ledger k' /\ current_inert k'
  /\ (thisLine k <> None -> thisLine k' <> None)
  /\ nextLine k' = nextLine k /\ line k' = line k.

(** The number of vertical bars in a line *)
Definition bars (s : str) : nat := length (filter (fun c => Ascii.eqb c "|") s).

(** ** What a pattern matches *)

(** The words of a pattern, anchors aside *)
Fixpoint denotes (r : regex) (w : str) : Prop :=
  match r with
  | Eps | Bol | Eol => w = []
  | Chr c => w = [c]
  | Cls p => exists x, w = [x] /\ p x = true
  | Seq a b => exists u v, w = u ++ v /\ denotes a u /\ denotes b v
  | Alt a b => denotes a w \/ denotes b w
  | Grp _ a => denotes a w
  | Rep lo hi a =>
      exists ws, w = concat ws /\ Forall (denotes a) ws /\ lo <= length ws
                 /\ match hi with Some h => length ws <= h | None => True end
  end.

(** A pattern without groups *)
Fixpoint groupless (r : regex) : bool :=
  match r with
  | Grp _ _ => false
  | Seq a b | Alt a b => groupless a && groupless b
  | Rep _ _ a => groupless a
  | _ => true
  end.

(** What a matcher for [r] owes: it read a word of [r] before it went on,
    and it set no group when [r] has none *)
Definition sound (r : regex) (f : mstate -> cont -> option mstate) : Prop :=
  forall st k m, f st k = Some m ->
    exists st' w, k st' = Some m /\ rest st = w ++ rest st' /\ denotes r w
                  /\ (groupless r = true -> caps st' = caps st).



(** ** Notions about text lines *)

(** A character that starts no mark-up of a line or of a text *)
Definition word_char (c : ascii) : bool := negb (oneof "*_[#|-=:" c).

(** A line of such characters that starts with no white space *)
Definition text_line (s : str) : bool :=
  match s with
  | c :: _ => negb (Py.isspace c) && forallb word_char s
  | [] => false
  end.

(** The state with a paragraph open and nothing else *)
Definition paragraph_state : KiwiState := set_inParagraph true new_state.

(** The converter in a run of text lines, [seen] being the lines read so
    far: all but the last are written, the last is the line read ahead *)
Definition in_text (seen : list str) (k : KiwiMarkup) : Prop :=
  nextLine k = Py.last_opt seen
  /\ output k = match removelast seen with [] => [] | ws => ("<p>" : str) :: ws end
  /\ state k = match removelast seen with [] => new_state | _ => paragraph_state end
  /\ indents k = []
  /\ Line.isHorizontalLine (line k) = false
  /\ Line.skipNextLine (line k) = false.

(** ** [imgAttributes] *)




(** * Runs on given inputs *)

(** C7: the three lines a|b|c, ---|---|---, 1|2|3 give one table, opened
    and closed once, with a header row of three th cells and a data row of
    three td cells; neither the divider nor a raw row is among the output. *)
Theorem table_scenario :
  convert ["a|b|c" : str; "---|---|---" : str; "1|2|3" : str] None
  = OK (true, table_scenario_output)
  /\ lines_with "<table>" table_scenario_output = 1
  /\ lines_with "</table>" table_scenario_output = 1
  /\ lines_with "<th>" table_scenario_output = 3
  /\ lines_with "<td>" table_scenario_output = 3
  /\ lines_with "---" table_scenario_output = 0
  /\ lines_with "|" table_scenario_output = 0.
Proof. vm_compute. repeat split; reflexivity. Qed.

(** C3 on the code: a section opened by code: and never closed stays open
    when [execute] returns; no closing tag is written. *)
Theorem unterminated_code_stays_open :
  outcome (execute new_KiwiMarkup ["code:" : str; "x = 1" : str] None)
  = OK (true, ["<pre>" : str; "<code>" : str; "1" : str],
        set_inCodeSection true new_state).
Proof. vm_compute. reflexivity. Qed.

(** C4 on the code: after a run that leaves a code section open, the same
    converter renders [hello] as code, where a new converter writes a
    paragraph. *)
Theorem second_run_sees_first :
  outcome (execute_after ["code:" : str] ["hello" : str])
  = OK (true, ["o" : str], set_inCodeSection true new_state)
  /\ outcome (execute new_KiwiMarkup ["hello" : str] None)
     = OK (true, ["<p>" : str; "hello" : str; "</p>" : str], new_state).
Proof. vm_compute. split; reflexivity. Qed.

(** C1 fails: a list of one item is closed twice. *)
Lemma one_item_list_unbalanced :
  convert ["* a" : str] None
  = OK (true, ["<ul>" : str; "    <li>a</li>" : str; "    </ul>" : str;
               "</li>" : str; "</ul>" : str])
  /\ ~ balanced ["<ul>" : str; "    <li>a</li>" : str; "    </ul>" : str;
                 "</li>" : str; "</ul>" : str].
Proof.
  split; [vm_compute; reflexivity|].
  intros H. specialize (H "<ul>" "</ul>" (or_introl eq_refl)).
  vm_compute in H. discriminate.
Qed.

(** C1 fails in two more ways: an open code section is not closed, and a
    tag written in a paragraph is copied as it is. *)
Lemma open_code_and_literal_tag_unbalanced :
  convert ["code:" : str] None = OK (true, ["<pre>" : str; "<code>" : str])
  /\ convert ["<ul>" : str] None = OK (true, ["<p>" : str; "<ul>" : str; "</p>" : str]).
Proof. vm_compute. split; reflexivity. Qed.

(** C2 fails: the one line :code is not blank, yet nothing is written and
    the run answers false. *)
Lemma lone_code_end_gives_nothing :
  blank ":code" = false
  /\ convert [":code" : str] None = OK (false, []).
Proof. vm_compute. split; reflexivity. Qed.

(** C5 fails: five = signs under a line do not make it a header; the line
    and the five signs are written as a paragraph. *)
Lemma five_equals_is_no_underline :
  blank "Title" = false
  /\ Re.matches HEADER_REGEX "Title" = false
  /\ ("=====" : str) = repeat "="%char 5
  /\ convert ["Title" : str; "=====" : str] None
     = OK (true, ["<p>" : str; "Title" : str; "=====" : str; "</p>" : str]).
Proof. vm_compute. repeat split; reflexivity. Qed.

(** C9 fails: an opening marker with no closing marker is replaced all
    the same. *)
Lemma unmatched_markers_are_replaced :
  renderInline "**bold" = OK ("<b>bold" : str)
  /\ Py.contains "**" "<b>bold" = false
  /\ renderInline "_em" = OK ("<i>em" : str)
  /\ Py.contains "_" "<i>em" = false.
Proof. vm_compute. repeat split; reflexivity. Qed.

(** C10 fails: a rule line right under a table row is taken as the
    underline of that row and skipped; the output has the one row. *)
Lemma rule_under_table_row_is_dropped :
  Re.matches HRULE_REGEX "------" = true
  /\ convert ["a|b|c" : str; "------" : str] None
     = OK (true, ["<table>" : str; "    <tr>" : str; "        <td>a</td>" : str;
                  "        <td>b</td>" : str; "        <td>c</td>" : str;
                  "    </tr>" : str; "</table>" : str]).
Proof. vm_compute. split; reflexivity. Qed.

(** * The order of dispatch *)

Lemma dispatch_is_first_match (this : str) (k : KiwiMarkup) :
  dispatch this k = dispatch_by_precedence this k.
Proof.
  unfold dispatch, dispatch_by_precedence, precedence.
  cbn [find applies].
  repeat match goal with
         | |- context [if ?b then Some _ else _] => destruct b; cbn [transition]; try reflexivity
         end.
Qed.

(** C6: for a line that is not blank, [processLine] scans it and then takes
    the branch of the first category that holds, in the order org-header,
    code-fence start, code-fence end, inside a code section, list, block,
    table, header, horizontal rule, paragraph, blank. *)
Theorem dispatch_order (this next : str) (k : KiwiMarkup) :
  blank this = false ->
  precedence = [OrgHeader; CodeFenceStart; CodeFenceEnd; InsideCode; ListItem;
                Block; Table; Header; HorizontalRule; Paragraph; Blank]
  /\ processLine (at_line this next k)
     = (r <- dispatch_by_precedence this (scanned this next k) ;;
        if snd r then include_line (fst r) else OK (fst r))
  /\ forall c, find (applies (scanned this next k)) precedence = Some c ->
               dispatch this (scanned this next k)
               = transition this (scanned this next k) c.
Proof.
  intros _. split; [reflexivity|]. split.
  - unfold processLine, at_line. cbn [thisLine nextLine set_thisLine set_nextLine].
    rewrite <- dispatch_is_first_match. reflexivity.
  - intros c Hc. rewrite dispatch_is_first_match.
    unfold dispatch_by_precedence. rewrite Hc. reflexivity.
Qed.

Lemma dispatch_order_witness :
  blank "# Title" = false
  /\ processLine (at_line "# Title" "" new_KiwiMarkup)
     = (r <- dispatch_by_precedence "# Title" (scanned "# Title" "" new_KiwiMarkup) ;;
        if snd r then include_line (fst r) else OK (fst r)).
Proof.
  split; [reflexivity|].
  apply (dispatch_order "# Title" "" new_KiwiMarkup). reflexivity.
Defined.

(** * The scanner, attribute by attribute *)

Lemma check_for_header_fields (t n : str) (l : Line.t) :
  Line.check_for_header t n l
  = let h := Re.search HEADER_REGEX t in
    let s1 := Re.matches SETEXT1_REGEX n in
    let s2 := Re.matches SETEXT2_REGEX n in
    {|
       Line.isParagraph := match h with Some _ => false | None => if s1 then false else if s2 then false else Line.isParagraph l end;
       Line.isHeader := match h with Some _ => true | None => if s1 then true else if s2 then true else Line.isHeader l end;
       Line.isList := Line.isList l;
       Line.isTable := Line.isTable l;
       Line.isTableHeader := Line.isTableHeader l;
       Line.isBlankLine := Line.isBlankLine l;
       Line.isBlock := Line.isBlock l;
       Line.isHorizontalLine := Line.isHorizontalLine l;
       Line.isOrgHeader := Line.isOrgHeader l;
       Line.isCodeStart := Line.isCodeStart l;
       Line.isCodeEnd := Line.isCodeEnd l;
       Line.skipNextLine := match h with Some _ => Line.skipNextLine l | None => if s1 then true else if s2 then true else Line.skipNextLine l end;
       Line.headerLevel := match h with Some m => length (Re.group_text m 1) | None => if s1 then 1 else if s2 then 2 else Line.headerLevel l end;
       Line.headerText := match h with Some m => Re.group_text m 2 | None => if s1 then t else if s2 then t else Line.headerText l end;
       Line.listIndent := Line.listIndent l;
       Line.listText := Line.listText l;
       Line.isNestedList := Line.isNestedList l;
       Line.codeLanguage := Line.codeLanguage l;
       Line.tableColumns := Line.tableColumns l;
       Line.mode := Line.mode l |}.
Proof.
  unfold Line.check_for_header; destruct l; cbn;
  repeat match goal with
         | |- context [match ?x with _ => _ end] => destruct x
         end; reflexivity.
Qed.

Lemma check_for_table_fields (t n : str) (st : KiwiState) (l : Line.t) :
  Line.check_for_table t n st l
  = let th := Re.matches TABLE_HEADER_REGEX n in
    let cols := map Py.strip (Py.split "|" t) in
    let tb := (3 <=? length cols) || ((0 <? length cols) && inTable st) in
    {|
       Line.isParagraph := Line.isParagraph l;
       Line.isHeader := Line.isHeader l;
       Line.isList := Line.isList l;
       Line.isTable := if tb then true else if th then true else Line.isTable l;
       Line.isTableHeader := if th then true else Line.isTableHeader l;
       Line.isBlankLine := Line.isBlankLine l;
       Line.isBlock := Line.isBlock l;
       Line.isHorizontalLine := Line.isHorizontalLine l;
       Line.isOrgHeader := Line.isOrgHeader l;
       Line.isCodeStart := Line.isCodeStart l;
       Line.isCodeEnd := Line.isCodeEnd l;
       Line.skipNextLine := if th then true else Line.skipNextLine l;
       Line.headerLevel := Line.headerLevel l;
       Line.headerText := Line.headerText l;
       Line.listIndent := Line.listIndent l;
       Line.listText := Line.listText l;
       Line.isNestedList := Line.isNestedList l;
       Line.codeLanguage := Line.codeLanguage l;
       Line.tableColumns := cols;
       Line.mode := Line.mode l |}.
Proof.
  unfold Line.check_for_table; destruct l; cbn;
  repeat match goal with
         | |- context [match ?x with _ => _ end] => destruct x
         end; reflexivity.
Qed.

Lemma check_for_block_fields (t : str) (st : KiwiState) (l : Line.t) :
  Line.check_for_block t st l
  = let c := Py.str_eqb (Py.slice_to 4 t) "    " && negb (inTable st) in
    {|
       Line.isParagraph := if c then false else Line.isParagraph l;
       Line.isHeader := Line.isHeader l;
       Line.isList := Line.isList l;
       Line.isTable := Line.isTable l;
       Line.isTableHeader := Line.isTableHeader l;
       Line.isBlankLine := Line.isBlankLine l;
       Line.isBlock := if c then true else Line.isBlock l;
       Line.isHorizontalLine := Line.isHorizontalLine l;
       Line.isOrgHeader := Line.isOrgHeader l;
       Line.isCodeStart := Line.isCodeStart l;
       Line.isCodeEnd := Line.isCodeEnd l;
       Line.skipNextLine := Line.skipNextLine l;
       Line.headerLevel := Line.headerLevel l;
       Line.headerText := Line.headerText l;
       Line.listIndent := Line.listIndent l;
       Line.listText := Line.listText l;
       Line.isNestedList := Line.isNestedList l;
       Line.codeLanguage := Line.codeLanguage l;
       Line.tableColumns := Line.tableColumns l;
       Line.mode := Line.mode l |}.
Proof.
  unfold Line.check_for_block; destruct l; cbn;
  repeat match goal with
         | |- context [match ?x with _ => _ end] => destruct x
         end; reflexivity.
Qed.

Lemma check_for_list_fields (t n : str) (st : KiwiState) (l : Line.t) :
  Line.check_for_list t n st l
  = let li := Re.search LIST_REGEX t in
    let ok := negb (inBlock st) in
    {|
       Line.isParagraph := match li with Some _ => if ok then false else Line.isParagraph l | None => Line.isParagraph l end;
       Line.isHeader := Line.isHeader l;
       Line.isList := match li with Some _ => if ok then true else Line.isList l | None => Line.isList l end;
       Line.isTable := Line.isTable l;
       Line.isTableHeader := Line.isTableHeader l;
       Line.isBlankLine := Line.isBlankLine l;
       Line.isBlock := Line.isBlock l;
       Line.isHorizontalLine := Line.isHorizontalLine l;
       Line.isOrgHeader := Line.isOrgHeader l;
       Line.isCodeStart := Line.isCodeStart l;
       Line.isCodeEnd := Line.isCodeEnd l;
       Line.skipNextLine := Line.skipNextLine l;
       Line.headerLevel := Line.headerLevel l;
       Line.headerText := Line.headerText l;
       Line.listIndent := match li with Some m => if ok then length (Re.group_text m 1) else Line.listIndent l | None => Line.listIndent l end;
       Line.listText := match li with Some m => if ok then Re.group_text m 2 else Line.listText l | None => Line.listText l end;
       Line.isNestedList := match li with
         | Some m =>
             if ok then
               match Re.search LIST_REGEX n with
               | Some m' => length (Re.group_text m 1) <? length (Re.group_text m' 1)
               | None => Line.isNestedList l
               end
             else Line.isNestedList l
         | None => Line.isNestedList l
         end;
       Line.codeLanguage := Line.codeLanguage l;
       Line.tableColumns := Line.tableColumns l;
       Line.mode := Line.mode l |}.
Proof.
  unfold Line.check_for_list; destruct l; cbn;
  repeat match goal with
         | |- context [match ?x with _ => _ end] => destruct x
         end; reflexivity.
Qed.

Lemma check_for_horizontal_line_fields (t : str) (l : Line.t) :
  Line.check_for_horizontal_line t l
  = let c := Re.matches HRULE_REGEX t in
    {|
       Line.isParagraph := if c then false else Line.isParagraph l;
       Line.isHeader := Line.isHeader l;
       Line.isList := Line.isList l;
       Line.isTable := Line.isTable l;
       Line.isTableHeader := Line.isTableHeader l;
       Line.isBlankLine := Line.isBlankLine l;
       Line.isBlock := Line.isBlock l;
       Line.isHorizontalLine := if c then true else Line.isHorizontalLine l;
       Line.isOrgHeader := Line.isOrgHeader l;
       Line.isCodeStart := Line.isCodeStart l;
       Line.isCodeEnd := Line.isCodeEnd l;
       Line.skipNextLine := Line.skipNextLine l;
       Line.headerLevel := Line.headerLevel l;
       Line.headerText := Line.headerText l;
       Line.listIndent := Line.listIndent l;
       Line.listText := Line.listText l;
       Line.isNestedList := Line.isNestedList l;
       Line.codeLanguage := Line.codeLanguage l;
       Line.tableColumns := Line.tableColumns l;
       Line.mode := Line.mode l |}.
Proof.
  unfold Line.check_for_horizontal_line; destruct l; cbn;
  repeat match goal with
         | |- context [match ?x with _ => _ end] => destruct x
         end; reflexivity.
Qed.

Lemma check_for_code_start_fields (t : str) (l : Line.t) :
  Line.check_for_code_start t l
  = let cs := Re.search CODEBLOCK_START_REGEX t in
    {|
       Line.isParagraph := Line.isParagraph l;
       Line.isHeader := Line.isHeader l;
       Line.isList := Line.isList l;
       Line.isTable := Line.isTable l;
       Line.isTableHeader := Line.isTableHeader l;
       Line.isBlankLine := Line.isBlankLine l;
       Line.isBlock := Line.isBlock l;
       Line.isHorizontalLine := Line.isHorizontalLine l;
       Line.isOrgHeader := Line.isOrgHeader l;
       Line.isCodeStart := match cs with Some _ => true | None => Line.isCodeStart l end;
       Line.isCodeEnd := Line.isCodeEnd l;
       Line.skipNextLine := Line.skipNextLine l;
       Line.headerLevel := Line.headerLevel l;
       Line.headerText := Line.headerText l;
       Line.listIndent := Line.listIndent l;
       Line.listText := Line.listText l;
       Line.isNestedList := Line.isNestedList l;
       Line.codeLanguage := match cs with Some m => Re.group_text m 1 | None => Line.codeLanguage l end;
       Line.tableColumns := Line.tableColumns l;
       Line.mode := Line.mode l |}.
Proof.
  unfold Line.check_for_code_start; destruct l; cbn;
  repeat match goal with
         | |- context [match ?x with _ => _ end] => destruct x
         end; reflexivity.
Qed.

Lemma check_for_code_end_fields (t : str) (l : Line.t) :
  Line.check_for_code_end t l
  = let c := Re.matches CODEBLOCK_END_REGEX t in
    {|
       Line.isParagraph := Line.isParagraph l;
       Line.isHeader := Line.isHeader l;
       Line.isList := Line.isList l;
       Line.isTable := Line.isTable l;
       Line.isTableHeader := Line.isTableHeader l;
       Line.isBlankLine := Line.isBlankLine l;
       Line.isBlock := Line.isBlock l;
       Line.isHorizontalLine := Line.isHorizontalLine l;
       Line.isOrgHeader := Line.isOrgHeader l;
       Line.isCodeStart := Line.isCodeStart l;
       Line.isCodeEnd := if c then true else Line.isCodeEnd l;
       Line.skipNextLine := Line.skipNextLine l;
       Line.headerLevel := Line.headerLevel l;
       Line.headerText := Line.headerText l;
       Line.listIndent := Line.listIndent l;
       Line.listText := Line.listText l;
       Line.isNestedList := Line.isNestedList l;
       Line.codeLanguage := if c then [] else Line.codeLanguage l;
       Line.tableColumns := Line.tableColumns l;
       Line.mode := Line.mode l |}.
Proof.
  unfold Line.check_for_code_end; destruct l; cbn;
  repeat match goal with
         | |- context [match ?x with _ => _ end] => destruct x
         end; reflexivity.
Qed.

Lemma check_for_org_header_fields (t : str) (l : Line.t) :
  Line.check_for_org_header t l
  = let o := match Py.strip t with c :: _ => Ascii.eqb c "*" | [] => false end in
    {|
       Line.isParagraph := if o then false else Line.isParagraph l;
       Line.isHeader := Line.isHeader l;
       Line.isList := Line.isList l;
       Line.isTable := Line.isTable l;
       Line.isTableHeader := Line.isTableHeader l;
       Line.isBlankLine := Line.isBlankLine l;
       Line.isBlock := Line.isBlock l;
       Line.isHorizontalLine := Line.isHorizontalLine l;
       Line.isOrgHeader := if o then true else Line.isOrgHeader l;
       Line.isCodeStart := Line.isCodeStart l;
       Line.isCodeEnd := Line.isCodeEnd l;
       Line.skipNextLine := Line.skipNextLine l;
       Line.headerLevel := Line.headerLevel l;
       Line.headerText := Line.headerText l;
       Line.listIndent := Line.listIndent l;
       Line.listText := Line.listText l;
       Line.isNestedList := Line.isNestedList l;
       Line.codeLanguage := Line.codeLanguage l;
       Line.tableColumns := Line.tableColumns l;
       Line.mode := Line.mode l |}.
Proof.
  unfold Line.check_for_org_header; destruct l; cbn;
  repeat match goal with
         | |- context [match ?x with _ => _ end] => destruct x
         end; reflexivity.
Qed.

Ltac proj_line :=
  cbv beta iota zeta delta
    [Line.isParagraph Line.isHeader Line.isList Line.isTable Line.isTableHeader
     Line.isBlankLine Line.isBlock Line.isHorizontalLine Line.isOrgHeader
     Line.isCodeStart Line.isCodeEnd Line.skipNextLine Line.headerLevel
     Line.headerText Line.listIndent Line.listText Line.isNestedList
     Line.codeLanguage Line.tableColumns Line.mode Line.reset].

Lemma scan_of_blank (t n : str) (st : KiwiState) (l : Line.t) :
  blank t = true -> Line.scan t n st l = scan_blank l.
Proof.
  unfold blank, Line.scan, scan_blank. intros Hb. rewrite Hb. reflexivity.
Qed.

Lemma Line_ext (a b : Line.t) :
  Line.isParagraph a = Line.isParagraph b ->
  Line.isHeader a = Line.isHeader b ->
  Line.isList a = Line.isList b ->
  Line.isTable a = Line.isTable b ->
  Line.isTableHeader a = Line.isTableHeader b ->
  Line.isBlankLine a = Line.isBlankLine b ->
  Line.isBlock a = Line.isBlock b ->
  Line.isHorizontalLine a = Line.isHorizontalLine b ->
  Line.isOrgHeader a = Line.isOrgHeader b ->
  Line.isCodeStart a = Line.isCodeStart b ->
  Line.isCodeEnd a = Line.isCodeEnd b ->
  Line.skipNextLine a = Line.skipNextLine b ->
  Line.headerLevel a = Line.headerLevel b ->
  Line.headerText a = Line.headerText b ->
  Line.listIndent a = Line.listIndent b ->
  Line.listText a = Line.listText b ->
  Line.isNestedList a = Line.isNestedList b ->
  Line.codeLanguage a = Line.codeLanguage b ->
  Line.tableColumns a = Line.tableColumns b ->
  Line.mode a = Line.mode b ->
  a = b.
Proof.
  destruct a, b; cbn; intros; subst; reflexivity.
Qed.
Lemma scan_of_nonblank (t n : str) (st : KiwiState) (l : Line.t) :
  blank t = false -> Line.scan t n st l = scan_fields t n st l.
Proof.
  unfold blank, Line.scan. intros Hb. rewrite Hb. cbv zeta. unfold Line.reset.
  rewrite check_for_header_fields. proj_line.
  rewrite check_for_table_fields. proj_line.
  rewrite check_for_block_fields. proj_line.
  rewrite check_for_list_fields. proj_line.
  rewrite check_for_horizontal_line_fields. proj_line.
  rewrite check_for_code_start_fields. proj_line.
  rewrite check_for_code_end_fields. proj_line.
  rewrite check_for_org_header_fields. proj_line.
  unfold scan_fields, is_some. destruct l as [? ? ? ? ? ? ? hl ? ? ? ? ? ? ? ? ? ? ? md].
  proj_line.
  generalize (Re.search HEADER_REGEX t) (Re.matches SETEXT1_REGEX n) (Re.matches SETEXT2_REGEX n) (Re.matches TABLE_HEADER_REGEX n)
     (map Py.strip (Py.split "|" t)) (Py.str_eqb (Py.slice_to 4 t) "    ") (Re.search LIST_REGEX t) (Re.search LIST_REGEX n)
     (Re.matches HRULE_REGEX t) (Re.search CODEBLOCK_START_REGEX t) (Re.matches CODEBLOCK_END_REGEX t) (Py.strip t).
  intros h s1 s2 th cols b4 li ln hr cs ce stp.
  destruct (kmode_eqb md KIWI_MODE_ORG); cbn [andb negb].
  all: apply Line_ext; proj_line.
  all: try reflexivity.
  all: destruct (inTable st), (inBlock st); cbn [andb orb negb]; try reflexivity.
  all: try generalize (3 <=? length cols); try generalize (0 <? length cols); intros.
  all: try (destruct stp as [|c stp']; [|generalize (Ascii.eqb c "*"); intros]).
  all: repeat match goal with x : _ |- _ => clear x end.
  all: repeat match goal with
              | x : bool |- _ => destruct x
              | x : option _ |- _ => destruct x
              end; reflexivity.
Qed.

(** * Matches and their groups *)

Lemma bind_ok (A B : Type) (c : result A) (f : A -> result B) :
  (exists a, c = OK a) -> (forall a, exists b, f a = OK b) ->
  exists b, bind c f = OK b.
Proof. intros [a ->] Hf. apply Hf. Qed.

Section GroupsOfAMatch.

Lemma rep_loop_keeps_groups (body : mstate -> cont -> option mstate) :
  keeps_groups body ->
  forall fuel lo hi, keeps_groups (fun st k => rep_loop body fuel lo hi st k).
Proof.
  intros Hbody fuel. induction fuel as [|f IH]; intros lo hi st k m H; cbn in H.
  - destruct (lo =? 0); [|discriminate]. exists st. split; auto.
  - assert (Hstop : (if lo =? 0 then k st else None) = Some m ->
                    exists st', k st' = Some m /\ forall n, has_group n st -> has_group n st').
    { intros E. destruct (lo =? 0); [|discriminate]. exists st. split; auto. }
    assert (Hmore : forall hi',
               body st (fun st' => if length (rest st') <? length (rest st)
                                   then rep_loop body f (pred lo) hi' st' k
                                   else None) = Some m ->
               exists st', k st' = Some m /\ forall n, has_group n st -> has_group n st').
    { intros hi' E. apply Hbody in E. destruct E as (st1 & E & H1). cbn beta in E.
      destruct (length (rest st1) <? length (rest st)); [|discriminate].
      apply (IH (pred lo) hi') in E. destruct E as (st2 & E & H2).
      exists st2. split; auto. }
    destruct hi as [[|h]|]; [auto| |].
    + match type of H with
      | match ?b with _ => _ end = _ => destruct b as [m'|] eqn:E
      end; [|auto].
      injection H as ->. exact (Hmore _ E).
    + match type of H with
      | match ?b with _ => _ end = _ => destruct b as [m'|] eqn:E
      end; [|auto].
      injection H as ->. exact (Hmore _ E).
Qed.

Lemma has_group_set_group (i n : nat) (st st1 : mstate) :
  (i =? n) = true \/ has_group n st1 -> has_group n (set_group i st st1).
Proof.
  unfold has_group, set_group. cbn. intros [E|H].
  - rewrite E. discriminate.
  - destruct (i =? n); [discriminate|exact H].
Qed.

Lemma run_sets (r : regex) :
  forall st k m, run r st k = Some m ->
    exists st', k st' = Some m
                /\ forall n, sets r n = true \/ has_group n st -> has_group n st'.
Proof.
  induction r as [| | |c|p|r1 IH1 r2 IH2|r1 IH1 r2 IH2|i r IH|lo hi r IH];
    intros st k m H; cbn [run] in H.
  - exists st. split; [exact H|]. intros n [E|E]; [discriminate|exact E].
  - destruct (pos st =? 0); [|discriminate].
    exists st. split; [exact H|]. intros n [E|E]; [discriminate|exact E].
  - exists st. split.
    + destruct (rest st) as [|c [|c' t]]; try discriminate; [exact H|].
      destruct (Ascii.eqb c Py.NL); [exact H|discriminate].
    + intros n [E|E]; [discriminate|exact E].
  - destruct (rest st) as [|x t]; [discriminate|].
    destruct (Ascii.eqb x c); [|discriminate].
    exists (advance st t). split; [exact H|]. intros n [E|E]; [discriminate|exact E].
  - destruct (rest st) as [|x t]; [discriminate|].
    destruct (p x); [|discriminate].
    exists (advance st t). split; [exact H|]. intros n [E|E]; [discriminate|exact E].
  - apply IH1 in H. destruct H as (st1 & H & H1).
    apply IH2 in H. destruct H as (st2 & H & H2).
    exists st2. split; [exact H|]. intros n Hn. apply H2. cbn in Hn.
    destruct (sets r2 n); [left; reflexivity|]. right. apply H1.
    rewrite orb_false_r in Hn. exact Hn.
  - destruct (run r1 st k) as [m'|] eqn:E.
    + injection H as ->. apply IH1 in E. destruct E as (st1 & E & H1).
      exists st1. split; [exact E|]. intros n Hn. apply H1. cbn in Hn.
      destruct Hn as [Hn|Hn]; [|right; exact Hn].
      apply andb_true_iff in Hn. left. apply Hn.
    + apply IH2 in H. destruct H as (st2 & H & H2).
      exists st2. split; [exact H|]. intros n Hn. apply H2. cbn in Hn.
      destruct Hn as [Hn|Hn]; [|right; exact Hn].
      apply andb_true_iff in Hn. left. apply Hn.
  - apply IH in H. destruct H as (st1 & H & H1).
    exists (set_group i st st1). split; [exact H|]. intros n Hn.
    apply has_group_set_group. cbn in Hn.
    destruct (i =? n); [left; reflexivity|]. right. apply H1. exact Hn.
  - assert (Hb : keeps_groups (run r)).
    { intros st0 k0 m0 H0. apply IH in H0. destruct H0 as (st1 & H0 & H1).
      exists st1. split; [exact H0|]. intros n Hn. apply H1. right. exact Hn. }
    apply (rep_loop_keeps_groups Hb) in H. destruct H as (st1 & H & H1).
    exists st1. split; [exact H|]. intros n [E|E]; [discriminate|auto].
Qed.

Lemma match_at_sets (r : regex) (p : nat) (s : str) (m : mstate) (n : nat) :
  match_at r p s = Some m -> sets r n = true -> group m n <> None.
Proof.
  unfold match_at. intros H Hn. apply run_sets in H.
  destruct H as (st' & E & H). injection E as ->.
  apply (H n). left. exact Hn.
Qed.

End GroupsOfAMatch.

(** * Substitution never raises *)

Lemma expand_template_ok (g : nat -> option str) (t : template) :
  (forall n, In (Ref n) t -> g n <> None) ->
  exists o, expand_template g t = OK o.
Proof.
  induction t as [|[s|n] t IH]; intros H; cbn.
  - eexists. reflexivity.
  - destruct IH as [o ->]; [intros n Hn; apply H; right; exact Hn|].
    cbn. eexists. reflexivity.
  - destruct (g n) as [s|] eqn:E; [|exfalso; apply (H n); [left; reflexivity|exact E]].
    destruct IH as [o ->]; [intros n' Hn; apply H; right; exact Hn|].
    cbn. eexists. reflexivity.
Qed.

Lemma sub_loop_ok (r : regex) (repl : mstate -> result str) :
  (forall p s m, match_at r p s = Some m -> exists o, repl m = OK o) ->
  forall fuel p s, exists o, sub_loop fuel r repl p s = OK o.
Proof.
  intros Hrepl fuel. induction fuel as [|f IH]; intros p s; cbn.
  - eexists. reflexivity.
  - destruct (match_at r p s) as [m|] eqn:E.
    + destruct (Hrepl _ _ _ E) as [o ->]. cbn.
      destruct (length s - length (rest m) =? 0).
      * destruct s as [|c t]; [eexists; reflexivity|].
        destruct (IH (S p) t) as [o' ->]. cbn. eexists. reflexivity.
      * destruct (IH (pos m) (rest m)) as [o' ->]. cbn. eexists. reflexivity.
    + destruct s as [|c t]; [eexists; reflexivity|].
      destruct (IH (S p) t) as [o' ->]. cbn. eexists. reflexivity.
Qed.

(** [pattern.sub] does not raise when every match closes the groups the
    template refers to *)
Lemma sub_ok (r : regex) (t : template) (s : str) :
  forallb (valid_item r) t = true -> refs_set r t = true ->
  exists o, sub r t s = OK o.
Proof.
  intros Hv Hr. unfold sub. rewrite Hv. apply sub_loop_ok.
  intros p s' m Hm. apply expand_template_ok. intros n Hn.
  eapply match_at_sets; [exact Hm|].
  unfold refs_set in Hr. rewrite forallb_forall in Hr. exact (Hr _ Hn).
Qed.

(** [re_sub] does not raise, whatever groups took part in the match *)
Lemma re_sub_ok (r : regex) (t : template) (s : str) :
  forallb (valid_item r) t = true -> exists o, re_sub r t s = OK o.
Proof.
  intros Hv. unfold re_sub. apply sub_loop_ok. intros p s' m _.
  rewrite Hv. apply expand_template_ok. intros n _. discriminate.
Qed.

Lemma applyInlineMarkup_ok (isOrgHeader : bool) (line : str) :
  exists o, applyInlineMarkup isOrgHeader line = OK o.
Proof.
  unfold applyInlineMarkup.
  repeat (apply bind_ok; [|intros ?]);
    try (apply sub_ok; reflexivity);
    try (apply re_sub_ok; reflexivity).
  destruct isOrgHeader; cbn [negb].
  - eexists. reflexivity.
  - apply bind_ok; [|intros ?]; apply sub_ok; reflexivity.
Qed.

(** C8: the passes for the extended image, audio and link forms never
    raise, whatever the input; a group that took no part in a match is
    rendered as the empty string; so is the whole of [renderInline]; and
    the two examples come out as stated. *)
Theorem extended_forms_never_raise (s : str) :
  (exists o, re_sub IMG_REGEX IMG_TEMPLATE s = OK o)
  /\ (exists o, re_sub AUDIO_REGEX AUDIO_TEMPLATE s = OK o)
  /\ (exists o, re_sub LINK_REGEX LINK_TEMPLATE s = OK o)
  /\ (exists o, renderInline s = OK o)
  /\ (forall m n, group m n = None -> wrapped_group m n = Some [])
  /\ (forall m, expand_template (wrapped_group m) IMG_TEMPLATE
                = OK ("<img src='" ++ group_text m 7 ++ "' class='" ++ group_text m 3
                      ++ "' alt='" ++ group_text m 6 ++ "' title='" ++ group_text m 6
                      ++ "'/>"))
  /\ renderInline "[img.pic:desc](x.png)"
     = OK ("<img src='x.png' class='pic' alt='desc' title='desc'/>" : str)
  /\ renderInline "[img](x.png)"
     = OK ("<img src='x.png' class='' alt='' title=''/>" : str).
Proof.
  split; [apply re_sub_ok; reflexivity|].
  split; [apply re_sub_ok; reflexivity|].
  split; [apply re_sub_ok; reflexivity|].
  split; [apply applyInlineMarkup_ok|].
  split; [intros m n H; unfold wrapped_group; rewrite H; reflexivity|].
  split.
  - intros m. unfold IMG_TEMPLATE, wrapped_group, group_text. cbn [expand_template bind].
    rewrite app_nil_r. reflexivity.
  - split; vm_compute; reflexivity.
Qed.

(** Without the work-around the same template raises on a match where the
    class and the alternative text are left out. *)
Lemma plain_sub_raises_on_missing_group :
  sub IMG_REGEX IMG_TEMPLATE "[img](x.png)" = Raise UnmatchedGroup.
Proof. vm_compute. reflexivity. Qed.

(** * Blank lines *)

Lemma rstrip_all_space (s : str) :
  forallb Py.isspace (Py.rstrip s) = forallb Py.isspace s.
Proof.
  induction s as [|c t IH]; [reflexivity|]. cbn [Py.rstrip].
  destruct (Py.rstrip t) as [|c' t'] eqn:E.
  - cbn in IH. cbn [forallb]. rewrite <- IH.
    destruct (Py.isspace c) eqn:Ec; cbn; rewrite ?Ec; reflexivity.
  - cbn [forallb] in *. rewrite IH. reflexivity.
Qed.

Lemma lstrip_nil (s : str) :
  Py.str_eqb (Py.lstrip s) [] = forallb Py.isspace s.
Proof.
  induction s as [|c t IH]; [reflexivity|]. cbn [Py.lstrip forallb].
  destruct (Py.isspace c); [exact IH|reflexivity].
Qed.

Lemma blank_all_space (s : str) : blank s = forallb Py.isspace s.
Proof. unfold blank, Py.strip. rewrite lstrip_nil. apply rstrip_all_space. Qed.

Lemma detab_all_space (s : str) :
  forallb Py.isspace (Py.detab s) = forallb Py.isspace s.
Proof.
  induction s as [|c t IH]; [reflexivity|].
  unfold Py.detab in *. cbn [flat_map]. rewrite forallb_app, IH.
  cbn [forallb]. f_equal. unfold Py.detab_char.
  destruct (Ascii.eqb c Py.TAB) eqn:E.
  - apply Ascii.eqb_eq in E. subst c. reflexivity.
  - cbn. apply andb_true_r.
Qed.

Lemma blank_normalize (s : str) : blank (normalize s) = blank s.
Proof.
  rewrite !blank_all_space. unfold normalize.
  rewrite detab_all_space. apply rstrip_all_space.
Qed.

(** * A run only adds to the output *)

Lemma passes_refl (k : KiwiMarkup) : passes k k.
Proof. unfold passes. auto. Qed.

Lemma passes_trans (a b c : KiwiMarkup) : passes a b -> passes b c -> passes a c.
Proof.
  unfold passes. intros (H1 & H2 & H3 & H3') (H4 & H5 & H6 & H6').
  repeat split; [lia|auto|congruence|congruence].
Qed.

Lemma passes_append (s : str) (k : KiwiMarkup) : passes k (append s k).
Proof.
  unfold passes, append. cbn. rewrite length_app. cbn. repeat split; [lia|auto].
Qed.

Ltac flag_method :=
  match goal with
  | |- passes ?k (?f ?k) =>
      unfold f, update_state, passes, append;
      match goal with
      | |- context [if ?b then _ else _] => destruct b
      end; cbn; rewrite ?length_app; cbn; repeat split; auto; lia
  end.

Lemma passes_startParagraph k : passes k (startParagraph k).
Proof. flag_method. Qed.

Lemma passes_endParagraph k : passes k (endParagraph k).
Proof. flag_method. Qed.

Lemma passes_startBlock k : passes k (startBlock k).
Proof. flag_method. Qed.

Lemma passes_endBlock k : passes k (endBlock k).
Proof. flag_method. Qed.

Lemma passes_startTable k : passes k (startTable k).
Proof. flag_method. Qed.

Lemma passes_endTable k : passes k (endTable k).
Proof. flag_method. Qed.

Lemma passes_startOrgSection k : passes k (startOrgSection k).
Proof. flag_method. Qed.

Lemma passes_endOrgSection k : passes k (endOrgSection k).
Proof. flag_method. Qed.

Lemma passes_set_indents (l : list nat) (k : KiwiMarkup) : passes k (set_indents l k).
Proof. unfold passes. cbn. auto. Qed.

Lemma passes_endNestedList_rec (calls : nat) :
  forall k, passes k (endNestedList_rec calls k).
Proof.
  induction calls as [|c IH]; intros k; cbn [endNestedList_rec]; [apply passes_refl|].
  destruct (Py.last_opt (indents k)); [|apply passes_refl].
  destruct (_ <? _); [|apply passes_refl].
  eapply passes_trans; [|apply IH].
  eapply passes_trans; [|apply passes_set_indents].
  eapply passes_trans; apply passes_append.
Qed.

Lemma passes_endNestedList k : passes k (endNestedList k).
Proof. apply passes_endNestedList_rec. Qed.

Lemma passes_endAllLists_loop (rounds : nat) :
  forall k, passes k (endAllLists_loop rounds k).
Proof.
  induction rounds as [|c IH]; intros k; cbn [endAllLists_loop]; [apply passes_refl|].
  destruct (0 <? _); [|apply passes_refl].
  eapply passes_trans; [|apply IH].
  eapply passes_trans; [|apply passes_set_indents].
  eapply passes_trans; apply passes_append.
Qed.

Lemma passes_set_inList (b : bool) (k : KiwiMarkup) :
  passes k (update_state (set_inList b) k).
Proof. unfold passes. cbn. auto. Qed.

Lemma passes_endList k : passes k (endList k).
Proof.
  unfold endList. destruct (inList (state k)); [|apply passes_refl].
  destruct (0 <? length (indents k)).
  - destruct (_ =? 0).
    + eapply passes_trans; [apply passes_endNestedList|].
      eapply passes_trans; [apply passes_append|apply passes_set_inList].
    + apply passes_endNestedList.
  - destruct (_ =? 0); [|apply passes_refl].
    eapply passes_trans; [apply passes_append|apply passes_set_inList].
Qed.

Lemma passes_endAllLists k : passes k (endAllLists k).
Proof.
  unfold endAllLists.
  eapply passes_trans; [apply passes_endAllLists_loop|apply passes_endList].
Qed.

Lemma passes_startList k : passes k (startList k).
Proof.
  unfold startList.
  assert (H : forall nested k', passes k k' ->
            passes k
              (if nested || negb (inList (state k'))
               then update_state (set_inList true)
                      ((if nested
                        then append (listIndent 1
                               (endParagraph (set_indents (indents k' ++ [Line.listIndent (line k')]) k'))
                               ++ "<ul>")
                        else append (listIndent 0
                               (endParagraph (set_indents (indents k' ++ [Line.listIndent (line k')]) k'))
                               ++ "<ul>"))
                         (endParagraph (set_indents (indents k' ++ [Line.listIndent (line k')]) k')))
               else k')).
  { intros nested k' Hk. destruct (nested || _); [|exact Hk].
    eapply passes_trans; [exact Hk|].
    eapply passes_trans; [apply passes_set_indents|].
    eapply passes_trans; [apply passes_endParagraph|].
    eapply passes_trans; [|apply passes_set_inList].
    destruct nested; apply passes_append. }
  destruct (Py.last_opt (indents k)) as [indent|]; [|apply H, passes_refl].
  destruct (indent <? _); [apply H, passes_refl|].
  destruct (_ <? indent); [apply H, passes_endNestedList|apply H, passes_refl].
Qed.

Lemma passes_set_thisLine (s : str) (k : KiwiMarkup) : passes k (set_thisLine (Some s) k).
Proof. unfold passes. cbn. repeat split; auto. discriminate. Qed.

Lemma passes_addListLine k : passes k (addListLine k).
Proof.
  unfold addListLine. destruct (Line.isNestedList _);
    (eapply passes_trans; [apply passes_startList|apply passes_set_thisLine]).
Qed.

Lemma passes_endAllSections k : passes k (endAllSections k).
Proof.
  unfold endAllSections.
  eapply passes_trans; [|apply passes_endParagraph].
  eapply passes_trans; [|apply passes_endTable].
  eapply passes_trans; [|apply passes_endAllLists].
  eapply passes_trans; [apply passes_endOrgSection|apply passes_endBlock].
Qed.

Lemma table_cells_passes (columns : list str) :
  forall k, exists k', table_cells columns k = OK k' /\ passes k k'.
Proof.
  induction columns as [|c more IH]; intros k; cbn [table_cells].
  - exists k. split; [reflexivity|apply passes_refl].
  - destruct (applyInlineMarkup_ok (Line.isOrgHeader (line k)) c) as [c' ->].
    cbn [bind].
    destruct (Line.isTableHeader (line k));
      match goal with
      | |- context [table_cells more ?x] => destruct (IH x) as (k' & -> & Hk)
      end;
      exists k'; (split; [reflexivity|]);
      (eapply passes_trans; [apply passes_append|exact Hk]).
Qed.

(** What [dispatch] leaves: the output has not shrunk, the current line
    and the next line are still there *)
Lemma dispatch_grows (this : str) (k : KiwiMarkup) :
  exists k' b, dispatch this k = OK (k', b)
    /\ length (output k) <= length (output k')
    /\ (thisLine k <> None -> thisLine k' <> None)
    /\ nextLine k' = nextLine k.
Proof.
  assert (P : forall k', passes k k' ->
              length (output k) <= length (output k')
              /\ (thisLine k <> None -> thisLine k' <> None)
              /\ nextLine k' = nextLine k).
  { intros k' (H1 & H2 & _ & H4). auto. }
  unfold dispatch.
  repeat match goal with
         | |- context [if ?b then on_org_header _ _ else _] => destruct b
         | |- context [if ?b then on_code_start _ else _] => destruct b
         | |- context [if ?b then on_code_end _ else _] => destruct b
         | |- context [if ?b then on_in_code _ else _] => destruct b
         | |- context [if ?b then on_list _ else _] => destruct b
         | |- context [if ?b then on_block _ else _] => destruct b
         | |- context [if ?b then on_table _ else _] => destruct b
         | |- context [if ?b then on_header _ else _] => destruct b
         | |- context [if ?b then on_horizontal_line _ else _] => destruct b
         | |- context [if ?b then on_paragraph _ else _] => destruct b
         | |- context [if ?b then on_blank_line _ else _] => destruct b
         end.
  - eexists _, _. split; [reflexivity|]. apply P.
    eapply passes_trans; [apply passes_startOrgSection|apply passes_set_thisLine].
  - eexists _, _. split; [reflexivity|].
    destruct (passes_endAllSections k) as (H1 & H2 & H3 & H4).
    unfold startCodeSection, update_state, append.
    destruct (negb _); cbn; rewrite ?length_app; cbn; repeat split; auto; lia.
  - eexists _, _. split; [reflexivity|].
    unfold endCodeSection, update_state, append.
    destruct (inCodeSection _); cbn; rewrite ?length_app; cbn; repeat split; auto; lia.
  - eexists _, _. split; [reflexivity|]. apply P, passes_refl.
  - eexists _, _. split; [reflexivity|]. apply P.
    eapply passes_trans; [|apply passes_addListLine].
    eapply passes_trans; [|apply passes_endParagraph].
    eapply passes_trans; [|apply passes_endTable].
    eapply passes_trans; [apply passes_endOrgSection|apply passes_endBlock].
  - eexists _, _. split; [reflexivity|]. apply P.
    eapply passes_trans; [|apply passes_startBlock].
    eapply passes_trans; [|apply passes_endParagraph].
    eapply passes_trans; [|apply passes_endTable].
    eapply passes_trans; [apply passes_endOrgSection|apply passes_endAllLists].
  - unfold on_table.
    match goal with
    | |- context [table_cells ?c ?x] => destruct (table_cells_passes c x) as (k' & -> & Hk)
    end.
    cbn [bind]. eexists _, _. split; [reflexivity|]. apply P.
    eapply passes_trans; [|apply passes_append].
    eapply passes_trans; [|exact Hk].
    eapply passes_trans; [|apply passes_append].
    eapply passes_trans; [|apply passes_startTable].
    eapply passes_trans; [|apply passes_endParagraph].
    eapply passes_trans; [|apply passes_endAllLists].
    eapply passes_trans; [apply passes_endOrgSection|apply passes_endBlock].
  - eexists _, _. split; [reflexivity|]. apply P.
    eapply passes_trans; [apply passes_endAllSections|apply passes_set_thisLine].
  - eexists _, _. split; [reflexivity|]. apply P.
    eapply passes_trans; [apply passes_endAllSections|apply passes_set_thisLine].
  - eexists _, _. split; [reflexivity|]. apply P.
    eapply passes_trans; [|apply passes_startParagraph].
    eapply passes_trans; [|apply passes_endTable].
    eapply passes_trans; [|apply passes_endAllLists].
    eapply passes_trans; [apply passes_endOrgSection|apply passes_endBlock].
  - eexists _, _. split; [reflexivity|]. apply P.
    eapply passes_trans; [|apply passes_endParagraph].
    eapply passes_trans; [|apply passes_endTable].
    eapply passes_trans; [apply passes_endOrgSection|apply passes_endAllLists].
  - eexists _, _. split; [reflexivity|]. apply P, passes_refl.
Qed.

Lemma include_line_adds (k : KiwiMarkup) :
  thisLine k <> None ->
  exists k', include_line k = OK k'
    /\ length (output k') = S (length (output k))
    /\ nextLine k' = nextLine k.
Proof.
  intros H. unfold include_line. destruct (thisLine k) as [this|]; [|contradiction].
  destruct (negb _ && negb _).
  - destruct (applyInlineMarkup_ok (Line.isOrgHeader (line k)) this) as [o ->].
    cbn [bind]. eexists. split; [reflexivity|].
    unfold append. cbn. rewrite length_app. cbn. split; [lia|reflexivity].
  - eexists. split; [reflexivity|].
    unfold append. cbn. rewrite length_app. cbn. split; [lia|reflexivity].
Qed.

(** [processLine] returns, and the output has not shrunk *)
Lemma processLine_grows (k : KiwiMarkup) :
  (thisLine k <> None -> nextLine k <> None) ->
  exists k', processLine k = OK k'
    /\ length (output k) <= length (output k')
    /\ nextLine k' = nextLine k.
Proof.
  intros H. unfold processLine. destruct (thisLine k) as [this|] eqn:Et.
  - destruct (nextLine k) as [next|] eqn:En; [|exfalso; apply H; [discriminate|reflexivity]].
    match goal with
    | |- context [dispatch this ?x] =>
        destruct (dispatch_grows this x) as (k1 & b & -> & H1 & H2 & H3)
    end.
    cbn [bind fst snd]. cbn [thisLine nextLine output set_line] in H1, H2, H3.
    rewrite Et in H2. rewrite En in H3. destruct b.
    + destruct (include_line_adds k1) as (k2 & -> & H4 & H5);
        [apply H2; discriminate|].
      exists k2. split; [reflexivity|]. split; [lia|congruence].
    + exists k1. split; [reflexivity|]. split; [lia|congruence].
  - exists k. auto.
Qed.

Lemma loop_step_grows (k : KiwiMarkup) (raw : str) :
  exists k', loop_step k raw = OK k'
    /\ length (output k) <= length (output k')
    /\ nextLine k' = Some (normalize raw).
Proof.
  unfold loop_step. cbn [line set_nextLine set_thisLine].
  destruct (negb (Line.skipNextLine (line k))).
  - match goal with
    | |- context [processLine ?x] =>
        destruct (processLine_grows x) as (k' & -> & H1 & H2)
    end; [cbn; discriminate|].
    exists k'. auto.
  - eexists. split; [reflexivity|]. cbn. auto.
Qed.

Lemma loop_grows (lines : list str) :
  forall k, exists k', loop lines k = OK k'
    /\ length (output k) <= length (output k').
Proof.
  induction lines as [|raw more IH]; intros k; cbn [loop].
  - exists k. auto.
  - destruct (loop_step_grows k raw) as (k1 & -> & H1 & _). cbn [bind].
    destruct (IH k1) as (k2 & -> & H2). exists k2. split; [reflexivity|lia].
Qed.

Lemma final_line_grows (k : KiwiMarkup) :
  exists k', final_line k = OK k' /\ length (output k) <= length (output k').
Proof.
  unfold final_line. destruct (negb _).
  - match goal with
    | |- context [processLine ?x] =>
        destruct (processLine_grows x) as (k' & -> & H1 & H2)
    end; [cbn; discriminate|].
    exists k'. auto.
  - exists k. auto.
Qed.

Lemma loop_app (a b : list str) :
  forall k, loop (a ++ b) k = (k1 <- loop a k ;; loop b k1).
Proof.
  induction a as [|x a IH]; intros k; cbn [loop app bind]; [reflexivity|].
  destruct (loop_step k x) as [k1|e]; cbn [bind]; [apply IH|reflexivity].
Qed.

(** * How a run starts *)

(** A blank line leaves a quiet converter quiet *)
Lemma processLine_blank_quiet (k : KiwiMarkup) (t n : str) :
  quiet k -> thisLine k = Some t -> nextLine k = Some n -> blank t = true ->
  exists k', processLine k = OK k' /\ quiet k'
             /\ nextLine k' = Some n /\ mode k' = mode k.
Proof.
  intros (Hs & Hi & Ho & Hh & Hk) Et En Hb.
  destruct k as [st md ln th nx ind out]. cbn in *. subst.
  unfold processLine. cbn [thisLine nextLine state line set_line].
  rewrite scan_of_blank by exact Hb.
  unfold dispatch, scan_blank. cbn. rewrite Hh, andb_false_r.
  cbn. eexists. split; [reflexivity|]. unfold quiet. cbn. repeat split; auto.
Qed.

(** A line that is not blank and is no code-fence end writes something,
    when no code section is open *)
Lemma processLine_emits (k : KiwiMarkup) (t n : str) :
  thisLine k = Some t -> nextLine k = Some n ->
  blank t = false -> matches CODEBLOCK_END_REGEX t = false ->
  inCodeSection (state k) = false ->
  exists k', processLine k = OK k'
             /\ length (output k) < length (output k')
             /\ nextLine k' = Some n.
Proof.
  intros Et En Hb Hce Hc. unfold processLine. rewrite Et, En.
  rewrite scan_of_nonblank by exact Hb.
  set (k1 := set_line _ k).
  assert (F1 : Line.isCodeEnd (line k1) = false) by (cbn; exact Hce).
  assert (F2 : Line.isBlankLine (line k1) = false) by reflexivity.
  assert (F3 : inCodeSection (state k1) = false) by exact Hc.
  assert (F4 : thisLine k1 = Some t) by exact Et.
  assert (F5 : nextLine k1 = Some n) by exact En.
  assert (F6 : output k1 = output k) by reflexivity.
  rewrite <- F6. clearbody k1. clear F6.
  destruct (dispatch_grows t k1) as (k2 & b & E & H1 & H2 & H3).
  rewrite E. cbn [bind fst snd]. destruct b.
  - destruct (include_line_adds k2) as (k3 & -> & H4 & H5);
      [apply H2; rewrite F4; discriminate|].
    exists k3. split; [reflexivity|]. split; [lia|congruence].
  - exists k2. split; [reflexivity|]. split; [|congruence].
    unfold dispatch in E. rewrite F1, F2, F3 in E.
    destruct (kmode_eqb (mode k1) KIWI_MODE_ORG && Line.isOrgHeader (line k1));
      [discriminate|].
    destruct (Line.isCodeStart (line k1)).
    { injection E as <-.
      destruct (passes_endAllSections k1) as (G1 & _ & G3 & _).
      unfold startCodeSection, update_state, append. rewrite G3, F3.
      cbn. rewrite !length_app. cbn. lia. }
    destruct (Line.isList (line k1)); [discriminate|].
    destruct (Line.isBlock (line k1)); [discriminate|].
    destruct (Line.isTable (line k1)).
    { unfold on_table in E.
      match type of E with
      | context [table_cells ?c ?x] => destruct (table_cells_passes c x) as (k' & Ec & Hk)
      end.
      rewrite Ec in E. cbn [bind] in E. injection E as <-.
      destruct Hk as (G1 & _). unfold append in *. cbn in *.
      rewrite !length_app in *. cbn in *.
      match type of G1 with
      | length (output ?x) + 1 <= _ =>
          assert (G2 : length (output k1) <= length (output x))
      end; [|lia].
      eapply Nat.le_trans; [|apply passes_startTable].
      eapply Nat.le_trans; [|apply passes_endParagraph].
      eapply Nat.le_trans; [|apply passes_endAllLists].
      eapply Nat.le_trans; [apply passes_endOrgSection|apply passes_endBlock]. }
    destruct (Line.isHeader (line k1)); [discriminate|].
    destruct (Line.isHorizontalLine (line k1)); [discriminate|].
    destruct (Line.isParagraph (line k1)); discriminate.
Qed.

Lemma loop_step_quiet (k : KiwiMarkup) (raw : str) :
  quiet k -> pending_blank k ->
  exists k', loop_step k raw = OK k' /\ quiet k'
             /\ nextLine k' = Some (normalize raw) /\ mode k' = mode k.
Proof.
  intros Hq Hp. unfold loop_step. cbn [line set_nextLine set_thisLine].
  destruct Hq as (Hs & Hi & Ho & Hh & Hk). rewrite Hk. cbn [negb].
  unfold pending_blank in Hp. destruct (nextLine k) as [b|] eqn:En.
  - match goal with
    | |- context [processLine ?x] =>
        destruct (@processLine_blank_quiet x b (normalize raw))
          as (k' & -> & H1 & H2 & H3);
          [unfold quiet; cbn; repeat split; auto|reflexivity|reflexivity|exact Hp|]
    end.
    exists k'. auto.
  - unfold processLine. cbn [thisLine set_nextLine set_thisLine].
    eexists. split; [reflexivity|]. unfold quiet. cbn. repeat split; auto.
Qed.

Lemma loop_blanks_quiet (blanks : list str) :
  Forall (fun b => blank b = true) blanks ->
  forall k, quiet k -> pending_blank k ->
  exists k', loop blanks k = OK k' /\ quiet k' /\ pending_blank k'
             /\ mode k' = mode k.
Proof.
  induction 1 as [|b more Hb _ IH]; intros k Hq Hp; cbn [loop].
  - exists k. auto.
  - destruct (loop_step_quiet b Hq Hp) as (k1 & -> & H1 & H2 & H3). cbn [bind].
    destruct (IH k1 H1) as (k2 & -> & H4 & H5 & H6).
    + unfold pending_blank. rewrite H2, blank_normalize. exact Hb.
    + exists k2. split; [reflexivity|]. split; [exact H4|].
      split; [exact H5|congruence].
Qed.

(** C2, amended: when the first line that is not blank is not a :code
    line, a run on a new converter answers true and writes something. *)
Theorem first_line_decides (blanks rest : list str) (l : str) (mode : option kmode) :
  Forall (fun b => blank b = true) blanks ->
  blank l = false ->
  matches CODEBLOCK_END_REGEX (normalize l) = false ->
  exists out, convert (blanks ++ l :: rest) mode = OK (true, out) /\ out <> [].
Proof.
  intros Hblanks Hl Hce. unfold convert, execute.
  destruct (blanks ++ l :: rest) as [|x xs] eqn:E;
    [destruct blanks; discriminate|].
  set (m := pick_mode (x :: xs) mode). rewrite <- E. clearbody m. clear E x xs.
  set (k0 := MkKiwi _ _ _ _ _ _ _).
  assert (Hq0 : quiet k0) by (unfold quiet; cbn; repeat split; auto).
  assert (Hp0 : pending_blank k0) by exact I.
  rewrite loop_app.
  destruct (loop_blanks_quiet Hblanks Hq0 Hp0) as (k1 & -> & Hq1 & Hp1 & _).
  cbn [bind loop].
  destruct (loop_step_quiet l Hq1 Hp1) as (k2 & -> & Hq2 & Hn2 & _). cbn [bind].
  assert (Hnb : blank (normalize l) = false) by (rewrite blank_normalize; exact Hl).
  assert (Hc2 : inCodeSection (state k2) = false)
    by (destruct Hq2 as (-> & _); reflexivity).
  assert (Hk2 : Line.skipNextLine (line k2) = false) by apply Hq2.
  assert (Done : forall k3, 0 < length (output k3) ->
            exists out,
              (r <- (k <- final_line k3 ;; OK (0 <? length (output (endAllSections k)),
                                                endAllSections k)) ;;
               OK (fst r, output (snd r))) = OK (true, out) /\ out <> []).
  { intros k3 H3. destruct (final_line_grows k3) as (k4 & -> & H4). cbn [bind fst snd].
    destruct (passes_endAllSections k4) as (H5 & _).
    eexists. split.
    - f_equal. f_equal. apply Nat.ltb_lt. lia.
    - intros C. rewrite C in H5. cbn in H5. lia. }
  destruct rest as [|r rest']; cbn [loop bind].
  - unfold final_line at 1. rewrite Hk2. cbn [negb].
    match goal with
    | |- context [processLine ?x] =>
        destruct (@processLine_emits x (normalize l) [])
          as (k3 & E3 & H3 & _);
          [cbn; exact Hn2|reflexivity|exact Hnb|exact Hce|exact Hc2|]
    end.
    rewrite E3. cbn [bind fst snd].
    cbn [output set_nextLine set_thisLine] in H3.
    destruct (passes_endAllSections k3) as (H5 & _).
    eexists. split.
    + f_equal. f_equal. apply Nat.ltb_lt. lia.
    + intros C. rewrite C in H5. cbn in H5. lia.
  - unfold loop_step at 1. cbn [line set_nextLine set_thisLine].
    rewrite Hk2. cbn [negb].
    match goal with
    | |- context [processLine ?x] =>
        destruct (@processLine_emits x (normalize l) (normalize r))
          as (k3 & E3 & H3 & _);
          [cbn; exact Hn2|reflexivity|exact Hnb|exact Hce|exact Hc2|]
    end.
    rewrite E3. cbn [bind].
    cbn [output set_nextLine set_thisLine] in H3.
    destruct (loop_grows rest' k3) as (k4 & -> & H4). cbn [bind].
    apply Done. lia.
Qed.

Lemma first_line_decides_witness :
  exists out, convert ([" " : str] ++ ("hello" : str) :: [":code" : str]) None
              = OK (true, out) /\ out <> [].
Proof.
  apply (@first_line_decides [" " : str] [":code" : str] "hello" None).
  - repeat constructor.
  - reflexivity.
  - reflexivity.
Defined.

(** * Table rows *)

Lemma applyInlineMarkup_render (b : bool) (s : str) :
  applyInlineMarkup b s = OK (render b s).
Proof.
  unfold render. destruct (applyInlineMarkup_ok b s) as [o ->]. reflexivity.
Qed.

Lemma table_cells_eq (columns : list str) :
  forall k,
    table_cells columns k
    = OK (set_output
            (output k
             ++ map (fun c => cell (Line.isTableHeader (line k))
                                (render (Line.isOrgHeader (line k)) c)) columns) k).
Proof.
  induction columns as [|c more IH]; intros k; cbn [table_cells map].
  - rewrite app_nil_r. destruct k; reflexivity.
  - rewrite applyInlineMarkup_render. cbn [bind]. unfold cell.
    destruct (Line.isTableHeader (line k)) eqn:E; rewrite IH;
      unfold append; cbn; rewrite E, <- app_assoc; reflexivity.
Qed.

Lemma split_not_nil (sep : ascii) (s : str) : Py.split sep s <> [].
Proof.
  induction s as [|c t IH]; cbn; [discriminate|].
  destruct (Ascii.eqb c sep); [discriminate|].
  destruct (Py.split sep t); [contradiction|discriminate].
Qed.

Lemma same_table_refl (k : KiwiMarkup) : same_table k k.
Proof. unfold same_table. auto. Qed.

Lemma same_table_trans (a b c : KiwiMarkup) :
  same_table a b -> same_table b c -> same_table a c.
Proof.
  unfold same_table. intros (H1 & H2 & H3 & H4) (H5 & H6 & H7 & H8).
  repeat split; congruence.
Qed.

Ltac same_table_method :=
  match goal with
  | |- same_table ?k (?f ?k) =>
      unfold f, update_state, same_table, append;
      match goal with
      | |- context [if ?b then _ else _] => destruct b
      end; cbn; repeat split; reflexivity
  end.

Lemma same_table_endOrgSection k : same_table k (endOrgSection k).
Proof. same_table_method. Qed.

Lemma same_table_endBlock k : same_table k (endBlock k).
Proof. same_table_method. Qed.

Lemma same_table_endParagraph k : same_table k (endParagraph k).
Proof. same_table_method. Qed.

Lemma same_table_startParagraph k : same_table k (startParagraph k).
Proof. same_table_method. Qed.

Lemma same_table_startBlock k : same_table k (startBlock k).
Proof. same_table_method. Qed.

Lemma same_table_startOrgSection k : same_table k (startOrgSection k).
Proof. same_table_method. Qed.

Lemma same_table_pop_round (k : KiwiMarkup) (l : list nat) (a b : str) :
  same_table k (set_indents l (append a (append b k))).
Proof. unfold same_table. cbn. auto. Qed.

Lemma same_table_endNestedList_rec (calls : nat) :
  forall k, same_table k (endNestedList_rec calls k).
Proof.
  induction calls as [|c IH]; intros k; cbn [endNestedList_rec]; [apply same_table_refl|].
  destruct (Py.last_opt (indents k)); [|apply same_table_refl].
  destruct (_ <? _); [|apply same_table_refl].
  eapply same_table_trans; [|apply IH]. apply same_table_pop_round.
Qed.

Lemma same_table_endAllLists_loop (rounds : nat) :
  forall k, same_table k (endAllLists_loop rounds k).
Proof.
  induction rounds as [|c IH]; intros k; cbn [endAllLists_loop]; [apply same_table_refl|].
  destruct (0 <? _); [|apply same_table_refl].
  eapply same_table_trans; [|apply IH]. apply same_table_pop_round.
Qed.

Lemma same_table_endList k : same_table k (endList k).
Proof.
  unfold endList. destruct (inList (state k)); [|apply same_table_refl].
  assert (H : forall k', same_table k k' ->
            same_table k (if length (indents k') =? 0
                          then update_state (set_inList false)
                                 (append (listIndent 0 k' ++ "</ul>") k')
                          else k')).
  { intros k' Hk. destruct (_ =? 0); [|exact Hk].
    eapply same_table_trans; [exact Hk|]. unfold same_table. cbn. auto. }
  destruct (0 <? length (indents k)); apply H;
    [apply same_table_endNestedList_rec|apply same_table_refl].
Qed.

Lemma same_table_endAllLists k : same_table k (endAllLists k).
Proof.
  unfold endAllLists.
  eapply same_table_trans; [apply same_table_endAllLists_loop|apply same_table_endList].
Qed.

Lemma same_table_before_row k : same_table k (before_row k).
Proof.
  unfold before_row.
  eapply same_table_trans; [|apply same_table_endParagraph].
  eapply same_table_trans; [|apply same_table_endAllLists].
  eapply same_table_trans; [apply same_table_endOrgSection|apply same_table_endBlock].
Qed.

(** The table branch of [processLine], when a table is already open *)
Lemma on_table_row (k : KiwiMarkup) :
  inTable (state k) = true ->
  exists k', on_table k = OK (k', false)
             /\ output k' = output (before_row k) ++ row (line k)
             /\ state k' = state (before_row k).
Proof.
  intros Ht. unfold on_table. fold (before_row k).
  destruct (same_table_before_row k) as (Hl & _ & Hb & _).
  unfold startTable. rewrite Hb, Ht. cbn [negb].
  rewrite table_cells_eq. cbn [bind].
  eexists. split; [reflexivity|].
  unfold append, row. cbn. rewrite Hl, <- !app_assoc. split; reflexivity.
Qed.

(** C10, amended: while a table is open and no code section is, a line
    that is not blank always has the table flag and never the block flag,
    for a split at the bar gives at least one piece; unless it is an
    org-mode header, a code fence or a list item, it is written as a row
    of the table with one cell for each piece. *)
Theorem open_table_takes_the_line (this next : str) (k : KiwiMarkup) :
  inTable (state k) = true ->
  inCodeSection (state k) = false ->
  blank this = false ->
  Line.isTable (line (scanned this next k)) = true
  /\ Line.isBlock (line (scanned this next k)) = false
  /\ 1 <= length (Line.tableColumns (line (scanned this next k)))
  /\ (applies (scanned this next k) OrgHeader = false ->
      applies (scanned this next k) CodeFenceStart = false ->
      applies (scanned this next k) CodeFenceEnd = false ->
      applies (scanned this next k) ListItem = false ->
      find (applies (scanned this next k)) precedence = Some Table
      /\ exists k',
           processLine (at_line this next k) = OK k'
           /\ output k'
              = output (before_row (scanned this next k))
                ++ row (line (scanned this next k))
           /\ inTable (state k') = true).
Proof.
  intros Ht Hc Hb.
  assert (Hcols : 1 <= length (map Py.strip (Py.split "|" this))).
  { rewrite length_map. pose proof (@split_not_nil "|" this) as H.
    destruct (Py.split "|" this); [contradiction|cbn; lia]. }
  unfold scanned, at_line. cbn [line set_line state set_nextLine set_thisLine].
  rewrite scan_of_nonblank by exact Hb.
  assert (F1 : Line.isTable (scan_fields this next (state k) (line k)) = true).
  { unfold scan_fields. cbn [Line.isTable]. rewrite Ht, andb_true_r.
    apply orb_true_iff. right. apply orb_true_iff. right.
    apply Nat.ltb_lt. exact Hcols. }
  assert (F2 : Line.isBlock (scan_fields this next (state k) (line k)) = false).
  { unfold scan_fields. cbn [Line.isBlock]. rewrite Ht. apply andb_false_r. }
  split; [exact F1|]. split; [exact F2|]. split; [exact Hcols|].
  intros A1 A2 A3 A4. unfold applies in A1, A2, A3, A4.
  cbn [mode state line set_line set_nextLine set_thisLine] in A1, A2, A3, A4.
  split.
  - unfold precedence.
    cbn [find applies mode state line set_line set_nextLine set_thisLine].
    rewrite A1, A2, A3, A4, Hc, F1, F2. reflexivity.
  - unfold processLine. cbn [thisLine nextLine set_nextLine set_thisLine].
    rewrite scan_of_nonblank by exact Hb.
    unfold dispatch. cbn [mode state line set_line set_nextLine set_thisLine].
    rewrite A1, A2, A3, A4, Hc, F1, F2.
    match goal with
    | |- context [on_table ?x] =>
        destruct (@on_table_row x) as (k' & -> & H1 & H2); [exact Ht|]
    end.
    cbn [bind fst snd]. exists k'. split; [reflexivity|]. split.
    + exact H1.
    + rewrite H2. destruct (same_table_before_row
        (set_line (scan_fields this next (state k) (line k))
           (set_nextLine (Some next) (set_thisLine (Some this) k))))
        as (_ & _ & H3 & _).
      rewrite H3. exact Ht.
Qed.

Lemma open_table_takes_the_line_witness :
  exists k',
    processLine (at_line "# Title" "" table_open) = OK k'
    /\ output k'
       = ["    <tr>" : str; "        <td># Title</td>" : str; "    </tr>" : str].
Proof.
  destruct (@open_table_takes_the_line "# Title" "" table_open
              eq_refl eq_refl eq_refl) as (_ & _ & _ & H).
  destruct (H eq_refl eq_refl eq_refl eq_refl) as (_ & k' & E & O & _).
  exists k'. split; [exact E|]. rewrite O. vm_compute. reflexivity.
Defined.

(** * Runs of one character *)

Lemma further_0 (st : mstate) : further 0 st = st.
Proof. destruct st. reflexivity. Qed.

Lemma further_S (i : nat) (st : mstate) (c : ascii) (t : str) :
  rest st = c :: t -> further (S i) st = further i (advance st t).
Proof.
  intros E. unfold further, advance. cbn. rewrite E. cbn.
  f_equal. lia.
Qed.

(** A greedy repetition of one character, on a run of that character,
    succeeds as soon as what follows succeeds after some allowed number of
    rounds *)
Lemma rep_chr_some (c : ascii) (k : cont) :
  forall j fuel lo st tl i,
    rest st = repeat c j ++ tl -> j < fuel -> lo <= i -> i <= j ->
    is_some (k (further i st)) = true ->
    is_some (rep_loop (run (Chr c)) fuel lo None st k) = true.
Proof.
  induction j as [|j IH]; intros fuel lo st tl i E Hf Hlo Hi Hk.
  - assert (i = 0) by lia. subst i. assert (lo = 0) by lia. subst lo.
    rewrite further_0 in Hk.
    destruct fuel as [|f]; [lia|]. cbn [rep_loop Nat.eqb].
    destruct (run (Chr c) st _); [reflexivity|exact Hk].
  - destruct fuel as [|f]; [lia|]. cbn [rep_loop run]. cbn [repeat app] in E.
    rewrite E. rewrite Ascii.eqb_refl.
    unfold advance at 1. cbn [rest length]. rewrite Nat.ltb_irrefl || idtac.
    replace (length (repeat c j ++ tl) <? S (length (repeat c j ++ tl))) with true
      by (symmetry; apply Nat.ltb_lt; lia).
    destruct i as [|i].
    + assert (lo = 0) by lia. subst lo. rewrite further_0 in Hk.
      cbn [Nat.eqb].
      match goal with
      | |- is_some (match ?x with _ => _ end) = true => destruct x; [reflexivity|exact Hk]
      end.
    + rewrite (further_S i st E) in Hk.
      assert (G : is_some (rep_loop (run (Chr c)) f (pred lo) None (advance st (repeat c j ++ tl)) k)
                  = true).
      { apply (IH f (pred lo) (advance st (repeat c j ++ tl)) tl i);
          [reflexivity|lia|lia|lia|exact Hk]. }
      cbn [option_map].
      match goal with
      | |- is_some (match ?x with _ => _ end) = true =>
          change x with (rep_loop (run (Chr c)) f (pred lo) None
                           (advance st (repeat c j ++ tl)) k);
          destruct (rep_loop (run (Chr c)) f (pred lo) None
                      (advance st (repeat c j ++ tl)) k); [reflexivity|discriminate]
      end.
Qed.

(** Six or more of one character are an underline: the patterns with
    {5,} and then + *)
Lemma underline_matches (c : ascii) (n : nat) :
  6 <= n ->
  matches (seqs [Bol; Rep 5 None (Chr c); plus (Chr c); Eol]) (repeat c n) = true.
Proof.
  intros Hn. unfold matches, search. 
  assert (H : is_some (match_at (seqs [Bol; Rep 5 None (Chr c); plus (Chr c); Eol]) 0
                         (repeat c n)) = true).
  { unfold match_at, plus. cbn [seqs run pos Nat.eqb rest].
    apply (@rep_chr_some c _ n _ 5 _ [] (n - 1));
      [cbn; rewrite app_nil_r; reflexivity|rewrite repeat_length; lia|lia|lia|].
    unfold further. cbn [rest pos caps].
    assert (E : skipn (n - 1) (repeat c n) = [c]).
    { replace n with ((n - 1) + 1) at 2 by lia.
      rewrite repeat_app, skipn_app, repeat_length, Nat.sub_diag.
      rewrite skipn_all2 by (rewrite repeat_length; lia). reflexivity. }
    rewrite E. cbn [length].
    apply (@rep_chr_some c _ 1 _ 1 _ [] 1); [reflexivity|lia|lia|lia|].
    reflexivity. }
  destruct n as [|n]; [lia|]. cbn [repeat] in *. cbn [search_at].
  destruct (match_at _ 0 (c :: repeat c n)); [reflexivity|discriminate].
Qed.

(** * The section methods, written out *)

Ltac method_eq f :=
  intros;
  match goal with
  | |- f ?k = _ =>
      destruct k as [[p t l b o c] m ln th nx ind out];
      unfold f, update_state, append, when; cbn;
      destruct p, t, b, o; cbn; rewrite ?app_nil_r; reflexivity
  end.

Lemma endParagraph_eq k :
  endParagraph k
  = set_state (set_inParagraph false (state k))
      (set_output (output k ++ when (inParagraph (state k)) "</p>") k).
Proof. method_eq endParagraph. Qed.

Lemma startParagraph_eq k :
  startParagraph k
  = set_state (set_inParagraph true (state k))
      (set_output (output k ++ when (negb (inParagraph (state k))) "<p>") k).
Proof. method_eq startParagraph. Qed.

Lemma endBlock_eq k :
  endBlock k
  = set_state (set_inBlock false (state k))
      (set_output (output k ++ when (inBlock (state k)) "</pre>") k).
Proof. method_eq endBlock. Qed.

Lemma startBlock_eq k :
  startBlock k
  = set_state (set_inBlock true (state k))
      (set_output (output k ++ when (negb (inBlock (state k))) "<pre>") k).
Proof. method_eq startBlock. Qed.

Lemma endTable_eq k :
  endTable k
  = set_state (set_inTable false (state k))
      (set_output (output k ++ when (inTable (state k)) "</table>") k).
Proof. method_eq endTable. Qed.

Lemma startTable_eq k :
  startTable k
  = set_state (set_inTable true (state k))
      (set_output (output k ++ when (negb (inTable (state k))) "<table>") k).
Proof. method_eq startTable. Qed.

Lemma endOrgSection_eq k :
  endOrgSection k
  = set_state (set_inOrgSection false (state k))
      (set_output (output k ++ when (inOrgSection (state k)) "</p>") k).
Proof. method_eq endOrgSection. Qed.

Lemma startOrgSection_eq k :
  startOrgSection k
  = set_state (set_inOrgSection true (state k))
      (set_output (output k ++ when (negb (inOrgSection (state k))) "<p>") k).
Proof. method_eq startOrgSection. Qed.

Lemma startCodeSection_eq k :
  startCodeSection k
  = set_state (set_inCodeSection true (state k))
      (set_output (output k
                   ++ (if inCodeSection (state k) then []
                       else ["<pre>" : str; "<code>" : str])) k).
Proof.
  destruct k as [[p t l b o c] m ln th nx ind out].
  unfold startCodeSection, update_state, append. cbn.
  destruct c; cbn; rewrite ?app_nil_r, <- ?app_assoc; reflexivity.
Qed.

Lemma endCodeSection_eq k :
  endCodeSection k
  = set_state (set_inCodeSection false (state k))
      (set_output (output k
                   ++ (if inCodeSection (state k)
                       then ["</code>" : str; "</pre>" : str] else [])) k).
Proof.
  destruct k as [[p t l b o c] m ln th nx ind out].
  unfold endCodeSection, update_state, append. cbn.
  destruct c; cbn; rewrite ?app_nil_r, <- ?app_assoc; reflexivity.
Qed.

Lemma length_pop (A : Type) (l : list A) (n : nat) :
  length l = S n -> length (Py.pop l) = n.
Proof.
  unfold Py.pop. intros H. destruct l as [|a l] using rev_ind; [discriminate|].
  rewrite removelast_last. rewrite length_app in H. cbn in H. lia.
Qed.

Lemma endAllLists_loop_eq (n : nat) :
  forall k, length (indents k) = n ->
    endAllLists_loop n k
    = set_indents [] (set_output (output k ++ list_closers n) k).
Proof.
  induction n as [|n IH]; intros k H.
  - cbn. rewrite app_nil_r. destruct k. cbn in *.
    apply length_zero_iff_nil in H. subst. reflexivity.
  - cbn [endAllLists_loop]. rewrite H. cbn [Nat.ltb Nat.leb].
    rewrite IH by (cbn; apply length_pop; exact H).
    unfold listIndent, append. cbn [indents set_output output set_indents].
    rewrite H. cbn [list_closers]. rewrite <- !app_assoc. reflexivity.
Qed.

Lemma endAllLists_eq k :
  endAllLists k
  = set_state (set_inList false (state k))
      (set_indents []
         (set_output (output k ++ list_closers (length (indents k))
                      ++ when (inList (state k)) "</ul>") k)).
Proof.
  unfold endAllLists. rewrite endAllLists_loop_eq by reflexivity.
  destruct k as [[p t l b o c] m ln th nx ind out].
  unfold endList, update_state, append, when, listIndent. cbn.
  destruct l; cbn; rewrite ?app_nil_r, <- ?app_assoc; reflexivity.
Qed.

Lemma endAllSections_eq k :
  endAllSections k
  = {| state := closed_state (state k); mode := mode k; line := line k;
       thisLine := thisLine k; nextLine := nextLine k; indents := [];
       output := output k ++ closers k |}.
Proof.
  unfold endAllSections.
  rewrite endParagraph_eq, endTable_eq, endAllLists_eq, endBlock_eq, endOrgSection_eq.
  destruct k as [[p t l b o c] m ln th nx ind out].
  unfold closers, closed_state. cbn. rewrite <- !app_assoc. reflexivity.
Qed.

(** * Underlined headers *)

(** C5, amended: a line that is not blank and not a header by its own
    marks, with six or more = signs on the next line, is scanned as a
    header of level 1 whose text is the line, and the next line is to be
    skipped; when no category before the header one holds, the line is
    written as the rendering of h1 around it, the round after it does not
    write, and a run that ends there does not handle the underline. *)
Theorem setext_header_line (this : str) (n : nat) (k : KiwiMarkup) :
  blank this = false ->
  Re.search HEADER_REGEX this = None ->
  6 <= n ->
  Line.isHeader (line (scanned this (repeat "="%char n) k)) = true
  /\ Line.headerLevel (line (scanned this (repeat "="%char n) k)) = 1
  /\ Line.headerText (line (scanned this (repeat "="%char n) k)) = this
  /\ Line.skipNextLine (line (scanned this (repeat "="%char n) k)) = true
  /\ (find (applies (scanned this (repeat "="%char n) k)) precedence = Some Header ->
      exists k',
        processLine (at_line this (repeat "="%char n) k) = OK k'
        /\ output k'
           = output k ++ closers k
             ++ [render (Line.isOrgHeader (line (scanned this (repeat "="%char n) k)))
                   ("<h1>" ++ this ++ "</h1>")]
        /\ Line.skipNextLine (line k') = true
        /\ (forall raw, exists k'',
              loop_step k' raw = OK k'' /\ output k'' = output k'
              /\ Line.skipNextLine (line k'') = false)
        /\ final_line k' = OK k').
Proof.
  intros Hb Hh Hn.
  pose proof (@underline_matches "="%char n Hn) as Hu.
  fold SETEXT1_REGEX in Hu.
  unfold scanned, at_line. cbn [line set_line state set_nextLine set_thisLine].
  rewrite scan_of_nonblank by exact Hb.
  remember (scan_fields this (repeat "="%char n) (state k) (line k)) as sf eqn:Esf.
  assert (F1 : Line.isHeader sf = true)
    by (rewrite Esf; unfold scan_fields; cbn [Line.isHeader]; rewrite Hh, Hu; reflexivity).
  assert (F2 : Line.headerLevel sf = 1)
    by (rewrite Esf; unfold scan_fields; cbn [Line.headerLevel]; rewrite Hh, Hu; reflexivity).
  assert (F3 : Line.headerText sf = this)
    by (rewrite Esf; unfold scan_fields; cbn [Line.headerText]; rewrite Hh, Hu; reflexivity).
  assert (F4 : Line.skipNextLine sf = true)
    by (rewrite Esf; unfold scan_fields; cbn [Line.skipNextLine]; rewrite Hh, Hu; reflexivity).
  split; [exact F1|]. split; [exact F2|]. split; [exact F3|]. split; [exact F4|].
  intros Hf. unfold precedence in Hf.
  cbn [find applies mode state line set_line set_nextLine set_thisLine] in Hf.
  destruct (kmode_eqb (mode k) KIWI_MODE_ORG && Line.isOrgHeader sf) eqn:A1; [discriminate|].
  destruct (Line.isCodeStart sf) eqn:A2; [discriminate|].
  destruct (Line.isCodeEnd sf) eqn:A3; [discriminate|].
  destruct (inCodeSection (state k)) eqn:A4; [discriminate|].
  destruct (Line.isList sf) eqn:A5; [discriminate|].
  destruct (Line.isBlock sf) eqn:A6; [discriminate|].
  destruct (Line.isTable sf) eqn:A7; [discriminate|].
  clear Hf.
  unfold processLine. cbn [thisLine nextLine set_nextLine set_thisLine].
  rewrite scan_of_nonblank by exact Hb.
  cbn [state line set_nextLine set_thisLine]. rewrite <- Esf.
  unfold dispatch. cbn [mode state line set_line set_nextLine set_thisLine].
  rewrite A1, A2, A3, A4, A5, A6, A7, F1.
  unfold on_header. rewrite endAllSections_eq.
  cbn [bind fst snd line state set_line set_nextLine set_thisLine mode thisLine
       nextLine output indents].
  rewrite F2, F3.
  unfold include_line. cbn [thisLine set_thisLine state closed_state inBlock
                            inCodeSection line negb andb].
  rewrite A4. cbn [negb andb].
  rewrite applyInlineMarkup_render. cbn [bind].
  eexists. split; [reflexivity|].
  unfold append. cbn [output set_output set_thisLine line].
  split; [rewrite <- app_assoc; reflexivity|].
  split; [exact F4|].
  split.
  - intros raw. unfold loop_step.
    cbn [line set_nextLine set_thisLine set_output]. rewrite F4. cbn [negb].
    eexists. split; [reflexivity|]. split; reflexivity.
  - unfold final_line. cbn [line set_output set_thisLine]. rewrite F4. reflexivity.
Qed.

Lemma setext_header_line_witness :
  exists k',
    processLine (at_line "Title" (repeat "="%char 6) new_KiwiMarkup) = OK k'
    /\ output k' = ["<h1>Title</h1>" : str].
Proof.
  destruct (@setext_header_line "Title" 6 new_KiwiMarkup eq_refl eq_refl (le_n 6))
    as (_ & _ & _ & _ & H).
  destruct (H eq_refl) as (k' & E & O & _).
  exists k'. split; [exact E|]. rewrite O. vm_compute. reflexivity.
Defined.

(** * The characters a match reads *)

Section CharactersOfAMatch.

Variable P : ascii -> bool.

Lemma rep_loop_stays_in (body : mstate -> cont -> option mstate) :
  stays_in P body ->
  forall fuel lo hi, stays_in P (fun st k => rep_loop body fuel lo hi st k).
Proof.
  intros Hbody fuel. induction fuel as [|f IH]; intros lo hi st k m Hst H; cbn in H.
  - destruct (lo =? 0); [|discriminate]. exists st. auto.
  - assert (Hstop : (if lo =? 0 then k st else None) = Some m ->
                    exists st', k st' = Some m /\ forallb P (rest st') = true
                                /\ (caps_in P st -> caps_in P st')).
    { intros E. destruct (lo =? 0); [|discriminate]. exists st. auto. }
    assert (Hmore : forall hi',
               body st (fun st' => if length (rest st') <? length (rest st)
                                   then rep_loop body f (pred lo) hi' st' k
                                   else None) = Some m ->
               exists st', k st' = Some m /\ forallb P (rest st') = true
                           /\ (caps_in P st -> caps_in P st')).
    { intros hi' E. apply Hbody in E; [|exact Hst].
      destruct E as (st1 & E & H1 & H1'). cbn beta in E.
      destruct (length (rest st1) <? length (rest st)); [|discriminate].
      apply (IH (pred lo) hi') in E; [|exact H1].
      destruct E as (st2 & E & H2 & H2'). exists st2. auto. }
    destruct hi as [[|h]|]; [auto| |].
    + match type of H with
      | match ?b with _ => _ end = _ => destruct b as [m'|] eqn:E
      end; [|auto].
      injection H as ->. exact (Hmore _ E).
    + match type of H with
      | match ?b with _ => _ end = _ => destruct b as [m'|] eqn:E
      end; [|auto].
      injection H as ->. exact (Hmore _ E).
Qed.

Lemma forallb_tail (c : ascii) (t : str) :
  forallb P (c :: t) = true -> forallb P t = true.
Proof. cbn. intros H. apply andb_true_iff in H. apply H. Qed.

Lemma run_stays_in (r : regex) : stays_in P (run r).
Proof.
  induction r as [| | |c|p|r1 IH1 r2 IH2|r1 IH1 r2 IH2|i r IH|lo hi r IH];
    intros st k m Hst H; cbn [run] in H.
  - exists st. auto.
  - destruct (pos st =? 0); [|discriminate]. exists st. auto.
  - exists st. split; [|auto].
    destruct (rest st) as [|c [|c' t]]; try discriminate; [exact H|].
    destruct (Ascii.eqb c Py.NL); [exact H|discriminate].
  - destruct (rest st) as [|x t] eqn:E; [discriminate|].
    destruct (Ascii.eqb x c); [|discriminate].
    exists (advance st t). split; [exact H|]. split; [|auto].
    exact (forallb_tail _ _ Hst).
  - destruct (rest st) as [|x t] eqn:E; [discriminate|].
    destruct (p x); [|discriminate].
    exists (advance st t). split; [exact H|]. split; [|auto].
    exact (forallb_tail _ _ Hst).
  - apply IH1 in H; [|exact Hst]. destruct H as (st1 & H & H1 & H1').
    apply IH2 in H; [|exact H1]. destruct H as (st2 & H & H2 & H2').
    exists st2. auto.
  - destruct (run r1 st k) as [m'|] eqn:E.
    + injection H as ->. exact (IH1 _ _ _ Hst E).
    + exact (IH2 _ _ _ Hst H).
  - apply IH in H; [|exact Hst]. destruct H as (st1 & H & H1 & H1').
    exists (set_group i st st1). split; [exact H|]. split; [exact H1|].
    intros Hc. unfold caps_in, set_group. cbn. constructor; [|exact (H1' Hc)].
    cbn. unfold consumed.
    rewrite <- (firstn_skipn (length (rest st) - length (rest st1)) (rest st)) in Hst.
    rewrite forallb_app in Hst. apply andb_true_iff in Hst. apply Hst.
  - exact (@rep_loop_stays_in (run r) IH (S (length (rest st))) lo hi st k m Hst H).
Qed.

End CharactersOfAMatch.

(** The groups of a match hold characters of the subject only *)
Lemma match_at_group_chars (P : ascii -> bool) (r : regex) (p : nat) (s : str)
      (m : mstate) (n : nat) :
  forallb P s = true -> match_at r p s = Some m -> forallb P (group_text m n) = true.
Proof.
  unfold match_at. intros Hs H.
  destruct (@run_stays_in P r {| pos := p; rest := s; caps := [] |} Some m Hs H)
    as (st' & E & _ & Hc).
  injection E as ->. specialize (Hc (Forall_nil _)).
  unfold group_text, group. unfold caps_in in Hc.
  induction (caps m) as [|[i txt] l IH]; cbn; [reflexivity|].
  inversion Hc; subst. destruct (i =? n); [assumption|]. apply IH. assumption.
Qed.

Lemma search_at_group_chars (P : ascii -> bool) (r : regex) (s : str) :
  forall p m n,
    forallb P s = true -> search_at r p s = Some m ->
    forallb P (group_text m n) = true.
Proof.
  induction s as [|c t IH]; intros p m n Hs H; cbn [search_at] in H.
  - destruct (match_at r p []) eqn:E; [|discriminate]. injection H as ->.
    exact (match_at_group_chars P _ _ _ n Hs E).
  - destruct (match_at r p (c :: t)) eqn:E.
    + injection H as ->. exact (match_at_group_chars P _ _ _ n Hs E).
    + apply (IH (S p)); [|exact H]. cbn in Hs. apply andb_true_iff in Hs. apply Hs.
Qed.

(** * Texts without the characters a pattern needs *)

Lemma run_needs (T : ascii -> bool) (r : regex) :
  needs T r = true ->
  forall st k, forallb (fun c => negb (T c)) (rest st) = true -> run r st k = None.
Proof.
  induction r as [| | |c|p|r1 IH1 r2 IH2|r1 IH1 r2 IH2|i r IH|lo hi r IH];
    intros Hn st k Hst; cbn [needs] in Hn; try discriminate; cbn [run].
  - destruct (rest st) as [|x t]; [reflexivity|].
    destruct (Ascii.eqb x c) eqn:E; [|reflexivity].
    apply Ascii.eqb_eq in E. subst x. cbn in Hst. rewrite Hn in Hst. discriminate.
  - apply orb_true_iff in Hn. destruct Hn as [Hn|Hn]; [apply IH1; assumption|].
    destruct (run r1 st _) as [m|] eqn:E; [|reflexivity].
    apply (@run_stays_in (fun c => negb (T c))) in E; [|exact Hst].
    destruct E as (st1 & E & H1 & _). rewrite (IH2 Hn st1 k H1) in E. discriminate.
  - apply andb_true_iff in Hn. destruct Hn as [Ha Hb].
    rewrite (IH1 Ha st k Hst). apply IH2; assumption.
  - apply IH; assumption.
  - apply andb_true_iff in Hn. destruct Hn as [Hlo Hn]. apply Nat.ltb_lt in Hlo.
    cbn [rep_loop]. replace (lo =? 0) with false by (symmetry; apply Nat.eqb_neq; lia).
    destruct hi as [[|h]|]; [reflexivity| |]; rewrite (IH Hn); auto.
Qed.

Lemma sub_loop_free (T : ascii -> bool) (r : regex) (repl : mstate -> result str) :
  needs T r = true ->
  forall fuel p s,
    forallb (fun c => negb (T c)) s = true -> length s < fuel ->
    sub_loop fuel r repl p s = OK s.
Proof.
  intros Hn fuel. induction fuel as [|f IH]; intros p s Hs Hf; [lia|].
  cbn [sub_loop]. unfold match_at. rewrite (@run_needs T r Hn) by exact Hs.
  destruct s as [|c t]; [reflexivity|].
  rewrite IH; [reflexivity| |cbn in Hf; lia].
  cbn in Hs. apply andb_true_iff in Hs. apply Hs.
Qed.

Lemma sub_free (T : ascii -> bool) (r : regex) (t : template) (s : str) :
  needs T r = true -> forallb (valid_item r) t = true ->
  forallb (fun c => negb (T c)) s = true -> sub r t s = OK s.
Proof.
  intros Hn Hv Hs. unfold sub, sub_with. rewrite Hv.
  apply (@sub_loop_free T r _ Hn); [exact Hs|lia].
Qed.

Lemma re_sub_free (T : ascii -> bool) (r : regex) (t : template) (s : str) :
  needs T r = true ->
  forallb (fun c => negb (T c)) s = true -> re_sub r t s = OK s.
Proof.
  intros Hn Hs. unfold re_sub, sub_with.
  apply (@sub_loop_free T r _ Hn); [exact Hs|lia].
Qed.

(** A text with no star, underscore or bracket passes [applyInlineMarkup]
    unchanged *)
Lemma applyInlineMarkup_free (isOrgHeader : bool) (s : str) :
  markup_free s = true -> applyInlineMarkup isOrgHeader s = OK s.
Proof.
  intros Hs. unfold applyInlineMarkup. unfold markup_free in Hs.
  assert (E : (if negb isOrgHeader
               then line <- sub BOLD_START_REGEX BOLD_START_TEMPLATE s ;;
                    sub BOLD_END_REGEX BOLD_END_TEMPLATE line
               else OK s) = OK s).
  { destruct isOrgHeader; [reflexivity|]. cbn [negb].
    rewrite (@sub_free markup_char) by (reflexivity || exact Hs). cbn [bind].
    apply (@sub_free markup_char); reflexivity || exact Hs. }
  rewrite E. cbn [bind].
  repeat (first [rewrite (@sub_free markup_char) by (reflexivity || exact Hs)
                |rewrite (@re_sub_free markup_char) by (reflexivity || exact Hs)];
          cbn [bind]).
  reflexivity.
Qed.

(** * Opening markers *)

Lemma space_is_no_marker (c : ascii) :
  Py.isspace c = true ->
  Ascii.eqb c "*" = false /\ Ascii.eqb c "_" = false /\ Ascii.eqb c ">" = false
  /\ Ascii.eqb c "b" = false /\ markup_char c = false.
Proof.
  destruct c as [[] [] [] [] [] [] [] []]; cbn; intros H; try discriminate H;
    repeat split; reflexivity.
Qed.

Lemma markup_char_false (c : ascii) :
  markup_char c = false ->
  Ascii.eqb c "*" = false /\ Ascii.eqb c "_" = false /\ Ascii.eqb c "[" = false.
Proof.
  unfold markup_char, oneof. cbn [existsb list_ascii_of_string].
  intros H. repeat (apply orb_false_iff in H; destruct H as [? H]). auto.
Qed.

Lemma bold_start_no_match (p : nat) (x y : ascii) (t : str) :
  Ascii.eqb x "*" = false -> Ascii.eqb y "*" = false -> Ascii.eqb y "_" = false ->
  match_at BOLD_START_REGEX p (x :: y :: t) = None.
Proof.
  intros Hx Hy Hy'. unfold match_at, BOLD_START_REGEX, nonws, lit.
  cbn [seqs map list_ascii_of_string run pos rest caps advance set_group].
  rewrite Hx, Hy, Hy'.
  destruct (p =? 0), (oneof _ x || _), (Ascii.eqb x " "); reflexivity.
Qed.

Lemma firstn_consumed (a b : str) : firstn (length (a ++ b) - length b) (a ++ b) = a.
Proof.
  rewrite length_app. replace (length a + length b - length b) with (length a) by lia.
  rewrite firstn_app, Nat.sub_diag, firstn_all. cbn. apply app_nil_r.
Qed.

Lemma bold_start_hit_after (p : nat) (sp c : ascii) (w : str) :
  Py.isspace sp = true -> Py.isspace c = false ->
  match_at BOLD_START_REGEX p (sp :: "**" ++ c :: w)
  = Some {| pos := 4 + p; rest := w;
            caps := [(3, [c]); (2, "**" : str); (1, [sp])] |}.
Proof.
  intros Hsp Hc. destruct (space_is_no_marker _ Hsp) as (Hs & _).
  unfold match_at, BOLD_START_REGEX, nonws, lit.
  cbn [seqs map list_ascii_of_string run pos rest caps advance set_group app].
  rewrite Hs, Hsp, Hc, orb_true_r. cbn [negb Ascii.eqb Bool.eqb].
  assert (E1 : forall n, S n - n = 1) by (intros; lia).
  assert (E2 : forall n, S (S n) - n = 2) by (intros; lia).
  destruct (p =? 0); unfold set_group, consumed, advance;
    cbn [pos rest caps length]; rewrite ?Nat.sub_succ, ?E1, ?E2; reflexivity.
Qed.

Lemma bold_start_hit_first (c : ascii) (w : str) :
  Py.isspace c = false ->
  match_at BOLD_START_REGEX 0 ("**" ++ c :: w)
  = Some {| pos := 3; rest := w; caps := [(3, [c]); (2, "**" : str); (1, [])] |}.
Proof.
  intros Hc. unfold match_at, BOLD_START_REGEX, nonws, lit.
  cbn [seqs map list_ascii_of_string run pos rest caps advance set_group app Nat.eqb].
  rewrite Hc. cbn [negb Ascii.eqb Bool.eqb].
  assert (E1 : forall n, S n - n = 1) by (intros; lia).
  assert (E2 : forall n, S (S n) - n = 2) by (intros; lia).
  unfold set_group, consumed, advance;
    cbn [pos rest caps length]; rewrite ?Nat.sub_succ, ?E1, ?E2, ?Nat.sub_diag; reflexivity.
Qed.


Lemma bind_same (A : Type) (c : result A) : (x <- c ;; OK x) = c.
Proof. destruct c; reflexivity. Qed.

(** [re.sub] copies the text in which no match starts *)
Lemma sub_loop_skip (r : regex) (repl : mstate -> result str) (tail : str) :
  forall pre fuel p,
    (forall q a b, pre = a ++ b -> b <> [] -> match_at r q (b ++ tail) = None) ->
    length pre + length tail < fuel ->
    sub_loop fuel r repl p (pre ++ tail)
    = (tl <- sub_loop (fuel - length pre) r repl (p + length pre) tail ;; OK (pre ++ tl)).
Proof.
  induction pre as [|x pre IH]; intros fuel p H Hf.
  - cbn [length app]. rewrite Nat.sub_0_r, Nat.add_0_r. symmetry. apply bind_same.
  - destruct fuel as [|f]; [lia|].
    assert (E := H p [] (x :: pre) eq_refl). cbn [app] in E. cbn [app sub_loop].
    rewrite E by discriminate.
    rewrite IH.
    + cbn [length]. rewrite Nat.sub_succ. replace (S p + length pre) with (p + S (length pre)) by lia.
      destruct (sub_loop _ r repl _ tail); reflexivity.
    + intros q a b E' Hb. apply (H q (x :: a) b); [rewrite E'; reflexivity|exact Hb].
    + cbn [length] in Hf. lia.
Qed.

(** ... and goes on behind a match that read something *)
Lemma sub_loop_hit (r : regex) (repl : mstate -> result str) (fuel p : nat) (s out : str)
      (m : mstate) :
  match_at r p s = Some m -> repl m = OK out -> length (rest m) < length s ->
  sub_loop (S fuel) r repl p s
  = (tl <- sub_loop fuel r repl (pos m) (rest m) ;; OK (out ++ tl)).
Proof.
  intros Hm Hr Hl. cbn [sub_loop]. rewrite Hm, Hr. cbn [bind].
  replace (length s - length (rest m) =? 0) with false; [reflexivity|].
  symmetry. apply Nat.eqb_neq. lia.
Qed.

(** One match in a text: what is before it has no match, what is behind
    it has none of the characters the pattern needs. *)
Lemma sub_one_hit (T : ascii -> bool) (r : regex) (t : template) (pre mid w out : str)
      (m : mstate) :
  forallb (valid_item r) t = true ->
  (forall q a b, pre = a ++ b -> b <> [] -> match_at r q (b ++ mid ++ w) = None) ->
  match_at r (0 + length pre) (mid ++ w) = Some m -> rest m = w -> mid <> [] ->
  expand_template (group m) t = OK out ->
  needs T r = true -> forallb (fun c => negb (T c)) w = true ->
  sub r t (pre ++ mid ++ w) = OK (pre ++ out ++ w).
Proof.
  intros Hv Hpre Hm Hrest Hmid Hout Hn Hw. unfold sub, sub_with. rewrite Hv.
  rewrite sub_loop_skip; [|exact Hpre|rewrite (length_app pre); lia].
  assert (Hlen : length w < length (mid ++ w)).
  { rewrite length_app. destruct mid; [congruence|cbn [length]; lia]. }
  replace (S (length (pre ++ mid ++ w)) - length pre) with (S (length (mid ++ w)))
    by (rewrite (length_app pre); lia).
  rewrite (@sub_loop_hit r _ (length (mid ++ w)) _ (mid ++ w) out m Hm Hout)
    by (rewrite Hrest; exact Hlen).
  rewrite Hrest. rewrite (@sub_loop_free T r _ Hn) by (exact Hw || exact Hlen).
  reflexivity.
Qed.

Ltac settle_tests :=
  repeat match goal with
         | H : ?b = _ |- context [if ?b then _ else _] => rewrite H
         | |- context [if ?b then _ else _] => destruct b eqn:?
         end;
  try reflexivity; try congruence.

Lemma emph_start_no_match (p : nat) (x sp : ascii) (b t : str) :
  Ascii.eqb x "_" = false -> markup_free b = true -> Py.isspace sp = true ->
  match_at EMPH_START_REGEX p (x :: b ++ sp :: t) = None.
Proof.
  intros Hx Hb Hsp. destruct (space_is_no_marker _ Hsp) as (_ & Hs1 & Hs2 & Hs3 & _).
  assert (Hfree : forall c, negb (markup_char c) = true -> Ascii.eqb c "_" = false).
  { intros c Hc. apply negb_true_iff in Hc. apply markup_char_false in Hc. apply Hc. }
  unfold markup_free in Hb.
  destruct b as [|y [|z [|u b]]]; cbn [app forallb] in *;
    repeat match goal with
           | H : _ && _ = true |- _ => apply andb_true_iff in H; destruct H as [? H]
           end;
    repeat match goal with
           | H : negb (markup_char _) = true |- _ => apply Hfree in H
           end;
    unfold match_at, EMPH_START_REGEX, nonws, lit;
    cbn [seqs map list_ascii_of_string run pos rest caps advance set_group];
    settle_tests.
Qed.

Lemma emph_start_hit_after (p : nat) (sp c : ascii) (w : str) :
  Py.isspace sp = true -> Py.isspace c = false ->
  match_at EMPH_START_REGEX p (sp :: "_" ++ c :: w)
  = Some {| pos := 3 + p; rest := w;
            caps := [(3, [c]); (2, "_" : str); (1, [sp])] |}.
Proof.
  intros Hsp Hc. destruct (space_is_no_marker _ Hsp) as (_ & Hs & _).
  unfold match_at, EMPH_START_REGEX, nonws, lit.
  cbn [seqs map list_ascii_of_string run pos rest caps advance set_group app].
  rewrite Hs, Hsp, Hc, orb_true_r. cbn [negb Ascii.eqb Bool.eqb orb].
  assert (E1 : forall n, S n - n = 1) by (intros; lia).
  destruct (p =? 0); unfold set_group, consumed, advance;
    cbn [pos rest caps length]; rewrite ?Nat.sub_succ, ?E1; reflexivity.
Qed.

Lemma emph_start_hit_first (c : ascii) (w : str) :
  Py.isspace c = false ->
  match_at EMPH_START_REGEX 0 ("_" ++ c :: w)
  = Some {| pos := 2; rest := w; caps := [(3, [c]); (2, "_" : str); (1, [])] |}.
Proof.
  intros Hc. unfold match_at, EMPH_START_REGEX, nonws, lit.
  cbn [seqs map list_ascii_of_string run pos rest caps advance set_group app Nat.eqb].
  rewrite Hc. cbn [negb Ascii.eqb Bool.eqb].
  assert (E1 : forall n, S n - n = 1) by (intros; lia).
  unfold set_group, consumed, advance;
    cbn [pos rest caps length]; rewrite ?Nat.sub_succ, ?E1, ?Nat.sub_diag; reflexivity.
Qed.

Lemma markup_free_app (a b : str) :
  markup_free (a ++ b) = true -> markup_free a = true /\ markup_free b = true.
Proof. unfold markup_free. rewrite forallb_app. apply andb_true_iff. Qed.

Lemma markup_free_cons (c : ascii) (s : str) :
  markup_free (c :: s) = true -> markup_char c = false /\ markup_free s = true.
Proof.
  unfold markup_free. cbn [forallb]. intros H. apply andb_true_iff in H.
  destruct H as [H1 H2]. apply negb_true_iff in H1. auto.
Qed.

Lemma bold_start_fires (pre w : str) (sp c : ascii) :
  markup_free pre = true -> Py.isspace sp = true ->
  Py.isspace c = false -> markup_free w = true ->
  sub BOLD_START_REGEX BOLD_START_TEMPLATE (pre ++ sp :: "**" ++ c :: w)
  = OK (pre ++ sp :: "<b>" ++ c :: w).
Proof.
  intros Hpre Hsp Hc Hw.
  change (sp :: "**" ++ c :: w) with ((sp :: "**" ++ [c]) ++ w).
  change (sp :: "<b>" ++ c :: w) with ((sp :: "<b>" ++ [c]) ++ w).
  apply (@sub_one_hit markup_char BOLD_START_REGEX BOLD_START_TEMPLATE pre _ w _
           {| pos := 4 + (0 + length pre); rest := w;
              caps := [(3, [c]); (2, "**" : str); (1, [sp])] |});
    try reflexivity; try discriminate.
  - intros q a b E Hb. destruct b as [|x b]; [congruence|].
    rewrite E in Hpre. apply markup_free_app in Hpre. destruct Hpre as [_ Hpre].
    apply markup_free_cons in Hpre. destruct Hpre as [Hx Hb'].
    apply markup_char_false in Hx. destruct Hx as (Hx & _).
    destruct (space_is_no_marker _ Hsp) as (Hs1 & Hs2 & _).
    destruct b as [|y b]; cbn [app].
    + apply bold_start_no_match; assumption.
    + apply markup_free_cons in Hb'. destruct Hb' as [Hy _].
      apply markup_char_false in Hy. destruct Hy as (Hy1 & Hy2 & _).
      apply bold_start_no_match; assumption.
  - apply bold_start_hit_after; assumption.
  - exact Hw.
Qed.

Lemma bold_start_fires_first (w : str) (c : ascii) :
  Py.isspace c = false -> markup_free w = true ->
  sub BOLD_START_REGEX BOLD_START_TEMPLATE ("**" ++ c :: w) = OK ("<b>" ++ c :: w).
Proof.
  intros Hc Hw.
  change ("**" ++ c :: w) with ([] ++ ("**" ++ [c]) ++ w).
  change ("<b>" ++ c :: w) with ([] ++ ("<b>" ++ [c]) ++ w).
  apply (@sub_one_hit markup_char BOLD_START_REGEX BOLD_START_TEMPLATE [] _ w _
           {| pos := 3; rest := w; caps := [(3, [c]); (2, "**" : str); (1, [])] |});
    try reflexivity; try discriminate.
  - intros q a b E Hb. destruct a; destruct b; try discriminate E. congruence.
  - apply bold_start_hit_first; assumption.
  - exact Hw.
Qed.

Lemma emph_start_fires (pre w : str) (sp c : ascii) :
  markup_free pre = true -> Py.isspace sp = true ->
  Py.isspace c = false -> markup_free w = true ->
  sub EMPH_START_REGEX EMPH_START_TEMPLATE (pre ++ sp :: "_" ++ c :: w)
  = OK (pre ++ sp :: "<i>" ++ c :: w).
Proof.
  intros Hpre Hsp Hc Hw.
  change (sp :: "_" ++ c :: w) with ((sp :: "_" ++ [c]) ++ w).
  change (sp :: "<i>" ++ c :: w) with ((sp :: "<i>" ++ [c]) ++ w).
  apply (@sub_one_hit markup_char EMPH_START_REGEX EMPH_START_TEMPLATE pre _ w _
           {| pos := 3 + (0 + length pre); rest := w;
              caps := [(3, [c]); (2, "_" : str); (1, [sp])] |});
    try reflexivity; try discriminate.
  - intros q a b E Hb. destruct b as [|x b]; [congruence|].
    rewrite E in Hpre. apply markup_free_app in Hpre. destruct Hpre as [_ Hpre].
    apply markup_free_cons in Hpre. destruct Hpre as [Hx Hb'].
    apply markup_char_false in Hx. destruct Hx as (_ & Hx & _).
    cbn [app]. apply emph_start_no_match; assumption.
  - apply emph_start_hit_after; assumption.
  - exact Hw.
Qed.

Lemma emph_start_fires_first (w : str) (c : ascii) :
  Py.isspace c = false -> markup_free w = true ->
  sub EMPH_START_REGEX EMPH_START_TEMPLATE ("_" ++ c :: w) = OK ("<i>" ++ c :: w).
Proof.
  intros Hc Hw.
  change ("_" ++ c :: w) with ([] ++ ("_" ++ [c]) ++ w).
  change ("<i>" ++ c :: w) with ([] ++ ("<i>" ++ [c]) ++ w).
  apply (@sub_one_hit markup_char EMPH_START_REGEX EMPH_START_TEMPLATE [] _ w _
           {| pos := 2; rest := w; caps := [(3, [c]); (2, "_" : str); (1, [])] |});
    try reflexivity; try discriminate.
  - intros q a b E Hb. destruct a; destruct b; try discriminate E. congruence.
  - apply emph_start_hit_first; assumption.
  - exact Hw.
Qed.
Lemma inline_after_bold_start (s s' : str) :
  sub BOLD_START_REGEX BOLD_START_TEMPLATE s = OK s' -> markup_free s' = true ->
  applyInlineMarkup false s = OK s'.
Proof.
  intros Hb Hs. unfold applyInlineMarkup. unfold markup_free in Hs.
  cbn [negb]. rewrite Hb. cbn [bind].
  repeat (first [rewrite (@sub_free markup_char) by (reflexivity || exact Hs)
                |rewrite (@re_sub_free markup_char) by (reflexivity || exact Hs)];
          cbn [bind]).
  reflexivity.
Qed.

Lemma inline_after_emph_start (s s' : str) :
  forallb (fun c => negb (Ascii.eqb c "*")) s = true ->
  sub EMPH_START_REGEX EMPH_START_TEMPLATE s = OK s' -> markup_free s' = true ->
  applyInlineMarkup false s = OK s'.
Proof.
  intros Hstar He Hs. unfold applyInlineMarkup. unfold markup_free in Hs.
  cbn [negb].
  rewrite (@sub_free (fun c => Ascii.eqb c "*")) by (reflexivity || exact Hstar).
  cbn [bind].
  rewrite (@sub_free (fun c => Ascii.eqb c "*")) by (reflexivity || exact Hstar).
  cbn [bind]. rewrite He. cbn [bind].
  repeat (first [rewrite (@sub_free markup_char) by (reflexivity || exact Hs)
                |rewrite (@re_sub_free markup_char) by (reflexivity || exact Hs)];
          cbn [bind]).
  reflexivity.
Qed.

Lemma markup_free_no_star (s : str) :
  markup_free s = true -> forallb (fun c => negb (Ascii.eqb c "*")) s = true.
Proof.
  unfold markup_free. induction s as [|c s IH]; cbn [forallb]; [reflexivity|].
  intros H. apply andb_true_iff in H. destruct H as [Hc H].
  apply negb_true_iff in Hc. apply markup_char_false in Hc. destruct Hc as (Hc & _).
  rewrite Hc, (IH H). reflexivity.
Qed.

Lemma markup_free_around (pre w : str) (sp : ascii) (mid : str) :
  markup_free pre = true -> Py.isspace sp = true -> markup_free mid = true ->
  markup_free w = true -> markup_free (pre ++ sp :: mid ++ w) = true.
Proof.
  unfold markup_free. intros Hpre Hsp Hmid Hw.
  destruct (space_is_no_marker _ Hsp) as (_ & _ & _ & _ & Hs).
  rewrite forallb_app. cbn [forallb]. rewrite forallb_app, Hpre, Hs, Hmid, Hw. reflexivity.
Qed.

(** C9, as the code has it: an opening marker of bold or of emphasis, at
    the start of the text or behind white space and in front of a
    character that is no white space, is replaced by its tag also when no
    closing marker follows: here the text has no star, underscore or
    bracket but the marker itself. *)
Theorem open_marker_is_replaced (pre w : str) (sp c : ascii) :
  markup_free pre = true -> Py.isspace sp = true ->
  Py.isspace c = false -> markup_free (c :: w) = true ->
  renderInline ("**" ++ c :: w) = OK ("<b>" ++ c :: w)
  /\ renderInline (pre ++ sp :: "**" ++ c :: w) = OK (pre ++ sp :: "<b>" ++ c :: w)
  /\ renderInline ("_" ++ c :: w) = OK ("<i>" ++ c :: w)
  /\ renderInline (pre ++ sp :: "_" ++ c :: w) = OK (pre ++ sp :: "<i>" ++ c :: w).
Proof.
  intros Hpre Hsp Hc Hcw. unfold renderInline.
  destruct (markup_free_cons _ _ Hcw) as [Hc' Hw].
  assert (Hcw' : forall tag : str, markup_free tag = true ->
                                   markup_free (tag ++ c :: w) = true).
  { intros tag Ht. unfold markup_free in *. rewrite forallb_app, Ht. exact Hcw. }
  repeat split.
  - apply inline_after_bold_start; [apply bold_start_fires_first; assumption|].
    apply Hcw'. reflexivity.
  - apply inline_after_bold_start; [apply bold_start_fires; assumption|].
    change (sp :: "<b>" ++ c :: w) with (sp :: "<b>" ++ (c :: w)).
    apply markup_free_around; auto.
  - apply inline_after_emph_start; [|apply emph_start_fires_first; assumption|].
    + cbn [app list_ascii_of_string forallb]. apply markup_free_no_star in Hcw.
      cbn [forallb] in Hcw. exact Hcw.
    + apply Hcw'. reflexivity.
  - apply inline_after_emph_start; [|apply emph_start_fires; assumption|].
    + rewrite forallb_app. rewrite (markup_free_no_star _ Hpre).
      destruct (space_is_no_marker _ Hsp) as (Hs & _).
      cbn [app list_ascii_of_string forallb andb]. rewrite Hs. cbn [negb andb].
      apply markup_free_no_star in Hcw. cbn [forallb] in Hcw. exact Hcw.
    + change (sp :: "<i>" ++ c :: w) with (sp :: "<i>" ++ (c :: w)).
      apply markup_free_around; auto.
Qed.

Lemma open_marker_is_replaced_witness :
  renderInline "**x" = OK ("<b>x" : str)
  /\ renderInline "see **x" = OK ("see <b>x" : str)
  /\ renderInline "_x" = OK ("<i>x" : str)
  /\ renderInline "see _x" = OK ("see <i>x" : str).
Proof.
  apply (@open_marker_is_replaced "see" "" " " "x"); reflexivity.
Defined.

(** * Characters that pass through *)

Section CharactersKept.

Variable P : ascii -> bool.

Lemma lstrip_keeps (s : str) : forallb P s = true -> forallb P (Py.lstrip s) = true.
Proof.
  induction s as [|c t IH]; cbn [Py.lstrip]; [auto|]. intros H.
  destruct (Py.isspace c); [|exact H]. apply IH. exact (forallb_tail _ _ _ H).
Qed.

Lemma rstrip_keeps (s : str) : forallb P s = true -> forallb P (Py.rstrip s) = true.
Proof.
  induction s as [|c t IH]; cbn [Py.rstrip]; [auto|]. intros H.
  cbn [forallb] in H. apply andb_true_iff in H. destruct H as [Hc Ht].
  specialize (IH Ht). destruct (Py.rstrip t) as [|x t'].
  - destruct (Py.isspace c); cbn [forallb]; [reflexivity|]. rewrite Hc. reflexivity.
  - cbn [forallb] in *. rewrite Hc. exact IH.
Qed.

Lemma strip_keeps (s : str) : forallb P s = true -> forallb P (Py.strip s) = true.
Proof. intros H. unfold Py.strip. apply lstrip_keeps, rstrip_keeps, H. Qed.

Lemma split_keeps (sep : ascii) (s : str) :
  forallb P s = true -> Forall (fun piece => forallb P piece = true) (Py.split sep s).
Proof.
  induction s as [|c t IH]; cbn [Py.split]; intros H.
  - constructor; [reflexivity|constructor].
  - cbn [forallb] in H. apply andb_true_iff in H. destruct H as [Hc Ht].
    specialize (IH Ht). destruct (Ascii.eqb c sep).
    + constructor; [reflexivity|exact IH].
    + destruct (Py.split sep t) as [|piece more].
      * constructor; [cbn; rewrite Hc; reflexivity|constructor].
      * inversion IH; subst. constructor; [cbn; rewrite Hc; assumption|assumption].
Qed.

Lemma skipn_keeps (n : nat) (s : str) : forallb P s = true -> forallb P (skipn n s) = true.
Proof.
  revert s. induction n as [|n IH]; intros s H; [exact H|].
  destruct s as [|c t]; [reflexivity|]. cbn [skipn]. apply IH. exact (forallb_tail _ _ _ H).
Qed.

Lemma detab_keeps (s : str) :
  P " " = true -> forallb P s = true -> forallb P (Py.detab s) = true.
Proof.
  intros Hsp. induction s as [|c t IH]; cbn [Py.detab flat_map]; [auto|]. intros H.
  cbn [forallb] in H. apply andb_true_iff in H. destruct H as [Hc Ht].
  rewrite forallb_app. fold (Py.detab t). rewrite (IH Ht), andb_true_r.
  unfold Py.detab_char. destruct (Ascii.eqb c Py.TAB); cbn; rewrite ?Hsp, ?Hc; reflexivity.
Qed.

End CharactersKept.

Lemma normalize_plain (s : str) : plain s = true -> plain (normalize s) = true.
Proof.
  intros H. unfold normalize, plain. apply detab_keeps; [reflexivity|].
  apply rstrip_keeps. exact H.
Qed.

Lemma plain_char_facts (c : ascii) :
  plain_char c = true -> Ascii.eqb c "<" = false /\ markup_char c = false.
Proof.
  unfold plain_char, markup_char, oneof. cbn [existsb list_ascii_of_string].
  intros H. apply negb_true_iff in H.
  repeat (apply orb_false_iff in H; destruct H as [? H]).
  split; [assumption|]. repeat (apply orb_false_iff; split; try assumption).
Qed.

Lemma plain_lt_free (s : str) : plain s = true -> lt_free s = true.
Proof.
  unfold plain, lt_free. induction s as [|c t IH]; cbn [forallb]; [auto|].
  intros H. apply andb_true_iff in H. destruct H as [Hc Ht].
  apply plain_char_facts in Hc. destruct Hc as [-> _]. exact (IH Ht).
Qed.

Lemma plain_markup_free (s : str) : plain s = true -> markup_free s = true.
Proof.
  unfold plain, markup_free. induction s as [|c t IH]; cbn [forallb]; [auto|].
  intros H. apply andb_true_iff in H. destruct H as [Hc Ht].
  apply plain_char_facts in Hc. destruct Hc as [_ ->]. exact (IH Ht).
Qed.

Lemma plain_no_star (s : str) :
  plain s = true -> forallb (fun c => negb (Ascii.eqb c "*")) s = true.
Proof. intros H. apply markup_free_no_star, plain_markup_free, H. Qed.

(** [cgi.escape] leaves no opening angle bracket *)
Lemma escape_lt_free (s : str) : lt_free (Py.escape s) = true.
Proof.
  unfold lt_free, Py.escape. induction s as [|c t IH]; cbn [flat_map]; [reflexivity|].
  rewrite forallb_app, IH, andb_true_r. unfold Py.escape_char.
  destruct (Ascii.eqb c "&"); [reflexivity|].
  destruct (Ascii.eqb c "<") eqn:E; [reflexivity|].
  destruct (Ascii.eqb c ">"); [reflexivity|]. cbn. rewrite E. reflexivity.
Qed.

(** ["%d" % n] is made of digits *)
Lemma string_of_uint_digits (u : Decimal.uint) :
  forallb (oneof "0123456789") (list_ascii_of_string (NilZero.string_of_uint u)) = true.
Proof.
  assert (H : forall v, forallb (oneof "0123456789")
                          (list_ascii_of_string (NilEmpty.string_of_uint v)) = true).
  { induction v; cbn [NilEmpty.string_of_uint list_ascii_of_string forallb];
      [reflexivity|apply andb_true_iff; split; [reflexivity|exact IHv]..]. }
  destruct u; try apply H. reflexivity.
Qed.

Lemma fmt_d_digits (n : nat) : forallb (oneof "0123456789") (Py.fmt_d n) = true.
Proof. apply string_of_uint_digits. Qed.

(** * Lines that hold no container tag *)

Lemma contains_lt_free_app (tag a b : str) :
  lt_free a = true ->
  Py.contains ("<"%char :: tag) (a ++ b) = Py.contains ("<"%char :: tag) b.
Proof.
  unfold lt_free. induction a as [|c t IH]; cbn [app forallb]; [reflexivity|].
  intros H. apply andb_true_iff in H. destruct H as [Hc Ht].
  cbn [Py.contains Py.startswith]. apply negb_true_iff in Hc.
  rewrite Ascii.eqb_sym, Hc. cbn [andb orb]. exact (IH Ht).
Qed.

Lemma contains_lt_free (tag a : str) :
  lt_free a = true -> Py.contains ("<"%char :: tag) a = false.
Proof.
  intros H. rewrite <- (app_nil_r a). rewrite contains_lt_free_app by exact H. reflexivity.
Qed.

Ltac no_tag :=
  unfold neutral, all_tags, container_tags;
  cbn [flat_map fst snd app forallb list_ascii_of_string];
  repeat (apply andb_true_iff; split); try reflexivity;
  apply negb_true_iff;
  repeat first
    [ rewrite contains_lt_free_app by assumption
    | rewrite contains_lt_free by assumption
    | progress cbn [Py.contains Py.startswith app list_ascii_of_string
                    Ascii.eqb Bool.eqb andb orb] ];
  try reflexivity.

Lemma neutral_lt_free (s : str) : lt_free s = true -> neutral s = true.
Proof. intros H. no_tag. Qed.

Lemma neutral_plain (s : str) : plain s = true -> neutral s = true.
Proof. intros H. apply neutral_lt_free, plain_lt_free, H. Qed.

Lemma neutral_escape (s : str) : neutral (Py.escape s) = true.
Proof. apply neutral_lt_free, escape_lt_free. Qed.

Lemma digits_lt_free (s : str) : forallb (oneof "0123456789") s = true -> lt_free s = true.
Proof.
  unfold lt_free. induction s as [|c t IH]; cbn [forallb]; [auto|].
  intros H. apply andb_true_iff in H. destruct H as [Hc Ht]. rewrite (IH Ht), andb_true_r.
  destruct (Ascii.eqb c "<") eqn:E; [|reflexivity].
  apply Ascii.eqb_eq in E. subst c. discriminate Hc.
Qed.

Lemma digits_markup_free (s : str) :
  forallb (oneof "0123456789") s = true -> markup_free s = true.
Proof.
  unfold markup_free. induction s as [|c t IH]; cbn [forallb]; [auto|].
  intros H. apply andb_true_iff in H. destruct H as [Hc Ht]. rewrite (IH Ht), andb_true_r.
  destruct (markup_char c) eqn:E; [|reflexivity].
  unfold markup_char, oneof in E. cbn [existsb list_ascii_of_string] in E.
  repeat (apply orb_true_iff in E; destruct E as [E|E]);
    try discriminate E; apply Ascii.eqb_eq in E; subst c; discriminate Hc.
Qed.

Lemma neutral_header (d text : str) :
  lt_free d = true -> lt_free text = true ->
  neutral ("<h" ++ d ++ ">" ++ text ++ "</h" ++ d ++ ">") = true.
Proof. intros Hd Ht. no_tag. Qed.

Lemma neutral_cell (header : bool) (text : str) :
  lt_free text = true -> neutral (cell header text) = true.
Proof. intros Ht. unfold cell. destruct header; no_tag. Qed.

Lemma neutral_org (text : str) : lt_free text = true -> neutral (text ++ "<br/>") = true.
Proof. intros Ht. no_tag. Qed.

(** * The ledger of tags *)

Lemma lines_with_app (tag : str) (a b : list str) :
  lines_with tag (a ++ b) = lines_with tag a + lines_with tag b.
Proof. unfold lines_with. rewrite filter_app, length_app. reflexivity. Qed.

Lemma lines_with_neutral (s : str) :
  neutral s = true ->
  forall o c, In (o, c) container_tags -> lines_with o [s] = 0 /\ lines_with c [s] = 0.
Proof.
  unfold neutral, all_tags, container_tags, lines_with.
  cbn [flat_map fst snd app forallb filter]. intros H o c Hin.
  repeat (apply andb_true_iff in H; destruct H as [?H H]).
  repeat match goal with
         | H : negb _ = true |- _ => apply negb_true_iff in H
         end.
  cbn [In] in Hin.
  repeat (destruct Hin as [Hin|Hin]; [injection Hin as <- <-|]); [..|contradiction];
    split;
    match goal with
    | E : Py.contains ?t s = false |- context [Py.contains ?t' s] =>
        change (Py.contains t' s) with (Py.contains t s); rewrite E; reflexivity
    end.
Qed.

Ltac count_tags :=
  repeat match goal with
         | |- context [lines_with ?t [?s]] =>
             let v := eval vm_compute in (lines_with t [s]) in
             change (lines_with t [s]) with v
         end.

Ltac ledger_fields :=
  cbn [state output indents thisLine nextLine line mode inParagraph inTable inList
       inBlock inOrgSection inCodeSection negb].

Ltac ledger_fields_in H :=
  cbn [state output indents thisLine nextLine line mode inParagraph inTable inList
       inBlock inOrgSection inCodeSection negb] in H.

Ltac keep_ledger f :=
  intros k H;
  destruct k as [[p t l b o c] m ln th nx ind out];
  unfold ledger in *; ledger_fields; ledger_fields_in H;
  destruct H as (H1 & H2 & H3 & H4 & H5 & H6 & H7);
  unfold f, update_state, append, set_state, set_output, set_inParagraph, set_inTable,
    set_inBlock, set_inOrgSection, set_inCodeSection;
  ledger_fields;
  repeat match goal with
         | |- context [if negb ?x then _ else _] => is_var x; destruct x; ledger_fields
         | |- context [if ?x then _ else _] => is_var x; destruct x; ledger_fields
         end;
  ledger_fields; rewrite ?lines_with_app; count_tags; cbn [Nat.b2n] in *;
  repeat split; try reflexivity; try assumption; try lia.

Lemma keeps_startParagraph : keeps startParagraph.
Proof. keep_ledger startParagraph. Qed.

Lemma keeps_endParagraph : keeps endParagraph.
Proof. keep_ledger endParagraph. Qed.

Lemma keeps_startBlock : keeps startBlock.
Proof. keep_ledger startBlock. Qed.

Lemma keeps_endBlock : keeps endBlock.
Proof. keep_ledger endBlock. Qed.

Lemma keeps_startTable : keeps startTable.
Proof. keep_ledger startTable. Qed.

Lemma keeps_endTable : keeps endTable.
Proof. keep_ledger endTable. Qed.

Lemma keeps_startOrgSection : keeps startOrgSection.
Proof. keep_ledger startOrgSection. Qed.

Lemma keeps_endOrgSection : keeps endOrgSection.
Proof. keep_ledger endOrgSection. Qed.

Lemma keeps_startCodeSection : keeps startCodeSection.
Proof. keep_ledger startCodeSection. Qed.

Lemma keeps_endCodeSection : keeps endCodeSection.
Proof. keep_ledger endCodeSection. Qed.

Lemma ledger_same (k k' : KiwiMarkup) :
  output k' = output k -> state k' = state k -> indents k' = indents k ->
  ledger k -> ledger k'.
Proof. unfold ledger. intros -> -> ->. auto. Qed.

Lemma ledger_append (s : str) (k : KiwiMarkup) :
  neutral s = true -> ledger k -> ledger (append s k).
Proof.
  intros Hs H. unfold ledger, append in *. destruct k as [st m ln th nx ind out].
  unfold set_output. ledger_fields. ledger_fields_in H.
  assert (N := @lines_with_neutral s Hs). unfold container_tags in N. cbn [In] in N.
  destruct H as (H1 & H2 & H3 & H4 & H5 & H6 & H7).
  rewrite !lines_with_app.
  destruct (N "<ul>" "</ul>") as [-> ->]; [auto|].
  destruct (N "<table>" "</table>") as [-> ->]; [auto|].
  destruct (N "<p>" "</p>") as [-> ->]; [auto|].
  destruct (N "<pre>" "</pre>") as [-> ->]; [auto 6|].
  destruct (N "<code>" "</code>") as [-> ->]; [auto 6|].
  repeat split; try assumption; lia.
Qed.

Lemma keeps_compose (f g : KiwiMarkup -> KiwiMarkup) :
  keeps f -> keeps g -> keeps (fun k => g (f k)).
Proof.
  intros Hf Hg k H. destruct (Hf k H) as (H1 & E1 & E2 & E3 & E4).
  destruct (Hg (f k) H1) as (H2 & F1 & F2 & F3 & F4).
  split; [exact H2|]. repeat split; congruence.
Qed.

Lemma keeps_endAllLists : keeps endAllLists.
Proof.
  intros k H. rewrite endAllLists_eq.
  destruct H as (H1 & H2 & H3 & H4 & H5 & H6 & H7).
  destruct k as [[p t l b o c] m ln th nx ind out].
  unfold ledger, set_state, set_indents, set_output, set_inList. ledger_fields.
  ledger_fields_in H1. ledger_fields_in H2. ledger_fields_in H3. ledger_fields_in H4.
  ledger_fields_in H5. ledger_fields_in H6. ledger_fields_in H7. subst l ind.
  cbn [length list_closers when app]. rewrite app_nil_r.
  repeat split; assumption.
Qed.

Lemma keeps_append (s : str) : neutral s = true -> keeps (append s).
Proof.
  intros Hs k H. split; [exact (@ledger_append s k Hs H)|]. repeat split.
Qed.

Lemma keeps_endAllSections : keeps endAllSections.
Proof.
  unfold endAllSections.
  apply (@keeps_compose (fun k => endTable (endAllLists (endBlock (endOrgSection k))))
           endParagraph); [|exact keeps_endParagraph].
  apply (@keeps_compose (fun k => endAllLists (endBlock (endOrgSection k))) endTable);
    [|exact keeps_endTable].
  apply (@keeps_compose (fun k => endBlock (endOrgSection k)) endAllLists);
    [|exact keeps_endAllLists].
  apply (@keeps_compose endOrgSection endBlock); [exact keeps_endOrgSection|exact keeps_endBlock].
Qed.

Lemma ledger_balanced (k : KiwiMarkup) :
  ledger k -> state k = closed_state (state k) -> inCodeSection (state k) = false ->
  balanced (output k).
Proof.
  intros (H1 & H2 & H3 & H4 & H5 & H6 & H7) E Hc.
  destruct k as [[p t l b o c] m ln th nx ind out].
  unfold closed_state in E. ledger_fields_in E. injection E as -> -> -> -> ->.
  ledger_fields_in Hc. subst c.
  ledger_fields_in H1. ledger_fields_in H2. ledger_fields_in H3. ledger_fields_in H4.
  ledger_fields_in H5. cbn [Nat.b2n] in *. ledger_fields.
  intros op cl Hin. unfold container_tags in Hin. cbn [In] in Hin.
  repeat rewrite Nat.add_0_r in H2. repeat rewrite Nat.add_0_r in H3.
  repeat rewrite Nat.add_0_r in H4. repeat rewrite Nat.add_0_r in H5.
  repeat (destruct Hin as [Hin|Hin];
          [injection Hin as <- <-;
           first [exact H1|exact H2|exact H3|exact H4|exact H5]|]).
  contradiction.
Qed.

(** * Plain lines *)

Lemma search_at_free (T : ascii -> bool) (r : regex) :
  needs T r = true ->
  forall s p, forallb (fun c => negb (T c)) s = true -> search_at r p s = None.
Proof.
  intros Hn. induction s as [|c t IH]; intros p Hs; cbn [search_at]; unfold match_at;
    rewrite (@run_needs T r Hn) by exact Hs; [reflexivity|].
  apply IH. cbn [forallb] in Hs. apply andb_true_iff in Hs. apply Hs.
Qed.

(** What the scanner finds on a plain line: no list item, and texts that
    are plain as well *)
Lemma scan_plain (this next : str) (st : KiwiState) (l : Line.t) :
  plain this = true ->
  Line.isList (Line.scan this next st l) = false
  /\ plain (Line.headerText (Line.scan this next st l)) = true
  /\ Forall (fun c => plain c = true) (Line.tableColumns (Line.scan this next st l)).
Proof.
  intros Hp. destruct (blank this) eqn:Hb.
  - rewrite scan_of_blank by exact Hb. unfold scan_blank, Line.reset.
    cbn. repeat split. constructor.
  - rewrite scan_of_nonblank by exact Hb. unfold scan_fields.
    cbn [Line.isList Line.headerText Line.tableColumns].
    assert (Hl : Re.search LIST_REGEX this = None).
    { apply (@search_at_free (fun c => Ascii.eqb c "*")); [reflexivity|].
      apply plain_no_star. exact Hp. }
    rewrite Hl. split; [reflexivity|]. split.
    + destruct (Re.search HEADER_REGEX this) as [m|] eqn:Hh.
      * exact (@search_at_group_chars plain_char HEADER_REGEX this 0 m 2 Hp Hh).
      * destruct (_ || _); [exact Hp|reflexivity].
    + apply Forall_map. apply (@Forall_impl _ (fun piece => forallb plain_char piece = true)).
      * intros piece H. apply strip_keeps. exact H.
      * apply split_keeps. exact Hp.
Qed.

Lemma plain_inert (s : str) : plain s = true -> inert s.
Proof. intros H. split; [apply plain_markup_free, H|apply neutral_plain, H]. Qed.

Lemma keeps_settled (f : KiwiMarkup -> KiwiMarkup) (k : KiwiMarkup) :
  keeps f -> ledger k -> current_inert k -> settled k (f k).
Proof.
  intros Hf H Hc. destruct (Hf k H) as (H1 & E1 & E2 & E3 & E4).
  unfold settled, current_inert in *. rewrite E1. auto.
Qed.

Lemma set_thisLine_settled (s : str) (k0 k : KiwiMarkup) :
  inert s -> settled k0 k -> settled k0 (set_thisLine (Some s) k).
Proof.
  intros Hs (H & _ & _ & En & El). unfold settled, current_inert.
  destruct k as [st m ln th nx ind out]. unfold set_thisLine.
  cbn [thisLine nextLine line state mode indents output] in *.
  split; [exact H|]. split; [exact Hs|]. split; [discriminate|]. auto.
Qed.

Lemma ledger_extend (ws : list str) :
  Forall (fun s => neutral s = true) ws ->
  forall k, ledger k -> ledger (set_output (output k ++ ws) k).
Proof.
  induction ws as [|w ws IH]; intros Hws k H.
  - apply (@ledger_same k); [cbn; apply app_nil_r|destruct k; reflexivity..|exact H].
  - inversion Hws; subst.
    assert (H' := IH H3 (append w k) (@ledger_append w k H2 H)).
    apply (@ledger_same (set_output (output (append w k) ++ ws) (append w k)));
      [|destruct k; reflexivity..|exact H'].
    destruct k. cbn. rewrite <- app_assoc. reflexivity.
Qed.

Lemma render_plain (b : bool) (s : str) : plain s = true -> render b s = s.
Proof.
  intros H. unfold render. rewrite applyInlineMarkup_free; [reflexivity|].
  apply plain_markup_free, H.
Qed.

Lemma header_inert (n : nat) (text : str) :
  plain text = true ->
  inert ("<h" ++ Py.fmt_d n ++ ">" ++ text ++ "</h" ++ Py.fmt_d n ++ ">").
Proof.
  intros H. assert (Hd := fmt_d_digits n). split.
  - unfold markup_free. rewrite !forallb_app.
    fold (markup_free (Py.fmt_d n)). fold (markup_free text).
    rewrite (digits_markup_free _ Hd), (plain_markup_free _ H). reflexivity.
  - apply neutral_header; [apply digits_lt_free, Hd|apply plain_lt_free, H].
Qed.

Lemma org_inert (text : str) : plain text = true -> inert (text ++ "<br/>").
Proof.
  intros H. split.
  - unfold markup_free. rewrite forallb_app. fold (markup_free text).
    rewrite (plain_markup_free _ H). reflexivity.
  - apply neutral_org, plain_lt_free, H.
Qed.

(** * Every branch keeps the ledger *)

Lemma on_table_settled (k : KiwiMarkup) :
  ledger k -> current_inert k ->
  Forall (fun c => plain c = true) (Line.tableColumns (line k)) ->
  exists k', on_table k = OK (k', false) /\ settled k k'.
Proof.
  intros H Hc Hcols. unfold on_table.
  assert (Hk : keeps (fun k => append "    <tr>"
                          (startTable (endParagraph (endAllLists (endBlock (endOrgSection k))))))).
  { apply (@keeps_compose _ (append "    <tr>")); [|apply keeps_append; reflexivity].
    apply (@keeps_compose _ startTable); [|exact keeps_startTable].
    apply (@keeps_compose _ endParagraph); [|exact keeps_endParagraph].
    apply (@keeps_compose _ endAllLists); [|exact keeps_endAllLists].
    apply (@keeps_compose endOrgSection endBlock);
      [exact keeps_endOrgSection|exact keeps_endBlock]. }
  destruct (Hk k H) as (H1 & E1 & E2 & E3 & E4). cbv beta in H1, E1, E2, E3, E4.
  cbv zeta.
  set (k1 := append "    <tr>"
               (startTable (endParagraph (endAllLists (endBlock (endOrgSection k)))))) in *.
  rewrite table_cells_eq. cbn [bind]. eexists. split; [reflexivity|].
  set (ws := map _ _).
  assert (Hws : Forall (fun s => neutral s = true) ws).
  { unfold ws. apply Forall_map.
    apply (@Forall_impl _ (fun c => plain c = true)); [|rewrite E3; exact Hcols].
    intros c Hp. rewrite render_plain by exact Hp. apply neutral_cell, plain_lt_free, Hp. }
  assert (H2 := @ledger_extend ws Hws k1 H1).
  assert (H3 := @ledger_append "    </tr>" _ eq_refl H2).
  unfold settled, current_inert in *.
  split; [exact H3|].
  clearbody k1. clear H2 H3. destruct k1 as [st m ln th nx ind out].
  cbn [append set_output thisLine nextLine line state mode indents output] in *.
  rewrite E1, E2, E3. auto.
Qed.

Lemma settled_refl (k : KiwiMarkup) : ledger k -> current_inert k -> settled k k.
Proof. unfold settled. auto. Qed.

Lemma dispatch_settled (this : str) (k : KiwiMarkup) :
  ledger k -> thisLine k = Some this -> plain this = true ->
  Line.isList (line k) = false ->
  plain (Line.headerText (line k)) = true ->
  Forall (fun c => plain c = true) (Line.tableColumns (line k)) ->
  exists k' inc, dispatch this k = OK (k', inc) /\ settled k k'.
Proof.
  intros H Hth Hp Hl Hh Hcols.
  assert (Hc : current_inert k).
  { unfold current_inert. rewrite Hth. apply plain_inert, Hp. }
  unfold dispatch. rewrite Hl.
  destruct (kmode_eqb (mode k) KIWI_MODE_ORG && Line.isOrgHeader (line k)).
  { unfold on_org_header. cbv zeta. eexists. eexists. split; [reflexivity|].
    apply set_thisLine_settled; [apply org_inert, Hp|].
    apply keeps_settled; [exact keeps_startOrgSection|exact H|exact Hc]. }
  destruct (Line.isCodeStart (line k)).
  { unfold on_code_start. eexists. eexists. split; [reflexivity|].
    apply (@keeps_settled (fun k => startCodeSection (endAllSections k))); [|exact H|exact Hc].
    apply (@keeps_compose endAllSections startCodeSection);
      [exact keeps_endAllSections|exact keeps_startCodeSection]. }
  destruct (Line.isCodeEnd (line k)).
  { unfold on_code_end. eexists. eexists. split; [reflexivity|].
    apply keeps_settled; [exact keeps_endCodeSection|exact H|exact Hc]. }
  destruct (inCodeSection (state k)).
  { unfold on_in_code. eexists. eexists. split; [reflexivity|].
    apply settled_refl; assumption. }
  destruct (Line.isBlock (line k)).
  { unfold on_block. eexists. eexists. split; [reflexivity|].
    apply (@keeps_settled
             (fun k => startBlock (endParagraph (endTable (endAllLists (endOrgSection k))))));
      [|exact H|exact Hc].
    apply (@keeps_compose _ startBlock); [|exact keeps_startBlock].
    apply (@keeps_compose _ endParagraph); [|exact keeps_endParagraph].
    apply (@keeps_compose _ endTable); [|exact keeps_endTable].
    apply (@keeps_compose endOrgSection endAllLists);
      [exact keeps_endOrgSection|exact keeps_endAllLists]. }
  destruct (Line.isTable (line k)).
  { destruct (on_table_settled H Hc Hcols) as (k' & E & S). exists k', false. auto. }
  destruct (Line.isHeader (line k)).
  { unfold on_header. cbv zeta. eexists. eexists. split; [reflexivity|].
    destruct (keeps_endAllSections H) as (_ & _ & _ & El & _). rewrite El.
    apply set_thisLine_settled; [apply header_inert, Hh|].
    apply keeps_settled; [exact keeps_endAllSections|exact H|exact Hc]. }
  destruct (Line.isHorizontalLine (line k)).
  { unfold on_horizontal_line. eexists. eexists. split; [reflexivity|].
    apply set_thisLine_settled; [split; reflexivity|].
    apply keeps_settled; [exact keeps_endAllSections|exact H|exact Hc]. }
  destruct (Line.isParagraph (line k)).
  { unfold on_paragraph. eexists. eexists. split; [reflexivity|].
    apply (@keeps_settled
             (fun k => startParagraph (endTable (endAllLists (endBlock (endOrgSection k))))));
      [|exact H|exact Hc].
    apply (@keeps_compose _ startParagraph); [|exact keeps_startParagraph].
    apply (@keeps_compose _ endTable); [|exact keeps_endTable].
    apply (@keeps_compose _ endAllLists); [|exact keeps_endAllLists].
    apply (@keeps_compose endOrgSection endBlock);
      [exact keeps_endOrgSection|exact keeps_endBlock]. }
  destruct (Line.isBlankLine (line k)).
  { unfold on_blank_line. eexists. eexists. split; [reflexivity|].
    apply (@keeps_settled
             (fun k => endParagraph (endTable (endAllLists (endOrgSection k)))));
      [|exact H|exact Hc].
    apply (@keeps_compose _ endParagraph); [|exact keeps_endParagraph].
    apply (@keeps_compose _ endTable); [|exact keeps_endTable].
    apply (@keeps_compose endOrgSection endAllLists);
      [exact keeps_endOrgSection|exact keeps_endAllLists]. }
  eexists. eexists. split; [reflexivity|]. apply settled_refl; assumption.
Qed.

Lemma include_line_ledger (k : KiwiMarkup) :
  ledger k -> current_inert k -> thisLine k <> None ->
  exists k', include_line k = OK k' /\ ledger k'
             /\ nextLine k' = nextLine k /\ line k' = line k.
Proof.
  intros H Hc Hth. unfold include_line, current_inert in *.
  destruct (thisLine k) as [s|] eqn:E; [|congruence]. destruct Hc as [Hm Hn].
  destruct (negb (inBlock (state k)) && negb (inCodeSection (state k))).
  - rewrite applyInlineMarkup_free by exact Hm. cbn [bind]. eexists. split; [reflexivity|].
    split; [|destruct k; auto].
    apply ledger_append; [exact Hn|].
    apply (@ledger_same k); [destruct k; reflexivity..|exact H].
  - cbv zeta. eexists. split; [reflexivity|]. split; [|destruct k; auto].
    apply ledger_append; [apply neutral_escape|].
    apply (@ledger_same k); [destruct k; reflexivity..|exact H].
Qed.

Lemma processLine_ledger (k : KiwiMarkup) (next : str) :
  ledger k -> nextLine k = Some next ->
  match thisLine k with Some this => plain this = true | None => True end ->
  exists k', processLine k = OK k' /\ ledger k' /\ nextLine k' = nextLine k.
Proof.
  intros H Hn Hp. unfold processLine. destruct (thisLine k) as [this|] eqn:Hth.
  - rewrite Hn. cbv zeta.
    set (k1 := set_line (Line.scan this next (state k) (line k)) k).
    destruct (@scan_plain this next (state k) (line k) Hp) as (Hl & Hh & Hcols).
    assert (H1 : ledger k1).
    { apply (@ledger_same k); [destruct k; reflexivity..|exact H]. }
    assert (Hth1 : thisLine k1 = Some this) by (destruct k; exact Hth).
    assert (Hn1 : nextLine k1 = nextLine k) by (destruct k; reflexivity).
    assert (El : line k1 = Line.scan this next (state k) (line k)) by (destruct k; reflexivity).
    rewrite <- El in Hl, Hh, Hcols.
    destruct (@dispatch_settled this k1 H1 Hth1 Hp Hl Hh Hcols)
      as (k2 & inc & E & H2 & Hc2 & Hth2 & Hn2 & _).
    rewrite E. cbn [bind fst snd]. destruct inc.
    + destruct (@include_line_ledger k2 H2 Hc2) as (k3 & E3 & H3 & Hn3 & _).
      { apply Hth2. rewrite Hth1. discriminate. }
      exists k3. split; [exact E3|]. split; [exact H3|]. congruence.
    + exists k2. split; [reflexivity|]. split; [exact H2|]. congruence.
  - exists k. auto.
Qed.

(** * Plain lines give a balanced output *)

Lemma loop_step_ledger (k : KiwiMarkup) (raw : str) :
  ledger k -> pending_plain k -> plain raw = true ->
  exists k', loop_step k raw = OK k' /\ ledger k' /\ pending_plain k'.
Proof.
  intros H Hp Hr. unfold loop_step. cbv zeta.
  set (k1 := set_nextLine (Some (normalize raw)) (set_thisLine (nextLine k) k)).
  assert (H1 : ledger k1).
  { apply (@ledger_same k); [destruct k; reflexivity..|exact H]. }
  assert (Hn1 : nextLine k1 = Some (normalize raw)) by (destruct k; reflexivity).
  assert (Hth1 : thisLine k1 = nextLine k) by (destruct k; reflexivity).
  destruct (negb (Line.skipNextLine (line k1))).
  - destruct (@processLine_ledger k1 (normalize raw) H1 Hn1) as (k' & E & H' & Hn').
    { rewrite Hth1. exact Hp. }
    exists k'. split; [exact E|]. split; [exact H'|].
    unfold pending_plain. rewrite Hn', Hn1. apply normalize_plain, Hr.
  - eexists. split; [reflexivity|]. split.
    + apply (@ledger_same k1); [destruct k1; reflexivity..|exact H1].
    + unfold pending_plain.
      replace (nextLine (set_line (Line.set_skipNextLine false (line k1)) k1))
        with (nextLine k1) by (destruct k1; reflexivity).
      rewrite Hn1. apply normalize_plain, Hr.
Qed.

Lemma loop_ledger (lines : list str) :
  Forall (fun l => plain l = true) lines ->
  forall k, ledger k -> pending_plain k ->
    exists k', loop lines k = OK k' /\ ledger k' /\ pending_plain k'.
Proof.
  induction lines as [|raw more IH]; intros Hl k H Hp; cbn [loop].
  - exists k. auto.
  - inversion Hl; subst.
    destruct (@loop_step_ledger k raw H Hp H2) as (k1 & E & H1 & Hp1).
    rewrite E. cbn [bind]. apply IH; assumption.
Qed.

Lemma final_line_ledger (k : KiwiMarkup) :
  ledger k -> pending_plain k -> exists k', final_line k = OK k' /\ ledger k'.
Proof.
  intros H Hp. unfold final_line. destruct (negb (Line.skipNextLine (line k))).
  - set (k1 := set_nextLine (Some []) (set_thisLine (nextLine k) k)).
    assert (H1 : ledger k1).
    { apply (@ledger_same k); [destruct k; reflexivity..|exact H]. }
    assert (Hn1 : nextLine k1 = Some []) by (destruct k; reflexivity).
    assert (Hth1 : thisLine k1 = nextLine k) by (destruct k; reflexivity).
    destruct (@processLine_ledger k1 [] H1 Hn1) as (k' & E & H' & _).
    { rewrite Hth1. exact Hp. }
    exists k'. auto.
  - exists k. auto.
Qed.

(** C1, as the code has it: on lines without an angle bracket, a star, an
    underscore or a square bracket the run ends, and every container tag
    is written as often as its closing tag, unless the run leaves a code
    section open. *)
Theorem plain_lines_balance (lines : list str) (mode : option kmode) :
  lines <> [] -> Forall (fun l => plain l = true) lines ->
  exists b k,
    execute new_KiwiMarkup lines mode = OK (b, k)
    /\ convert lines mode = OK (b, output k)
    /\ (inCodeSection (state k) = false -> balanced (output k)).
Proof.
  intros Hne Hl. unfold convert, execute.
  destruct lines as [|l0 more]; [congruence|]. cbv zeta.
  set (k0 := {| state := state new_KiwiMarkup; mode := pick_mode (l0 :: more) mode;
                line := Line.new (pick_mode (l0 :: more) mode);
                thisLine := None; nextLine := None; indents := []; output := [] |}).
  assert (H0 : ledger k0) by (unfold ledger; cbn; repeat split; reflexivity).
  assert (Hp0 : pending_plain k0) by exact I.
  destruct (@loop_ledger (l0 :: more) Hl k0 H0 Hp0) as (k1 & E1 & H1 & Hp1).
  rewrite E1. cbn [bind].
  destruct (@final_line_ledger k1 H1 Hp1) as (k2 & E2 & H2).
  rewrite E2. cbn [bind fst snd].
  eexists. eexists. split; [reflexivity|]. split; [reflexivity|].
  intros Hc. apply ledger_balanced; [apply keeps_endAllSections, H2| |exact Hc].
  rewrite endAllSections_eq. cbn [state]. unfold closed_state. reflexivity.
Qed.

Lemma plain_lines_balance_witness :
  exists b k,
    execute new_KiwiMarkup ["Title" : str; "======" : str; "some text" : str; "a|b|c" : str] None
    = OK (b, k)
    /\ balanced (output k).
Proof.
  destruct (@plain_lines_balance
              ["Title" : str; "======" : str; "some text" : str; "a|b|c" : str] None)
    as (b & k & E & _ & H).
  - discriminate.
  - repeat constructor.
  - exists b, k. split; [exact E|]. apply H.
    vm_compute in E. injection E as _ <-. reflexivity.
Defined.

(** * Runs as a whole *)


Lemma quiet_closes (k : KiwiMarkup) : quiet k -> output (endAllSections k) = [].
Proof.
  intros (Hs & Hi & Ho & _). rewrite endAllSections_eq. cbn [output].
  unfold closers. rewrite Hs, Hi, Ho. reflexivity.
Qed.

(** X2: a run on blank lines only writes nothing and returns [False] *)
Theorem blank_lines_give_nothing (lines : list str) (mode : option kmode) :
  lines <> [] -> Forall (fun l => blank l = true) lines ->
  convert lines mode = OK (false, []).
Proof.
  intros Hne Hb. unfold convert, execute. destruct lines as [|l more]; [congruence|].
  cbv zeta.
  match goal with
  | |- context [loop ?ls ?x] =>
      destruct (@loop_blanks_quiet ls Hb x) as (k1 & -> & Hq & Hp & _);
        [unfold quiet; cbn; repeat split; reflexivity|exact I|]
  end.
  cbn [bind]. unfold final_line.
  destruct Hq as (Hs & Hi & Ho & Hh & Hk). rewrite Hk. cbn [negb].
  assert (Hq : quiet k1) by (unfold quiet; auto).
  unfold pending_blank in Hp. destruct (nextLine k1) as [b|] eqn:En.
  - match goal with
    | |- context [processLine ?x] =>
        destruct (@processLine_blank_quiet x b []) as (k2 & -> & Hq2 & _);
          [unfold quiet; cbn; repeat split; auto|reflexivity|reflexivity|exact Hp|]
    end.
    cbn [bind fst snd]. rewrite (quiet_closes Hq2). reflexivity.
  - unfold processLine. cbn [thisLine set_nextLine set_thisLine bind fst snd].
    rewrite endAllSections_eq. cbn [output]. unfold closers.
    cbn [state indents output set_nextLine set_thisLine]. rewrite Hs, Hi, Ho. reflexivity.
Qed.

Lemma blank_lines_give_nothing_witness :
  convert [" " : str; "" : str; "   " : str] None = OK (false, []).
Proof.
  apply blank_lines_give_nothing; [discriminate|]. repeat constructor.
Defined.

(** X3: a run ends with every section flag cleared but the one of the code
    section, and with no list indent left; when the code section is closed
    as well, the converter takes the next run as a new converter would. *)
Theorem run_leaves_only_code_open (k k' : KiwiMarkup) (lines : list str)
        (mode : option kmode) (b : bool) :
  execute k lines mode = OK (b, k') ->
  state k' = closed_state (state k') /\ indents k' = []
  /\ (inCodeSection (state k') = false ->
      state k' = new_state
      /\ forall lines' mode', execute k' lines' mode' = execute new_KiwiMarkup lines' mode').
Proof.
  unfold execute. destruct lines as [|l more]; [discriminate|]. cbv zeta.
  match goal with
  | |- context [loop ?ls ?x] => destruct (loop ls x) as [k1|e]; [|discriminate]
  end.
  cbn [bind]. destruct (final_line k1) as [k2|e]; [|discriminate]. cbn [bind].
  intros E. injection E as _ <-. rewrite endAllSections_eq. cbn [state indents].
  split; [reflexivity|]. split; [reflexivity|].
  intros Hc. unfold closed_state in *. cbn [inCodeSection] in Hc. rewrite Hc.
  split; [reflexivity|]. intros lines' mode'. reflexivity.
Qed.

Lemma run_leaves_only_code_open_witness :
  exists b k',
    execute new_KiwiMarkup ["* item" : str; "text" : str] None = OK (b, k')
    /\ state k' = new_state
    /\ execute k' ["more" : str] None = execute new_KiwiMarkup ["more" : str] None.
Proof.
  destruct (execute new_KiwiMarkup ["* item" : str; "text" : str] None)
    as [[b k']|e] eqn:E; [|vm_compute in E; discriminate E].
  exists b, k'. split; [reflexivity|].
  destruct (run_leaves_only_code_open _ _ _ E) as (_ & _ & H).
  assert (Hc : inCodeSection (state k') = false).
  { vm_compute in E. injection E as _ <-. reflexivity. }
  destruct (H Hc) as [H1 H2]. split; [exact H1|apply H2].
Defined.

(** X4: a text with no star, no underscore and no opening square bracket
    passes all the inline passes unchanged, in a header of an org file as
    anywhere else. *)
Theorem text_without_markers_is_kept (isOrgHeader : bool) (s : str) :
  markup_free s = true ->
  applyInlineMarkup isOrgHeader s = OK s /\ renderInline s = OK s.
Proof.
  intros H. split; [|unfold renderInline]; apply applyInlineMarkup_free; exact H.
Qed.

Lemma text_without_markers_is_kept_witness :
  applyInlineMarkup true "a < b & c" = OK ("a < b & c" : str)
  /\ renderInline "a < b & c" = OK ("a < b & c" : str).
Proof. apply text_without_markers_is_kept. reflexivity. Defined.





(** * Lines of one kind *)

(** X6: in standard mode, inside a code section, a line that is neither
    fence is written with its first four characters cut off and with the
    ampersand and the angle brackets escaped, whatever else it looks like;
    no section is opened or closed. *)
Theorem code_section_line (this next : str) (k : KiwiMarkup) :
  inCodeSection (state k) = true -> mode k = KIWI_MODE_STD ->
  Re.matches CODEBLOCK_START_REGEX this = false ->
  Re.matches CODEBLOCK_END_REGEX this = false ->
  exists k',
    processLine (at_line this next k) = OK k'
    /\ output k' = output k ++ [Py.escape (Py.slice_from 4 this)]
    /\ state k' = state k /\ indents k' = indents k
    /\ lt_free (Py.escape (Py.slice_from 4 this)) = true.
Proof.
  intros Hc Hm Hs He. unfold processLine, at_line.
  cbn [thisLine nextLine set_nextLine set_thisLine state line].
  set (sf := Line.scan this next (state k) (line k)).
  assert (F : Line.isCodeStart sf = false /\ Line.isCodeEnd sf = false).
  { unfold sf. destruct (blank this) eqn:Hb.
    - rewrite scan_of_blank by exact Hb. split; reflexivity.
    - rewrite scan_of_nonblank by exact Hb. unfold scan_fields.
      cbn [Line.isCodeStart Line.isCodeEnd]. split; [|exact He].
      unfold Re.matches in Hs. destruct (Re.search CODEBLOCK_START_REGEX this);
        [discriminate|reflexivity]. }
  destruct F as [F1 F2]. unfold dispatch.
  cbn [mode state line set_line set_nextLine set_thisLine].
  rewrite Hm, F1, F2, Hc. cbn [kmode_eqb andb]. unfold on_in_code.
  cbn [bind fst snd]. unfold include_line.
  cbn [thisLine state set_line set_nextLine set_thisLine]. rewrite Hc, andb_false_r.
  eexists. split; [reflexivity|]. unfold append.
  cbn [output state indents set_output set_thisLine set_line set_nextLine].
  repeat split. apply escape_lt_free.
Qed.

Lemma code_section_line_witness :
  exists k',
    processLine (at_line "# if a < b:" ""
                   (update_state (set_inCodeSection true) new_KiwiMarkup)) = OK k'
    /\ output k' = [" a &lt; b:" : str].
Proof.
  destruct (@code_section_line "# if a < b:" ""
              (update_state (set_inCodeSection true) new_KiwiMarkup)
              eq_refl eq_refl eq_refl eq_refl) as (k' & E & O & _).
  exists k'. split; [exact E|]. rewrite O. reflexivity.
Defined.

Lemma split_length (sep : ascii) (s : str) :
  length (Py.split sep s) = S (length (filter (fun c => Ascii.eqb c sep) s)).
Proof.
  induction s as [|c t IH]; cbn [Py.split filter]; [reflexivity|].
  destruct (Ascii.eqb c sep); cbn [length]; [rewrite IH; reflexivity|].
  destruct (Py.split sep t) as [|piece more]; [discriminate IH|exact IH].
Qed.

(** X7: the scanner splits a line that is not blank into one column more
    than it has vertical bars; with no divider line behind it and no table
    open, the line is a table row exactly when it has two bars or more. *)
Theorem table_row_by_bars (this next : str) (st : KiwiState) (l : Line.t) :
  blank this = false ->
  length (Line.tableColumns (Line.scan this next st l)) = S (bars this)
  /\ (Re.matches TABLE_HEADER_REGEX next = false -> inTable st = false ->
      Line.isTable (Line.scan this next st l) = (2 <=? bars this)).
Proof.
  intros Hb. rewrite scan_of_nonblank by exact Hb. unfold scan_fields.
  cbn [Line.tableColumns Line.isTable]. rewrite length_map, split_length.
  fold (bars this). split; [reflexivity|]. intros Hn Ht. rewrite Hn, Ht.
  rewrite andb_false_r, orb_false_r. reflexivity.
Qed.

Lemma table_row_by_bars_witness :
  length (Line.tableColumns (Line.scan "a|b" "" new_state (Line.new KIWI_MODE_STD))) = 2
  /\ Line.isTable (Line.scan "a|b" "" new_state (Line.new KIWI_MODE_STD)) = false.
Proof.
  destruct (@table_row_by_bars "a|b" "" new_state (Line.new KIWI_MODE_STD) eq_refl)
    as [H1 H2].
  split; [exact H1|]. rewrite H2; reflexivity.
Defined.



Lemma rstrip_keeps_head (c : ascii) (t : str) :
  blank (c :: t) = false -> Py.isspace c = true -> Py.rstrip (c :: t) = c :: Py.rstrip t.
Proof.
  rewrite blank_all_space. cbn [forallb Py.rstrip]. intros Hb Hc. rewrite Hc in Hb.
  cbn [andb] in Hb. rewrite <- rstrip_all_space in Hb.
  destruct (Py.rstrip t) as [|x t']; [discriminate Hb|reflexivity].
Qed.

(** X9: [execute] turns every tab into four spaces before the scan, so a
    line that starts with a tab and is not blank is scanned as an indented
    block, never as a paragraph, unless a table is open. *)
Theorem tab_indent_is_a_block (raw next : str) (st : KiwiState) (l : Line.t) :
  blank (Py.TAB :: raw) = false -> inTable st = false ->
  Py.slice_to 4 (normalize (Py.TAB :: raw)) = ("    " : str)
  /\ Line.isBlock (Line.scan (normalize (Py.TAB :: raw)) next st l) = true
  /\ Line.isParagraph (Line.scan (normalize (Py.TAB :: raw)) next st l) = false.
Proof.
  intros Hb Ht.
  assert (E : Py.slice_to 4 (normalize (Py.TAB :: raw)) = ("    " : str)).
  { unfold normalize. rewrite rstrip_keeps_head by (exact Hb || reflexivity). reflexivity. }
  split; [exact E|].
  rewrite scan_of_nonblank by (rewrite blank_normalize; exact Hb).
  unfold scan_fields. cbn [Line.isBlock Line.isParagraph]. rewrite E, Ht.
  split; [reflexivity|].
  change (Py.str_eqb "    " "    ") with true. cbn [negb andb].
  rewrite andb_false_r. reflexivity.
Qed.

Lemma tab_indent_is_a_block_witness :
  Line.isBlock (Line.scan (normalize (Py.TAB :: "x = 1")) "" new_state (Line.new KIWI_MODE_STD))
  = true.
Proof.
  apply (@tab_indent_is_a_block "x = 1" "" new_state (Line.new KIWI_MODE_STD));
    reflexivity.
Defined.

(** * The matcher reads words of its pattern *)

Lemma rep_loop_sound (a : regex) (body : mstate -> cont -> option mstate) :
  sound a body ->
  forall fuel lo hi st k m,
    rep_loop body fuel lo hi st k = Some m ->
    exists st' ws, k st' = Some m /\ rest st = concat ws ++ rest st'
                   /\ Forall (denotes a) ws /\ lo <= length ws
                   /\ match hi with Some h => length ws <= h | None => True end
                   /\ (groupless a = true -> caps st' = caps st).
Proof.
  intros Hbody fuel. induction fuel as [|f IH]; intros lo hi st k m H; cbn [rep_loop] in H.
  - destruct (lo =? 0) eqn:E; [|discriminate]. apply Nat.eqb_eq in E.
    exists st, []. cbn [length concat app]. repeat split; auto; [lia|destruct hi; [lia|exact I]].
  - assert (Hstop : (if lo =? 0 then k st else None) = Some m ->
                    exists st' ws, k st' = Some m /\ rest st = concat ws ++ rest st'
                      /\ Forall (denotes a) ws /\ lo <= length ws
                      /\ match hi with Some h => length ws <= h | None => True end
                      /\ (groupless a = true -> caps st' = caps st)).
    { intros E'. destruct (lo =? 0) eqn:E; [|discriminate]. apply Nat.eqb_eq in E.
      exists st, []. cbn [length concat app]. repeat split; auto; [lia|destruct hi; [lia|exact I]]. }
    assert (Hmore : forall hi',
               body st (fun st' => if length (rest st') <? length (rest st)
                                   then rep_loop body f (pred lo) hi' st' k
                                   else None) = Some m ->
               exists st' ws, k st' = Some m /\ rest st = concat ws ++ rest st'
                 /\ Forall (denotes a) ws /\ lo <= length ws
                 /\ match hi' with Some h => length ws <= S h | None => True end
                 /\ (groupless a = true -> caps st' = caps st)).
    { intros hi' E. apply Hbody in E. destruct E as (st1 & w1 & E & R1 & D1 & C1).
      cbn beta in E. destruct (length (rest st1) <? length (rest st)); [|discriminate].
      apply IH in E. destruct E as (st2 & ws & E & R2 & D2 & L2 & B2 & C2).
      exists st2, (w1 :: ws). split; [exact E|].
      split; [cbn [concat]; rewrite <- app_assoc, <- R2; exact R1|].
      split; [constructor; assumption|]. split; [cbn [length]; lia|].
      split; [destruct hi'; [cbn [length]; cbn beta iota in B2; lia|exact I]|].
      intros G. rewrite (C2 G). apply C1, G. }
    destruct hi as [[|h]|]; [auto| |].
    + match type of H with
      | match ?b with _ => _ end = _ => destruct b as [m'|] eqn:E
      end; [|auto].
      injection H as ->. exact (Hmore (Some h) E).
    + match type of H with
      | match ?b with _ => _ end = _ => destruct b as [m'|] eqn:E
      end; [|auto].
      injection H as ->. destruct (Hmore None E) as (st' & ws & H'). exists st', ws. exact H'.
Qed.

Lemma run_sound (r : regex) : sound r (run r).
Proof.
  induction r as [| | |c|p|r1 IH1 r2 IH2|r1 IH1 r2 IH2|i r IH|lo hi r IH];
    intros st k m H; cbn [run] in H; cbn [denotes groupless].
  - exists st, []. auto.
  - destruct (pos st =? 0); [|discriminate]. exists st, []. auto.
  - exists st, []. split; [|auto].
    destruct (rest st) as [|c [|c' t]]; try discriminate; [exact H|].
    destruct (Ascii.eqb c Py.NL); [exact H|discriminate].
  - destruct (rest st) as [|x t] eqn:E; [discriminate|].
    destruct (Ascii.eqb x c) eqn:Ex; [|discriminate]. apply Ascii.eqb_eq in Ex. subst x.
    exists (advance st t), [c]. auto.
  - destruct (rest st) as [|x t] eqn:E; [discriminate|].
    destruct (p x) eqn:Ex; [|discriminate].
    exists (advance st t), [x]. repeat split; auto. exists x. auto.
  - apply IH1 in H. destruct H as (st1 & w1 & H & R1 & D1 & C1).
    apply IH2 in H. destruct H as (st2 & w2 & H & R2 & D2 & C2).
    exists st2, (w1 ++ w2). split; [exact H|].
    split; [rewrite <- app_assoc, <- R2; exact R1|].
    split; [exists w1, w2; auto|].
    intros G. apply andb_true_iff in G. destruct G as [G1 G2].
    rewrite (C2 G2). apply C1, G1.
  - destruct (run r1 st k) as [m'|] eqn:E.
    + injection H as ->. apply IH1 in E. destruct E as (st1 & w1 & E & R1 & D1 & C1).
      exists st1, w1. repeat split; auto.
      intros G. apply andb_true_iff in G. apply C1, G.
    + apply IH2 in H. destruct H as (st1 & w1 & E' & R1 & D1 & C1).
      exists st1, w1. repeat split; auto.
      intros G. apply andb_true_iff in G. apply C1, G.
  - apply IH in H. destruct H as (st1 & w1 & H & R1 & D1 & C1).
    exists (set_group i st st1), w1. repeat split; auto. discriminate.
  - apply (@rep_loop_sound r (run r) IH) in H.
    destruct H as (st' & ws & H & R & D & L & B & C).
    exists st', (concat ws). repeat split; auto. exists ws. auto.
Qed.

Lemma grp_sound (n : nat) (r : regex) (st : mstate) (k : cont) (m : mstate) :
  groupless r = true -> run (Grp n r) st k = Some m ->
  exists st1 w, k (set_group n st st1) = Some m /\ rest st = w ++ rest st1
                /\ denotes r w /\ caps (set_group n st st1) = (n, w) :: caps st.
Proof.
  intros G H. cbn [run] in H. apply run_sound in H.
  destruct H as (st1 & w & H & R & D & C). exists st1, w.
  split; [exact H|]. split; [exact R|]. split; [exact D|].
  unfold set_group, consumed. cbn [caps]. rewrite (C G), R, firstn_consumed. reflexivity.
Qed.

Lemma search_at_bol_later (r : regex) (s : str) :
  forall p, search_at (Seq Bol r) (S p) s = None.
Proof.
  induction s as [|c t IH]; intros p; cbn [search_at]; unfold match_at; cbn [run pos];
    [reflexivity|apply IH].
Qed.

(** A pattern that starts with the anchor matches at the start or not at all *)
Lemma search_bol (r : regex) (s : str) (m : mstate) :
  search (Seq Bol r) s = Some m ->
  run r {| pos := 0; rest := s; caps := [] |} Some = Some m.
Proof.
  unfold search. destruct s as [|c t]; cbn [search_at]; unfold match_at; cbn [run pos Nat.eqb].
  - destruct (run r _ Some); [auto|discriminate].
  - destruct (run r _ Some); [auto|]. rewrite search_at_bol_later. discriminate.
Qed.

Lemma denotes_chars (c : ascii) (lo : nat) (hi : option nat) (w : str) :
  denotes (Rep lo hi (Chr c)) w ->
  w = repeat c (length w) /\ lo <= length w
  /\ match hi with Some h => length w <= h | None => True end.
Proof.
  cbn [denotes]. intros (ws & -> & D & L & B).
  assert (E : concat ws = repeat c (length ws) /\ length (concat ws) = length ws).
  { clear L B. induction D as [|x ws Hx D IH]; [split; reflexivity|].
    rewrite Hx. destruct IH as [IH1 IH2]. cbn [concat app length repeat].
    rewrite IH1 at 1. rewrite IH2. split; reflexivity. }
  destruct E as [E1 E2]. rewrite E2. split; [exact E1|]. split; [exact L|exact B].
Qed.

Lemma denotes_class (p : ascii -> bool) (lo : nat) (hi : option nat) (w : str) :
  denotes (Rep lo hi (Cls p)) w ->
  forallb p w = true /\ lo <= length w
  /\ match hi with Some h => length w <= h | None => True end.
Proof.
  cbn [denotes]. intros (ws & -> & D & L & B).
  assert (E : forallb p (concat ws) = true /\ length (concat ws) = length ws).
  { clear L B. induction D as [|x ws Hx D IH]; [split; reflexivity|].
    destruct Hx as (y & -> & Hy). destruct IH as [IH1 IH2].
    cbn [concat app length forallb]. rewrite Hy, IH1, IH2. split; reflexivity. }
  destruct E as [E1 E2]. rewrite E2. split; [exact E1|]. split; [exact L|exact B].
Qed.

Lemma seq_sound (a b : regex) (st : mstate) (k : cont) (m : mstate) :
  run (Seq a b) st k = Some m ->
  exists st1 w, run b st1 k = Some m /\ rest st = w ++ rest st1 /\ denotes a w
                /\ (groupless a = true -> caps st1 = caps st).
Proof.
  intros H. change (run a st (fun st' => run b st' k) = Some m) in H.
  apply run_sound in H. exact H.
Qed.

Lemma grp_seq_sound (n : nat) (r b : regex) (st : mstate) (k : cont) (m : mstate) :
  groupless r = true -> run (Seq (Grp n r) b) st k = Some m ->
  exists st1 w, run b (set_group n st st1) k = Some m /\ rest st = w ++ rest st1
                /\ denotes r w /\ caps (set_group n st st1) = (n, w) :: caps st.
Proof.
  intros G H. change (run (Grp n r) st (fun st' => run b st' k) = Some m) in H.
  apply grp_sound in H; [exact H|exact G].
Qed.

(** What a match of HEADER_REGEX is made of *)
Lemma header_match (s : str) (m : mstate) :
  search HEADER_REGEX s = Some m ->
  exists sp0 hashes sp1 text,
    s = sp0 ++ hashes ++ sp1 ++ text ++ rest m
    /\ group_text m 1 = hashes /\ group_text m 2 = text
    /\ forallb Py.isspace sp0 = true /\ length sp0 <= 3
    /\ hashes = repeat "#"%char (length hashes)
    /\ 1 <= length hashes /\ length hashes <= 6
    /\ forallb Py.isspace sp1 = true
    /\ forallb (fun c => negb (oneof "#" c)) text = true.
Proof.
  unfold HEADER_REGEX. cbn [seqs]. intros H. apply search_bol in H.
  apply seq_sound in H. destruct H as (st1 & sp0 & H & R0 & D0 & C0).
  specialize (C0 eq_refl). cbn [rest caps] in R0, C0.
  apply denotes_class in D0. destruct D0 as (W0 & _ & L0).
  apply grp_seq_sound in H; [|reflexivity].
  destruct H as (st2 & hashes & H & R1 & D1 & C1).
  apply denotes_chars in D1. destruct D1 as (E1 & L1 & L1').
  apply seq_sound in H. destruct H as (st3 & sp1 & H & R2 & D2 & C2).
  specialize (C2 eq_refl). apply denotes_class in D2. destruct D2 as (W2 & _).
  apply (@grp_sound 2 (star (notof "#")) st3) in H; [|reflexivity].
  destruct H as (st4 & text & H & R3 & D3 & C3).
  apply denotes_class in D3. destruct D3 as (W3 & _).
  injection H as <-.
  exists sp0, hashes, sp1, text.
  split.
  { rewrite R0, R1. cbn [rest set_group] in R2. rewrite R2, R3. reflexivity. }
  unfold group_text, group. rewrite C3, C2, C1, C0. cbn [lookup Nat.eqb].
  repeat split; auto.
Qed.

(** The header branch of [processLine], where it is the first that holds *)
Lemma header_branch (this next : str) (k : KiwiMarkup) :
  find (applies (scanned this next k)) precedence = Some Header ->
  exists k',
    processLine (at_line this next k) = OK k'
    /\ output k'
       = output k ++ closers k
         ++ [render (Line.isOrgHeader (line (scanned this next k)))
               ("<h" ++ Py.fmt_d (Line.headerLevel (line (scanned this next k))) ++ ">"
                ++ Line.headerText (line (scanned this next k))
                ++ "</h" ++ Py.fmt_d (Line.headerLevel (line (scanned this next k))) ++ ">")].
Proof.
  unfold scanned, at_line. cbn [line set_line state set_nextLine set_thisLine].
  remember (Line.scan this next (state k) (line k)) as sf eqn:Esf.
  intros Hf. unfold precedence in Hf.
  cbn [find applies mode state line set_line set_nextLine set_thisLine] in Hf.
  destruct (kmode_eqb (mode k) KIWI_MODE_ORG && Line.isOrgHeader sf) eqn:A1; [discriminate|].
  destruct (Line.isCodeStart sf) eqn:A2; [discriminate|].
  destruct (Line.isCodeEnd sf) eqn:A3; [discriminate|].
  destruct (inCodeSection (state k)) eqn:A4; [discriminate|].
  destruct (Line.isList sf) eqn:A5; [discriminate|].
  destruct (Line.isBlock sf) eqn:A6; [discriminate|].
  destruct (Line.isTable sf) eqn:A7; [discriminate|].
  destruct (Line.isHeader sf) eqn:A8;
    [|destruct (Line.isHorizontalLine sf); [discriminate|];
      destruct (Line.isParagraph sf); [discriminate|];
      destruct (Line.isBlankLine sf); discriminate].
  clear Hf.
  unfold processLine. cbn [thisLine nextLine set_nextLine set_thisLine].
  cbn [state line set_nextLine set_thisLine]. rewrite <- Esf.
  unfold dispatch. cbn [mode state line set_line set_nextLine set_thisLine].
  rewrite A1, A2, A3, A4, A5, A6, A7, A8.
  unfold on_header. rewrite endAllSections_eq.
  cbn [bind fst snd line state set_line set_nextLine set_thisLine mode thisLine
       nextLine output indents].
  unfold include_line. cbn [thisLine set_thisLine state closed_state inBlock
                            inCodeSection line negb andb].
  rewrite A4. cbn [negb andb].
  rewrite applyInlineMarkup_render. cbn [bind].
  eexists. split; [reflexivity|].
  unfold append. cbn [output set_output set_thisLine line].
  rewrite <- app_assoc. reflexivity.
Qed.

Lemma hash_line_not_blank (sp0 hashes tail : str) :
  1 <= length hashes -> hashes = repeat "#"%char (length hashes) ->
  blank (sp0 ++ hashes ++ tail) = false.
Proof.
  intros L E. rewrite blank_all_space, !forallb_app. rewrite E.
  destruct (length hashes) as [|n]; [lia|]. cbn [repeat forallb].
  change (Py.isspace "#") with false. cbn [andb]. apply andb_false_r.
Qed.

(** X10: a line that HEADER_REGEX matches is made of at most three white
    spaces, one to six hash signs, white space and the header text; the
    scanner takes the number of hash signs as the level, so the level is
    between 1 and 6, and the header text holds no hash sign.  Where the
    header branch is the first that holds, the line is written as one
    header element of that level. *)
Theorem atx_header_line (this next : str) (k : KiwiMarkup) (m : mstate) :
  Re.search HEADER_REGEX this = Some m ->
  Line.isHeader (line (scanned this next k)) = true
  /\ 1 <= Line.headerLevel (line (scanned this next k))
  /\ Line.headerLevel (line (scanned this next k)) <= 6
  /\ forallb (fun c => negb (oneof "#" c)) (Line.headerText (line (scanned this next k)))
     = true
  /\ (exists sp0 sp1 tail,
        this = sp0 ++ repeat "#"%char (Line.headerLevel (line (scanned this next k)))
                   ++ sp1 ++ Line.headerText (line (scanned this next k)) ++ tail
        /\ forallb Py.isspace sp0 = true /\ length sp0 <= 3
        /\ forallb Py.isspace sp1 = true)
  /\ (find (applies (scanned this next k)) precedence = Some Header ->
      exists k',
        processLine (at_line this next k) = OK k'
        /\ output k'
           = output k ++ closers k
             ++ [render (Line.isOrgHeader (line (scanned this next k)))
                   ("<h" ++ Py.fmt_d (length (group_text m 1)) ++ ">"
                    ++ group_text m 2
                    ++ "</h" ++ Py.fmt_d (length (group_text m 1)) ++ ">")]).
Proof.
  intros H.
  destruct (header_match _ H)
    as (sp0 & hashes & sp1 & text & E & G1 & G2 & W0 & L0 & Eh & L1 & L1' & W1 & W2).
  assert (Hb : blank this = false).
  { rewrite E. apply hash_line_not_blank; assumption. }
  assert (F : Line.isHeader (line (scanned this next k)) = true
              /\ Line.headerLevel (line (scanned this next k)) = length hashes
              /\ Line.headerText (line (scanned this next k)) = text).
  { unfold scanned, at_line. cbn [line set_line state set_nextLine set_thisLine].
    rewrite scan_of_nonblank by exact Hb. unfold scan_fields.
    cbn [Line.isHeader Line.headerLevel Line.headerText]. rewrite H, G1, G2.
    repeat split. }
  destruct F as (F1 & F2 & F3).
  split; [exact F1|]. rewrite F2, F3.
  split; [exact L1|]. split; [exact L1'|]. split; [exact W2|].
  split.
  { exists sp0, sp1, (rest m). rewrite <- Eh. auto. }
  intros Hf. destruct (header_branch _ _ _ Hf) as (k' & Ek & O).
  exists k'. split; [exact Ek|]. rewrite O, F2, F3, G1, G2. reflexivity.
Qed.

Lemma atx_header_line_witness :
  exists k',
    processLine (at_line "## Two # words" "" new_KiwiMarkup) = OK k'
    /\ output k' = ["<h2>Two </h2>" : str].
Proof.
  destruct (Re.search HEADER_REGEX "## Two # words") as [m|] eqn:E;
    [|vm_compute in E; discriminate E].
  destruct (@atx_header_line "## Two # words" "" new_KiwiMarkup m E)
    as (_ & _ & _ & _ & _ & H).
  destruct (H eq_refl) as (k' & Ek & O).
  exists k'. split; [exact Ek|]. rewrite O.
  vm_compute in E. injection E as <-. vm_compute. reflexivity.
Defined.

(** What a match of LIST_REGEX is made of *)
Lemma list_match (s : str) (m : mstate) :
  search LIST_REGEX s = Some m ->
  exists indent sp text,
    s = indent ++ "*"%char :: sp ++ text ++ rest m
    /\ group_text m 1 = indent /\ group_text m 2 = text
    /\ forallb Py.isspace indent = true
    /\ forallb Py.isspace sp = true /\ 1 <= length sp
    /\ forallb (fun c => negb (Ascii.eqb c Py.NL)) text = true.
Proof.
  unfold LIST_REGEX. cbn [seqs]. intros H. apply search_bol in H.
  apply grp_seq_sound in H; [|reflexivity].
  destruct H as (st1 & indent & H & R0 & D0 & C0). cbn [rest caps] in R0, C0.
  apply denotes_class in D0. destruct D0 as (W0 & _).
  apply seq_sound in H. destruct H as (st2 & star & H & R1 & D1 & C1).
  specialize (C1 eq_refl). cbn [denotes] in D1. subst star.
  apply seq_sound in H. destruct H as (st3 & sp & H & R2 & D2 & C2).
  specialize (C2 eq_refl). apply denotes_class in D2. destruct D2 as (W2 & L2 & _).
  apply (@grp_sound 2 (star dot) st3) in H; [|reflexivity].
  destruct H as (st4 & text & H & R3 & D3 & C3).
  apply denotes_class in D3. destruct D3 as (W3 & _).
  injection H as <-.
  exists indent, sp, text.
  split.
  { rewrite R0. cbn [rest set_group] in R1. rewrite R1, R2, R3. reflexivity. }
  unfold group_text, group. rewrite C3, C2, C1, C0. cbn [lookup Nat.eqb].
  repeat split; auto.
Qed.

(** X11: a line that LIST_REGEX matches is made of white space, a star,
    at least one white space and the text of the item; outside a block the
    scanner takes it as a list item whose indent is the number of white
    spaces in front of the star and whose text holds no newline.  Inside a
    block no line is a list item. *)
Theorem list_item_scan (this next : str) (st : KiwiState) (l : Line.t) (m : mstate) :
  Re.search LIST_REGEX this = Some m ->
  (inBlock st = true -> Line.isList (Line.scan this next st l) = false)
  /\ (inBlock st = false ->
      Line.isList (Line.scan this next st l) = true
      /\ Line.isParagraph (Line.scan this next st l) = false
      /\ forallb (fun c => negb (Ascii.eqb c Py.NL))
           (Line.listText (Line.scan this next st l)) = true
      /\ exists indent sp tail,
           this = indent ++ "*"%char :: sp ++ Line.listText (Line.scan this next st l) ++ tail
           /\ Line.listIndent (Line.scan this next st l) = length indent
           /\ forallb Py.isspace indent = true
           /\ forallb Py.isspace sp = true /\ 1 <= length sp).
Proof.
  intros H.
  destruct (list_match _ H) as (indent & sp & text & E & G1 & G2 & W0 & W1 & L1 & W2).
  assert (Hb : blank this = false).
  { rewrite E, blank_all_space, forallb_app. cbn [forallb].
    change (Py.isspace "*") with false. cbn [andb]. apply andb_false_r. }
  rewrite scan_of_nonblank by exact Hb. unfold scan_fields.
  cbn [Line.isList Line.isParagraph Line.listText Line.listIndent]. rewrite H.
  split; intros Hk; rewrite Hk; [reflexivity|]. cbn [is_some negb].
  split; [reflexivity|]. split; [rewrite !andb_false_r; reflexivity|].
  rewrite G1, G2. split; [exact W2|].
  exists indent, sp, (rest m). auto.
Qed.

Lemma list_item_scan_witness :
  Line.isList (Line.scan "  * one item" "" new_state (Line.new KIWI_MODE_STD)) = true
  /\ Line.listIndent (Line.scan "  * one item" "" new_state (Line.new KIWI_MODE_STD)) = 2.
Proof.
  destruct (Re.search LIST_REGEX "  * one item") as [m|] eqn:E;
    [|vm_compute in E; discriminate E].
  destruct (@list_item_scan "  * one item" "" new_state (Line.new KIWI_MODE_STD) m E)
    as (_ & H).
  destruct (H eq_refl) as (H1 & _). split; [exact H1|]. reflexivity.
Defined.

(** * Closing lists *)

Lemma mul_spaces_lt_free (z : Z) : lt_free (Py.mul "    " z) = true.
Proof.
  unfold Py.mul, lt_free. induction (Z.to_nat z) as [|n IH]; [reflexivity|].
  cbn [repeat concat]. rewrite forallb_app, IH. reflexivity.
Qed.

Lemma lines_with_cons (tag s : str) (out : list str) :
  lines_with tag (s :: out) = Nat.b2n (Py.contains tag s) + lines_with tag out.
Proof. unfold lines_with. cbn [filter]. destruct (Py.contains tag s); reflexivity. Qed.

Ltac indented_tag :=
  cbn [list_ascii_of_string];
  rewrite contains_lt_free_app by apply mul_spaces_lt_free; reflexivity.

Lemma list_closers_count (n : nat) :
  lines_with "</ul>" (list_closers n) = n
  /\ lines_with "</li>" (list_closers n) = n
  /\ lines_with "<ul>" (list_closers n) = 0.
Proof.
  induction n as [|n (IH1 & IH2 & IH3)]; [repeat split|].
  cbn [list_closers]. rewrite !lines_with_cons, IH1, IH2, IH3.
  replace (Py.contains "</ul>" (Py.mul "    " (Z.of_nat (S n) - 1 + 1) ++ "</ul>"))
    with true by (symmetry; indented_tag).
  replace (Py.contains "</ul>" (Py.mul "    " (Z.of_nat (S n) - 1 + 0) ++ "</li>"))
    with false by (symmetry; indented_tag).
  replace (Py.contains "</li>" (Py.mul "    " (Z.of_nat (S n) - 1 + 1) ++ "</ul>"))
    with false by (symmetry; indented_tag).
  replace (Py.contains "</li>" (Py.mul "    " (Z.of_nat (S n) - 1 + 0) ++ "</li>"))
    with true by (symmetry; indented_tag).
  replace (Py.contains "<ul>" (Py.mul "    " (Z.of_nat (S n) - 1 + 1) ++ "</ul>"))
    with false by (symmetry; indented_tag).
  replace (Py.contains "<ul>" (Py.mul "    " (Z.of_nat (S n) - 1 + 0) ++ "</li>"))
    with false by (symmetry; indented_tag).
  cbn [Nat.b2n]. repeat split; lia.
Qed.

(** X12: [endAllLists] leaves no indent and no list open.  For every
    indent on the stack it writes one closing list tag and one closing
    item tag, and [endList] then writes one closing list tag more when a
    list is open: one closing tag more than there are indents. *)
Theorem endAllLists_closes_once_more (k : KiwiMarkup) :
  indents (endAllLists k) = [] /\ inList (state (endAllLists k)) = false
  /\ lines_with "</ul>" (output (endAllLists k))
     = lines_with "</ul>" (output k) + length (indents k) + Nat.b2n (inList (state k))
  /\ lines_with "</li>" (output (endAllLists k))
     = lines_with "</li>" (output k) + length (indents k)
  /\ lines_with "<ul>" (output (endAllLists k)) = lines_with "<ul>" (output k).
Proof.
  rewrite endAllLists_eq.
  destruct (list_closers_count (length (indents k))) as (C1 & C2 & C3).
  destruct k as [[p t l b o c] m ln th nx ind out].
  cbn [indents state inList output set_state set_indents set_output set_inList] in *.
  rewrite !lines_with_app, C1, C2, C3.
  split; [reflexivity|]. split; [reflexivity|].
  assert (N : forall t, lines_with t [] = 0) by reflexivity.
  destruct l; cbn [when]; rewrite ?N; count_tags; cbn [Nat.b2n]; repeat split; lia.
Qed.




Lemma last_opt_snoc (A : Type) (l : list A) (x : A) : Py.last_opt (l ++ [x]) = Some x.
Proof. unfold Py.last_opt. rewrite rev_app_distr. reflexivity. Qed.




(** * Text lines *)

Lemma word_char_not (x c : ascii) :
  oneof "*_[#|-=:" x = true -> word_char c = true -> Ascii.eqb c x = false.
Proof.
  unfold word_char. intros Hx Hc. apply negb_true_iff in Hc.
  destruct (Ascii.eqb c x) eqn:E; [|reflexivity].
  apply Ascii.eqb_eq in E. subst c. congruence.
Qed.

Lemma word_line_without (x : ascii) (s : str) :
  oneof "*_[#|-=:" x = true -> forallb word_char s = true ->
  forallb (fun c => negb (Ascii.eqb c x)) s = true.
Proof.
  intros Hx. induction s as [|c t IH]; cbn [forallb]; [auto|]. intros H.
  apply andb_true_iff in H. destruct H as [Hc Ht].
  rewrite (word_char_not _ _ Hx Hc), (IH Ht). reflexivity.
Qed.

Lemma word_line_no_match (x : ascii) (r : regex) (s : str) :
  oneof "*_[#|-=:" x = true -> needs (fun c => Ascii.eqb c x) r = true ->
  forallb word_char s = true -> Re.search r s = None /\ Re.matches r s = false.
Proof.
  intros Hx Hn Hs.
  assert (E : Re.search r s = None).
  { apply (@search_at_free (fun c => Ascii.eqb c x) r Hn).
    apply word_line_without; assumption. }
  unfold Re.matches. rewrite E. auto.
Qed.

Lemma word_line_markup_free (s : str) : forallb word_char s = true -> markup_free s = true.
Proof.
  unfold markup_free. induction s as [|c t IH]; cbn [forallb]; [auto|]. intros H.
  apply andb_true_iff in H. destruct H as [Hc Ht]. rewrite (IH Ht), andb_true_r.
  unfold markup_char, oneof. cbn [existsb list_ascii_of_string].
  rewrite (word_char_not "*" c eq_refl Hc), (word_char_not "_" c eq_refl Hc),
    (word_char_not "[" c eq_refl Hc). reflexivity.
Qed.

Lemma text_line_facts (s : str) :
  text_line s = true ->
  exists c t, s = c :: t /\ Py.isspace c = false /\ forallb word_char s = true.
Proof.
  unfold text_line. destruct s as [|c t]; [discriminate|]. intros H.
  apply andb_true_iff in H. destruct H as [Hc Hw]. apply negb_true_iff in Hc.
  exists c, t. auto.
Qed.

Lemma normalize_head (c : ascii) (t : str) :
  Py.isspace c = false -> exists t', normalize (c :: t) = c :: t'.
Proof.
  intros Hc. unfold normalize. cbn [Py.rstrip].
  assert (Ht : Ascii.eqb c Py.TAB = false).
  { destruct (Ascii.eqb c Py.TAB) eqn:E; [|reflexivity].
    apply Ascii.eqb_eq in E. subst c. discriminate Hc. }
  destruct (Py.rstrip t) as [|x t']; rewrite ?Hc; cbn [Py.detab flat_map];
    unfold Py.detab_char at 1; rewrite Ht; cbn [app]; eexists; reflexivity.
Qed.

Lemma text_line_normalize (s : str) : text_line s = true -> text_line (normalize s) = true.
Proof.
  intros H. destruct (text_line_facts _ H) as (c & t & -> & Hc & Hw).
  assert (Hn : forallb word_char (normalize (c :: t)) = true).
  { unfold normalize. apply detab_keeps; [reflexivity|]. apply rstrip_keeps. exact Hw. }
  destruct (@normalize_head c t Hc) as [t' E]. rewrite E in *.
  unfold text_line. rewrite Hc, Hn. reflexivity.
Qed.

Lemma no_bars (s : str) : forallb word_char s = true -> bars s = 0.
Proof.
  unfold bars. induction s as [|c t IH]; cbn [forallb filter]; [auto|]. intros H.
  apply andb_true_iff in H. destruct H as [Hc Ht].
  rewrite (word_char_not "|" c eq_refl Hc). exact (IH Ht).
Qed.

(** What the scanner finds on a text line in front of a line without
    mark-up, when no table is open and no rule was seen *)
Lemma scan_text_line (this next : str) (st : KiwiState) (l : Line.t) :
  text_line this = true -> forallb word_char next = true ->
  inTable st = false -> Line.isHorizontalLine l = false ->
  let sc := Line.scan this next st l in
  Line.isOrgHeader sc = false /\ Line.isCodeStart sc = false /\ Line.isCodeEnd sc = false
  /\ Line.isList sc = false /\ Line.isBlock sc = false /\ Line.isTable sc = false
  /\ Line.isHeader sc = false /\ Line.isHorizontalLine sc = false
  /\ Line.isParagraph sc = true /\ Line.skipNextLine sc = false.
Proof.
  intros Ht Hn Htab Hhr. cbv zeta.
  destruct (text_line_facts _ Ht) as (c & t & E & Hc & Hw).
  assert (Hb : blank this = false).
  { rewrite blank_all_space, E. cbn [forallb]. rewrite Hc. reflexivity. }
  rewrite scan_of_nonblank by exact Hb. unfold scan_fields.
  cbn [Line.isOrgHeader Line.isCodeStart Line.isCodeEnd Line.isList Line.isBlock
       Line.isTable Line.isHeader Line.isHorizontalLine Line.isParagraph Line.skipNextLine].
  destruct (@word_line_no_match "#" HEADER_REGEX this eq_refl eq_refl Hw) as [-> _].
  destruct (@word_line_no_match "=" SETEXT1_REGEX next eq_refl eq_refl Hn) as [_ ->].
  destruct (@word_line_no_match "-" SETEXT2_REGEX next eq_refl eq_refl Hn) as [_ ->].
  destruct (@word_line_no_match "-" TABLE_HEADER_REGEX next eq_refl eq_refl Hn) as [_ ->].
  destruct (@word_line_no_match "*" LIST_REGEX this eq_refl eq_refl Hw) as [-> _].
  destruct (@word_line_no_match "-" HRULE_REGEX this eq_refl eq_refl Hw) as [_ ->].
  destruct (@word_line_no_match ":" CODEBLOCK_START_REGEX this eq_refl eq_refl Hw) as [-> _].
  destruct (@word_line_no_match ":" CODEBLOCK_END_REGEX this eq_refl eq_refl Hw) as [_ ->].
  rewrite Htab, Hhr, length_map, split_length. fold (bars this). rewrite (no_bars _ Hw).
  assert (Ho : match Py.strip this with
               | [] => false
               | c0 :: _ => Ascii.eqb c0 "*"
               end = false).
  { assert (Hs := @strip_keeps word_char this Hw).
    destruct (Py.strip this) as [|c0 s0]; [reflexivity|].
    cbn [forallb] in Hs. apply andb_true_iff in Hs.
    exact (word_char_not "*" c0 eq_refl (proj1 Hs)). }
  assert (Hk : Py.str_eqb (Py.slice_to 4 this) "    " = false).
  { rewrite E. unfold Py.str_eqb, Py.slice_to. cbn [firstn list_ascii_of_string].
    destruct (list_eq_dec _ _ _) as [Q|_]; [|reflexivity].
    injection Q as Q _. subst c. discriminate Hc. }
  rewrite Ho, Hk, andb_false_r. cbn. repeat split; reflexivity.
Qed.

Lemma text_step (this next : str) (k : KiwiMarkup) (p : bool) :
  text_line this = true -> forallb word_char next = true ->
  state k = (if p then paragraph_state else new_state) -> indents k = [] ->
  Line.isHorizontalLine (line k) = false ->
  exists k',
    processLine (at_line this next k) = OK k'
    /\ output k' = output k ++ (if p then [] else ["<p>" : str]) ++ [this]
    /\ state k' = paragraph_state /\ indents k' = []
    /\ Line.isHorizontalLine (line k') = false
    /\ Line.skipNextLine (line k') = false
    /\ nextLine k' = Some next.
Proof.
  intros Ht Hn Hs Hi Hh.
  assert (Htab : inTable (state k) = false) by (rewrite Hs; destruct p; reflexivity).
  destruct (@scan_text_line this next (state k) (line k) Ht Hn Htab Hh)
    as (F1 & F2 & F3 & F4 & F5 & F6 & F7 & F8 & F9 & F10).
  destruct (text_line_facts _ Ht) as (c & t & _ & _ & Hw).
  unfold processLine, at_line.
  cbn [thisLine nextLine set_nextLine set_thisLine state line].
  remember (Line.scan this next (state k) (line k)) as sf eqn:Esf.
  unfold dispatch. cbn [mode state line set_line set_nextLine set_thisLine].
  rewrite F1, F2, F3, F4, F5, F6, F7, F8, F9, andb_false_r.
  replace (inCodeSection (state k)) with false by (rewrite Hs; destruct p; reflexivity).
  unfold on_paragraph. cbn [bind fst snd].
  rewrite startParagraph_eq, endTable_eq, endAllLists_eq, endBlock_eq, endOrgSection_eq.
  destruct k as [st m ln th nx ind out].
  cbn [state indents output line] in Hs, Hi. subst st ind.
  unfold include_line.
  destruct p; cbn; rewrite applyInlineMarkup_free by (apply word_line_markup_free, Hw);
    cbn; (eexists; split; [reflexivity|]); cbn; rewrite ?app_nil_r, <- ?app_assoc;
    repeat split; assumption.
Qed.

Lemma in_text_snoc (ws : list str) (y next : str) (k k' : KiwiMarkup) :
  output k' = output k ++ (match ws with [] => ["<p>" : str] | _ => [] end) ++ [y] ->
  output k = match ws with [] => [] | _ => ("<p>" : str) :: ws end ->
  state k' = paragraph_state -> indents k' = [] ->
  Line.isHorizontalLine (line k') = false -> Line.skipNextLine (line k') = false ->
  nextLine k' = Some next ->
  in_text ((ws ++ [y]) ++ [next]) k'.
Proof.
  intros O O0 S I H K N. unfold in_text.
  rewrite last_opt_snoc, removelast_last.
  split; [exact N|]. split.
  - rewrite O, O0. destruct ws; reflexivity.
  - split; [rewrite S; destruct ws; reflexivity|]. auto.
Qed.

Lemma loop_step_text (raw : str) (seen : list str) (k : KiwiMarkup) :
  in_text seen k -> Forall (fun l => text_line l = true) seen -> text_line raw = true ->
  exists k', loop_step k raw = OK k' /\ in_text (seen ++ [normalize raw]) k'.
Proof.
  intros (N & O & S & I & H & K) Hseen Hraw.
  assert (Hn := text_line_normalize _ Hraw).
  destruct (text_line_facts _ Hn) as (c & t & _ & _ & Hw).
  unfold loop_step. cbn [line set_nextLine set_thisLine]. rewrite K. cbn [negb].
  destruct seen as [|y ws _] using rev_ind.
  - cbn in N. rewrite N. unfold processLine. cbn [thisLine set_nextLine set_thisLine].
    eexists. split; [reflexivity|]. unfold in_text. cbn. cbn in O, S. repeat split; auto.
  - rewrite last_opt_snoc in N. rewrite removelast_last in O, S. rewrite N.
    apply Forall_app in Hseen. destruct Hseen as [_ Hy]. inversion Hy; subst.
    assert (S0 : state k = if match ws with [] => false | _ => true end
                           then paragraph_state else new_state)
      by (rewrite S; destruct ws; reflexivity).
    destruct (@text_step y (normalize raw) k (match ws with [] => false | _ => true end)
                H2 Hw S0 I H)
      as (k' & E & O' & S' & I' & H' & K' & N').
    fold (at_line y (normalize raw) k). rewrite E. exists k'. split; [reflexivity|].
    apply (@in_text_snoc ws y (normalize raw) k k'); auto.
    + rewrite O'. destruct ws; reflexivity.
    + rewrite O. destruct ws; reflexivity.
Qed.

Lemma loop_text (lines : list str) :
  forall seen k,
    in_text seen k -> Forall (fun l => text_line l = true) seen ->
    Forall (fun l => text_line l = true) lines ->
    exists k', loop lines k = OK k' /\ in_text (seen ++ map normalize lines) k'.
Proof.
  induction lines as [|raw more IH]; intros seen k Hk Hseen Hl; cbn [loop map].
  - exists k. rewrite app_nil_r. auto.
  - inversion Hl; subst.
    destruct (@loop_step_text raw seen k Hk Hseen H1) as (k1 & -> & Hk1). cbn [bind].
    destruct (IH (seen ++ [normalize raw]) k1 Hk1) as (k2 & E & Hk2); [|assumption|].
    + apply Forall_app. split; [exact Hseen|].
      constructor; [apply text_line_normalize, H1|constructor].
    + exists k2. split; [exact E|]. rewrite <- app_assoc in Hk2. exact Hk2.
Qed.

(** X14: lines of text, each starting with no white space and holding none
    of the characters star, underscore, square bracket, hash, bar, hyphen,
    equals sign and colon, are written as one paragraph: the opening tag,
    the lines with their trailing white space cut and their tabs turned
    into spaces, and the closing tag. *)
Theorem text_lines_make_one_paragraph (lines : list str) (mode : option kmode) :
  lines <> [] -> Forall (fun l => text_line l = true) lines ->
  convert lines mode = OK (true, ("<p>" : str) :: map normalize lines ++ ["</p>" : str]).
Proof.
  intros Hne Hl. unfold convert, execute. destruct lines as [|l0 more]; [congruence|].
  cbv zeta.
  match goal with
  | |- context [loop ?ls ?x] =>
      destruct (@loop_text ls [] x) as (k1 & -> & N & O & S & I & H & K);
        [unfold in_text; cbn; repeat split; reflexivity|constructor|exact Hl|]
  end.
  cbn [bind app] in *. unfold final_line. rewrite K. cbn [negb].
  assert (Hs : Forall (fun l => text_line l = true) (map normalize (l0 :: more))).
  { apply Forall_map. apply (Forall_impl _ text_line_normalize Hl). }
  destruct (exists_last (l := map normalize (l0 :: more))) as (ws & y & E);
    [discriminate|].
  rewrite E in *. rewrite last_opt_snoc in N. rewrite removelast_last in O, S.
  apply Forall_app in Hs. destruct Hs as [_ Hy]. inversion Hy; subst.
  rewrite N.
  assert (S0 : state k1 = if match ws with [] => false | _ => true end
                          then paragraph_state else new_state)
    by (rewrite S; destruct ws; reflexivity).
  destruct (@text_step y [] k1 (match ws with [] => false | _ => true end)
              H2 eq_refl S0 I H)
    as (k2 & E2 & O2 & S2 & I2 & _).
  match goal with
  | |- context [processLine ?x] => change (processLine x) with (processLine (at_line y [] k1))
  end.
  rewrite E2.
  cbn [bind fst snd]. rewrite endAllSections_eq. cbn [output].
  unfold closers. rewrite S2, I2, O2, O. cbn.
  destruct ws; cbn; rewrite ?length_app; cbn; rewrite <- ?app_assoc; reflexivity.
Qed.

Lemma text_lines_make_one_paragraph_witness :
  convert ["Some text  " : str; "and more." : str] None
  = OK (true, ["<p>" : str; "Some text" : str; "and more." : str; "</p>" : str]).
Proof.
  apply (@text_lines_make_one_paragraph ["Some text  " : str; "and more." : str] None);
    [discriminate|repeat constructor].
Defined.

(** * The mode of a run *)











(** * Groups a pattern does not set *)







(** * Fences and blank lines *)

Lemma fence_not_blank (r : regex) (this : str) :
  needs (fun c => Ascii.eqb c ":") r = true -> Re.matches r this = true ->
  blank this = false.
Proof.
  intros Hn Hm. destruct (blank this) eqn:Hb; [|reflexivity].
  rewrite blank_all_space in Hb.
  assert (H : forallb (fun c => negb (Ascii.eqb c ":")) this = true).
  { clear Hm. induction this as [|c t IH]; [reflexivity|]. cbn [forallb] in *.
    apply andb_true_iff in Hb. destruct Hb as [Hc Ht]. rewrite (IH Ht), andb_true_r.
    destruct (Ascii.eqb c ":") eqn:E; [|reflexivity].
    apply Ascii.eqb_eq in E. subst c. discriminate Hc. }
  unfold Re.matches, Re.search in Hm.
  rewrite (@search_at_free _ r Hn this 0 H) in Hm. discriminate.
Qed.

(** X17: in standard mode a line that CODEBLOCK_START_REGEX matches closes
    every other section and opens a code section, unless one is open; the
    line is not written, and neither is the language it names.  A line
    that CODEBLOCK_END_REGEX matches closes the code section, if one is
    open, and nothing else; it is not written either. *)
Theorem code_fences (this next : str) (k : KiwiMarkup) :
  mode k = KIWI_MODE_STD ->
  (Re.matches CODEBLOCK_START_REGEX this = true ->
   exists k',
     processLine (at_line this next k) = OK k'
     /\ output k'
        = output k ++ closers k
          ++ (if inCodeSection (state k) then [] else ["<pre>" : str; "<code>" : str])
     /\ state k' = set_inCodeSection true (closed_state (state k)))
  /\ (Re.matches CODEBLOCK_START_REGEX this = false ->
      Re.matches CODEBLOCK_END_REGEX this = true ->
      exists k',
        processLine (at_line this next k) = OK k'
        /\ output k'
           = output k
             ++ (if inCodeSection (state k) then ["</code>" : str; "</pre>" : str] else [])
        /\ state k' = set_inCodeSection false (state k)).
Proof.
  intros Hm. split.
  - intros Hs. assert (Hb := @fence_not_blank CODEBLOCK_START_REGEX this eq_refl Hs).
    unfold processLine, at_line.
    cbn [thisLine nextLine set_nextLine set_thisLine state line].
    rewrite scan_of_nonblank by exact Hb.
    remember (scan_fields this next (state k) (line k)) as sf eqn:Esf.
    assert (F : Line.isCodeStart sf = true).
    { rewrite Esf. unfold scan_fields. cbn [Line.isCodeStart].
      unfold Re.matches in Hs. destruct (Re.search CODEBLOCK_START_REGEX this);
        [reflexivity|discriminate]. }
    unfold dispatch. cbn [mode state line set_line set_nextLine set_thisLine].
    rewrite Hm, F. cbn [kmode_eqb andb]. unfold on_code_start. cbn [bind fst snd].
    rewrite endAllSections_eq. unfold startCodeSection, closers, update_state, append.
    destruct k as [[p t l b o c] m ln th nx ind out].
    cbn [state indents output mode line thisLine nextLine set_line set_nextLine
         set_thisLine closed_state inCodeSection inOrgSection inBlock inList inTable
         inParagraph].
    destruct c; cbn [negb]; eexists; (split; [reflexivity|]);
      cbn [state output set_state set_output set_inCodeSection closed_state inCodeSection
           inOrgSection inBlock inList inTable inParagraph];
      rewrite ?app_nil_r, <- ?app_assoc; split; reflexivity.
  - intros Hs He. assert (Hb := @fence_not_blank CODEBLOCK_END_REGEX this eq_refl He).
    unfold processLine, at_line.
    cbn [thisLine nextLine set_nextLine set_thisLine state line].
    rewrite scan_of_nonblank by exact Hb.
    remember (scan_fields this next (state k) (line k)) as sf eqn:Esf.
    assert (F : Line.isCodeStart sf = false /\ Line.isCodeEnd sf = true).
    { rewrite Esf. unfold scan_fields. cbn [Line.isCodeStart Line.isCodeEnd].
      split; [|exact He].
      unfold Re.matches in Hs. destruct (Re.search CODEBLOCK_START_REGEX this);
        [discriminate|reflexivity]. }
    destruct F as [F1 F2].
    unfold dispatch. cbn [mode state line set_line set_nextLine set_thisLine].
    rewrite Hm, F1, F2. cbn [kmode_eqb andb]. unfold on_code_end. cbn [bind fst snd].
    unfold endCodeSection, update_state, append.
    destruct k as [[p t l b o c] m ln th nx ind out].
    cbn [state indents output mode line thisLine nextLine set_line set_nextLine
         set_thisLine inCodeSection].
    destruct c; eexists; (split; [reflexivity|]);
      cbn [state output set_state set_output set_inCodeSection inCodeSection
           inOrgSection inBlock inList inTable inParagraph];
      rewrite ?app_nil_r, <- ?app_assoc; split; reflexivity.
Qed.

Lemma code_fences_witness :
  exists k',
    processLine (at_line "code:python" "" new_KiwiMarkup) = OK k'
    /\ output k' = ["<pre>" : str; "<code>" : str].
Proof.
  destruct (@code_fences "code:python" "" new_KiwiMarkup eq_refl) as (H & _).
  destruct (H eq_refl) as (k' & E & O & _).
  exists k'. split; [exact E|]. rewrite O. reflexivity.
Defined.

(** X18: a blank line, outside a code section and when no rule was seen,
    closes the org section, the lists, the table and the paragraph that
    are open and writes nothing else; an indented block stays open. *)
Theorem blank_line_keeps_block (this next : str) (k : KiwiMarkup) :
  blank this = true -> inCodeSection (state k) = false ->
  Line.isHorizontalLine (line k) = false ->
  exists k',
    processLine (at_line this next k) = OK k'
    /\ output k'
       = output k ++ when (inOrgSection (state k)) "</p>"
         ++ list_closers (length (indents k))
         ++ when (inList (state k)) "</ul>"
         ++ when (inTable (state k)) "</table>"
         ++ when (inParagraph (state k)) "</p>"
    /\ state k' = set_inBlock (inBlock (state k)) new_state
    /\ indents k' = [].
Proof.
  intros Hb Hc Hh. unfold processLine, at_line.
  cbn [thisLine nextLine set_nextLine set_thisLine state line].
  rewrite scan_of_blank by exact Hb.
  unfold dispatch, scan_blank, Line.reset.
  cbn [mode state line set_line set_nextLine set_thisLine Line.set_isParagraph
       Line.set_isBlankLine Line.isOrgHeader Line.isCodeStart Line.isCodeEnd Line.isList
       Line.isBlock Line.isTable Line.isHeader Line.isHorizontalLine Line.isParagraph
       Line.isBlankLine].
  rewrite Hc, Hh, andb_false_r. unfold on_blank_line. cbn [bind fst snd].
  rewrite endParagraph_eq, endTable_eq, endAllLists_eq, endOrgSection_eq.
  destruct k as [[p t l b o c] m ln th nx ind out].
  cbn [state inCodeSection] in Hc. subst c.
  eexists. split; [reflexivity|].
  cbn [state indents output set_state set_output set_indents set_line set_nextLine
       set_thisLine set_inParagraph set_inTable set_inList set_inOrgSection set_inBlock
       inParagraph inTable inList inBlock inOrgSection inCodeSection new_state].
  rewrite <- !app_assoc. repeat split.
Qed.

Lemma blank_line_keeps_block_witness :
  exists k',
    processLine (at_line "  " "" (update_state (set_inBlock true) new_KiwiMarkup)) = OK k'
    /\ output k' = [] /\ inBlock (state k') = true.
Proof.
  destruct (@blank_line_keeps_block "  " "" (update_state (set_inBlock true) new_KiwiMarkup)
              eq_refl eq_refl eq_refl) as (k' & E & O & S & _).
  exists k'. split; [exact E|]. rewrite O, S. split; reflexivity.
Defined.
